(** * AceUp analytics server: the priority engine of [analytics_server.py]

    A shallow embedding of [AnalyticsEngine] (scoring, urgency classifier,
    recommendation generator and the selection routine
    [analyze_highest_weight_event]) together with the Python values it
    manipulates: binary64 floats, integers, strings, dictionaries held in a
    store of objects, and naive / aware datetimes. *)

From Stdlib Require Import ZArith Bool List Lia Ascii String.
From Stdlib Require Import Floats.SpecFloat.
From stdpp Require Import base option list gmap strings pretty.

Open Scope Z_scope.

(** ** Python floats: IEEE 754 binary64 *)

Module PyFloat.

Definition prec : Z := 53.
Definition emax : Z := 1024.

Abbreviation float := spec_float.

Definition add : float -> float -> float := SFadd prec emax.
Definition mul : float -> float -> float := SFmul prec emax.
Definition div : float -> float -> float := SFdiv prec emax.
Definition ltb : float -> float -> bool := SFltb.
Definition leb : float -> float -> bool := SFleb.

Definition is_nan (x : float) : bool :=
  match x with S754_nan => true | _ => false end.

Definition is_finite (x : float) : bool :=
  match x with S754_zero _ | S754_finite _ _ _ => true | _ => false end.

(** The double nearest to the integer [z] (ties to even), as [float(z)]
    computes it; integers beyond the double range come out infinite. *)
Definition of_Z (z : Z) : float := binary_normalize prec emax z 0 false.

(** The double nearest to the fraction [n / d] with [0 < d]: this is how
    a decimal literal such as [1.2] (12 / 10) is read. *)
Definition of_frac (neg : bool) (n d : positive) : float :=
  SFdiv prec emax (S754_finite neg n 0) (S754_finite false d 0).

(** The exact value of a finite float is [m * 2^e]; [scaled_rne x k]
    is that value times [k], rounded to the nearest integer, ties to
    even, computed on integers. *)
Definition rne_div (a b : Z) : Z :=
  let q := a / b in
  let r := a mod b in
  match 2 * r ?= b with
  | Lt => q
  | Gt => q + 1
  | Eq => if Z.even q then q else q + 1
  end.

Definition scaled_rne (m : positive) (e : Z) (k : Z) : Z :=
  match e with
  | Zneg p => rne_div (Zpos m * k) (2 ^ Zpos p)
  | _ => Zpos m * k * 2 ^ e
  end.

(** [round(x, ndigits)] for a float [x] and [0 <= ndigits]: the exact
    value of [x] is rounded to [ndigits] decimals, ties to even, and the
    decimal result is read back as the nearest double; the sign of [x]
    is kept on a zero result; infinities and NaN are returned as they
    are. *)
Definition round (x : float) (ndigits : Z) : float :=
  match x with
  | S754_finite s m e =>
      let k := 10 ^ ndigits in
      match scaled_rne m e k with
      | Zpos n => of_frac s n (Z.to_pos k)
      | _ => S754_zero s
      end
  | _ => x
  end.

(** [int(x)]: truncation toward zero; [None] on NaN and infinities,
    where Python raises. *)
Definition trunc (x : float) : option Z :=
  match x with
  | S754_zero _ => Some 0
  | S754_finite s m e =>
      let a := match e with
               | Zneg p => Zpos m / 2 ^ Zpos p
               | _ => Zpos m * 2 ^ e
               end in
      Some (if s then - a else a)
  | _ => None
  end.

(** Exact comparison of an integer with a float, as Python compares
    [int] with [float]; [None] when the float is NaN. *)
Definition compare_Z (z : Z) (x : float) : option comparison :=
  match x with
  | S754_nan => None
  | S754_infinity s => Some (if s then Gt else Lt)
  | S754_zero _ => Some (z ?= 0)
  | S754_finite s m e =>
      let v := if s then Zneg m else Zpos m in
      Some match e with
           | Zneg p => (z * 2 ^ Zpos p ?= v)
           | _ => (z ?= v * 2 ^ e)
           end
  end.

End PyFloat.

Abbreviation float := spec_float.

(** ** Python values, exceptions and objects *)

Inductive exn : Type :=
  | KeyError (key : string)
  | TypeError
  | AttributeError
  | ValueError
  | OverflowError
  | ZeroDivisionError.

Inductive result (A : Type) : Type :=
  | Ok (a : A)
  | Raise (e : exn).
Arguments Ok {A} a.
Arguments Raise {A} e.

#[export] Instance result_ret : MRet result := fun A a => Ok a.
#[export] Instance result_bind : MBind result := fun A B f m =>
  match m with
  | Ok a => f a
  | Raise e => Raise e
  end.

Definition is_ok {A} (r : result A) : bool :=
  match r with Ok _ => true | Raise _ => false end.

(** The scalar values found in the records of the event store. *)
Inductive value : Type :=
  | VNone
  | VInt (z : Z)
  | VFloat (f : float)
  | VStr (s : string).

(** A record of the store is a [dict] with string keys. *)
Abbreviation dict := (gmap string value).

(** Objects have an identity; the store maps identities to their current
    contents.  Two references to the same identity see each other's
    writes.  An identity the store does not hold reads as an empty
    dict. *)
Abbreviation loc := positive.
Abbreviation store := (gmap loc dict).

(** [d[k]] *)
Definition getitem (d : dict) (k : string) : result value :=
  match d !! k with
  | Some v => Ok v
  | None => Raise (KeyError k)
  end.

(** [v == s] for a string literal [s]. *)
Definition eq_str (v : value) (s : string) : bool :=
  match v with
  | VStr t => bool_decide (t = s)
  | _ => false
  end.

(** [float(z)] as the arithmetic operators convert an int operand. *)
Definition float_of_int (z : Z) : result float :=
  let f := PyFloat.of_Z z in
  if PyFloat.is_finite f then Ok f else Raise OverflowError.

(** [a * b] on numbers.  A [str] operand, which Python repeats, is
    outside the model and is answered with [TypeError]: the scoring
    function raises on such a weight in Python as well, in the addition
    that follows, and the properties of the recommendations below take a
    float weight. *)
Definition py_mul (a b : value) : result value :=
  match a, b with
  | VInt x, VInt y => Ok (VInt (x * y))
  | VFloat x, VFloat y => Ok (VFloat (PyFloat.mul x y))
  | VInt x, VFloat y => fx ← float_of_int x; Ok (VFloat (PyFloat.mul fx y))
  | VFloat x, VInt y => fy ← float_of_int y; Ok (VFloat (PyFloat.mul x fy))
  | _, _ => Raise TypeError
  end.

(** [a + b] on numbers. *)
Definition py_add (a b : value) : result value :=
  match a, b with
  | VInt x, VInt y => Ok (VInt (x + y))
  | VFloat x, VFloat y => Ok (VFloat (PyFloat.add x y))
  | VInt x, VFloat y => fx ← float_of_int x; Ok (VFloat (PyFloat.add fx y))
  | VFloat x, VInt y => fy ← float_of_int y; Ok (VFloat (PyFloat.add x fy))
  | _, _ => Raise TypeError
  end.

(** [a / b]: true division; two ints give the correctly rounded
    quotient. *)
Definition int_truediv (x y : Z) : result float :=
  match y with
  | 0 => Raise ZeroDivisionError
  | _ =>
      match x with
      | 0 => Ok (S754_zero (y <? 0))
      | _ =>
          let q := PyFloat.of_frac (xorb (x <? 0) (y <? 0))
                     (Z.to_pos (Z.abs x)) (Z.to_pos (Z.abs y)) in
          if PyFloat.is_finite q then Ok q else Raise OverflowError
      end
  end.

Definition float_truediv (x y : float) : result float :=
  match y with
  | S754_zero _ => Raise ZeroDivisionError
  | _ => Ok (PyFloat.div x y)
  end.

Definition py_truediv (a b : value) : result value :=
  match a, b with
  | VInt x, VInt y => q ← int_truediv x y; Ok (VFloat q)
  | VFloat x, VFloat y => q ← float_truediv x y; Ok (VFloat q)
  | VInt x, VFloat y =>
      fx ← float_of_int x; q ← float_truediv fx y; Ok (VFloat q)
  | VFloat x, VInt y =>
      fy ← float_of_int y; q ← float_truediv x fy; Ok (VFloat q)
  | _, _ => Raise TypeError
  end.

(** [a > b] and [a >= b] on numbers; an int and a float are compared
    exactly. *)
Definition cmp_is (ok : comparison -> bool) (c : option comparison) : bool :=
  match c with Some c => ok c | None => false end.

Definition py_gt (a b : value) : result bool :=
  match a, b with
  | VInt x, VInt y => Ok (y <? x)
  | VFloat x, VFloat y => Ok (PyFloat.ltb y x)
  | VInt x, VFloat y =>
      Ok (cmp_is (fun c => match c with Gt => true | _ => false end)
            (PyFloat.compare_Z x y))
  | VFloat x, VInt y =>
      Ok (cmp_is (fun c => match c with Lt => true | _ => false end)
            (PyFloat.compare_Z y x))
  | _, _ => Raise TypeError
  end.

Definition py_ge (a b : value) : result bool :=
  match a, b with
  | VInt x, VInt y => Ok (y <=? x)
  | VFloat x, VFloat y => Ok (PyFloat.leb y x)
  | VInt x, VFloat y =>
      Ok (cmp_is (fun c => match c with Lt => false | _ => true end)
            (PyFloat.compare_Z x y))
  | VFloat x, VInt y =>
      Ok (cmp_is (fun c => match c with Gt => false | _ => true end)
            (PyFloat.compare_Z y x))
  | _, _ => Raise TypeError
  end.

(** [round(v, ndigits)] with [0 <= ndigits]: an int is returned as it
    is, a float is rounded to a float. *)
Definition py_round (v : value) (ndigits : Z) : result value :=
  match v with
  | VInt z => Ok (VInt z)
  | VFloat f => Ok (VFloat (PyFloat.round f ndigits))
  | _ => Raise TypeError
  end.

(** [int(v)] on numbers; reading a [str] is outside the model. *)
Definition py_int (v : value) : result Z :=
  match v with
  | VInt z => Ok z
  | VFloat f =>
      match PyFloat.trunc f with
      | Some z => Ok z
      | None => Raise (if PyFloat.is_nan f then ValueError else OverflowError)
      end
  | _ => Raise TypeError
  end.

(** ** Strings *)

(** [s.replace('Z', '+00:00')]: every [Z] of [s] is replaced. *)
Fixpoint replace_Z (s : string) : string :=
  match s with
  | EmptyString => EmptyString
  | String c s' =>
      if Ascii.eqb c "Z"%char then ("+00:00" +:+ replace_Z s')%string
      else String c (replace_Z s')
  end.

(** ** Datetimes *)

(** A [datetime] is given by its wall-clock fields, counted here in
    microseconds since 0001-01-01T00:00:00, and by its offset from UTC in
    microseconds when it is aware of one ([None] for a naive one). *)
Record datetime : Type := mk_datetime {
  wall : Z;
  utcoffset : option Z
}.

(** A [timedelta] is kept normalised: [0 <= seconds < 86400] and
    [0 <= microseconds < 1000000], so that [days] carries the sign. *)
Record timedelta : Type := mk_timedelta {
  days : Z;
  seconds : Z;
  microseconds : Z
}.

Definition us_per_day : Z := 86400000000.

Definition timedelta_of_us (us : Z) : timedelta :=
  {| days := us / us_per_day;
     seconds := (us mod us_per_day) / 1000000;
     microseconds := us mod 1000000 |}.

(** The microseconds from the instant [b] to the instant [a]: on the
    wall clock for two naive datetimes, on UTC for two aware ones, and
    undefined for one of each. *)
Definition elapsed_us (a b : datetime) : option Z :=
  match utcoffset a, utcoffset b with
  | None, None => Some (wall a - wall b)
  | Some oa, Some ob => Some ((wall a - oa) - (wall b - ob))
  | _, _ => None
  end.

(** The largest number of days a [timedelta] holds. *)
Definition max_delta_days : Z := 999999999.

(** [a - b]: mixing a naive and an aware datetime raises [TypeError]; a
    difference beyond the range of [timedelta] raises [OverflowError]
    (two datetimes of the years 1 to 9999 never do). *)
Definition datetime_sub (a b : datetime) : result timedelta :=
  match elapsed_us a b with
  | Some us =>
      let delta := timedelta_of_us us in
      if (- max_delta_days <=? days delta) && (days delta <=? max_delta_days)
      then Ok delta
      else Raise OverflowError
  | None => Raise TypeError
  end.

(** ** Computations on the store *)

(** A computation reads and writes the store and either returns or
    raises; what it wrote before raising stays written. *)
Definition M (A : Type) : Type := store -> store * result A.

#[export] Instance M_ret : MRet M := fun A a h => (h, Ok a).
#[export] Instance M_bind : MBind M := fun A B f m h =>
  match m h with
  | (h', Ok a) => f a h'
  | (h', Raise e) => (h', Raise e)
  end.

Definition lift {A} (r : result A) : M A := fun h => (h, r).

(** The current contents of the object [l]. *)
Definition load (l : loc) : M dict := fun h => (h, Ok (h !!! l)).

(** [l[k] = v], in place. *)
Definition setitem (l : loc) (k : string) (v : value) : M unit :=
  fun h => (<[l := <[k := v]> (h !!! l)]> h, Ok tt).

(** ** The result of an analysis *)

Record analysis : Type := mk_analysis {
  total_pending_events : Z;
  average_weight : value;
  days_to_due : value;
  urgency_level : string;
  impact_score : value;
  course_load : string
}.

(** [data_event] is the returned event object itself ([None] for the
    JSON [null]): a reference into the store, not a copy. *)
Record response : Type := mk_response {
  success : bool;
  message : string;
  data_event : option loc;
  data_analysis : analysis;
  data_recommendations : list string;
  timestamp : string;
  user_id : string
}.

(** ** Float literals of the source *)

Definition f_1_2 : float := PyFloat.of_frac false 12 10.
Definition f_1_1 : float := PyFloat.of_frac false 11 10.
Definition f_1_0 : float := PyFloat.of_Z 1.
Definition f_0_9 : float := PyFloat.of_frac false 9 10.
Definition f_0_8 : float := PyFloat.of_frac false 8 10.
Definition f_0_3 : float := PyFloat.of_frac false 3 10.
Definition f_0_15 : float := PyFloat.of_frac false 15 100.
Definition f_0_0 : float := S754_zero false.

(** ** AnalyticsEngine *)

Section AnalyticsEngine.

(** Library functions the engine calls:
    [datetime.datetime.fromisoformat] ([None] where it raises
    [ValueError]), [datetime.isoformat], and the [repr] of a float that
    [str.format] prints. *)
Variable fromisoformat : string -> option datetime.
Variable isoformat : datetime -> string.
Variable float_repr : float -> string.

(** What [format] prints for a value. *)
Definition str_of_value (v : value) : string :=
  match v with
  | VNone => "None"
  | VInt z => pretty z
  | VFloat f => float_repr f
  | VStr s => s
  end.

(** [datetime.datetime.fromisoformat(event["due_date"].replace('Z', '+00:00'))] *)
Definition parse_due_date (event : dict) : result datetime :=
  v ← getitem event "due_date";
  s ← match v with
      | VStr s => Ok (replace_Z s)
      | _ => Raise AttributeError
      end;
  match fromisoformat s with
  | Some d => Ok d
  | None => Raise ValueError
  end.

(** The two lines that derive [days_until_due] (they occur twice, in
    [calculate_priority_score] and in the loop of
    [analyze_highest_weight_event]):
    [due_date = fromisoformat(...)] and [(due_date - current_time).days]. *)
Definition days_until_due_of (event : dict) (current_time : datetime)
  : result Z :=
  due_date ← parse_due_date event;
  delta ← datetime_sub due_date current_time;
  Ok (days delta).

Definition type_multipliers : gmap string float :=
  <["exam" := f_1_2]> (<["project" := f_1_1]> (<["assignment" := f_1_0]>
  (<["quiz" := f_0_9]> (<["homework" := f_0_8]> ∅)))).

(** [type_multipliers.get(ty, 1.0)] *)
Definition type_multipliers_get (ty : value) : float :=
  match ty with
  | VStr s => default f_1_0 (type_multipliers !! s)
  | _ => f_1_0
  end.

Definition calculate_priority_score (event : dict) (current_time : datetime)
  : result value :=
  days_until_due ← days_until_due_of event current_time;
  w ← getitem event "weight";
  weight_factor ← py_mul w (VInt 100);
  let urgency_factor := Z.max 0 (14 - days_until_due) * 5 in
  ty ← getitem event "type";
  let type_factor := type_multipliers_get ty in
  st ← getitem event "status";
  let status_penalty := if eq_str st "pending" then 0 else -50 in
  s1 ← py_add weight_factor (VInt urgency_factor);
  s2 ← py_mul s1 (VFloat type_factor);
  priority_score ← py_add s2 (VInt status_penalty);
  py_round priority_score 2.

Definition get_urgency_level (days_until_due : Z) : string :=
  if days_until_due <=? 1 then "critical"
  else if days_until_due <=? 3 then "high"
  else if days_until_due <=? 7 then "moderate"
  else "low".

Definition generate_recommendations
    (event : dict) (total_pending : Z) (days_until_due : Z)
  : result (list string) :=
  let recommendations : list string := [] in
  (* Time-based recommendations *)
  recommendations ←
    (if days_until_due <=? 1 then
       ty ← getitem event "type";
       Ok (recommendations ++
           ["🚨 URGENT: This " +:+ str_of_value ty +:+ " is due within 24 hours!";
            "Focus solely on this task and complete it as soon as possible"])
     else if days_until_due <=? 3 then
       ty ← getitem event "type";
       Ok (recommendations ++
           ["⚠️ Priority: This " +:+ str_of_value ty +:+ " is due very soon";
            "Allocate significant time today to work on this"])
     else if days_until_due <=? 7 then
       ty ← getitem event "type";
       Ok (recommendations ++
           ["📅 Plan ahead: Start working on this " +:+ str_of_value ty +:+ " soon"])
     else Ok recommendations);
  (* Weight-based recommendations *)
  w ← getitem event "weight";
  p ← py_mul w (VInt 100);
  weight_percentage ← py_int p;
  high ← py_ge w (VFloat f_0_3);
  recommendations ←
    (if (high : bool) then
       Ok (recommendations ++
           ["💎 High Impact: This task represents " +:+ pretty weight_percentage
              +:+ "% of your grade";
            "Consider dedicating extra study time given its importance"])
     else
       moderate ← py_ge w (VFloat f_0_15);
       if (moderate : bool) then
         Ok (recommendations ++
             ["📊 Moderate Impact: Worth " +:+ pretty weight_percentage
                +:+ "% of your final grade"])
       else Ok recommendations);
  (* Workload recommendations *)
  let recommendations :=
    if 8 <=? total_pending then
      recommendations ++
        ["📚 Heavy workload detected - prioritize by due date and weight";
         "Break down large tasks into smaller, manageable chunks"]
    else recommendations in
  (* Type-specific recommendations *)
  ty ← getitem event "type";
  let recommendations :=
    if eq_str ty "exam" then
      recommendations ++
        ["📖 Create a study schedule leading up to the exam";
         "Review past materials and practice problems"]
    else if eq_str ty "project" then
      recommendations ++
        ["🛠️ Break this project into phases with mini-deadlines";
         "Start with research and planning phases"]
    else if eq_str ty "assignment" then
      recommendations ++ ["✍️ Begin with an outline or initial draft"]
    else recommendations in
  Ok recommendations.

(** [[e for e in student_data["events"] if e["status"] == "pending"]]:
    a new list of the same objects. *)
Fixpoint filter_pending (events : list loc) : M (list loc) :=
  match events with
  | [] => mret []
  | e :: rest =>
      d ← load e;
      st ← lift (getitem d "status");
      pending ← filter_pending rest;
      mret (if eq_str st "pending" then e :: pending else pending)
  end.

(** The loop [for event in pending_events] that attaches the two
    derived fields. *)
Fixpoint score_events (current_time : datetime) (pending_events : list loc)
  : M unit :=
  match pending_events with
  | [] => mret tt
  | event :: rest =>
      d ← load event;
      score ← lift (calculate_priority_score d current_time);
      setitem event "priority_score" score;;
      d ← load event;
      days_until_due ← lift (days_until_due_of d current_time);
      setitem event "days_until_due" (VInt days_until_due);;
      score_events current_time rest
  end.

(** [max(pending_events, key=lambda e: e["priority_score"])]: the
    running maximum is replaced only by a strictly greater key. *)
Fixpoint max_loop (maxitem : loc) (maxval : value) (rest : list loc)
  : M loc :=
  match rest with
  | [] => mret maxitem
  | item :: rest' =>
      d ← load item;
      val ← lift (getitem d "priority_score");
      gt ← lift (py_gt val maxval);
      if (gt : bool) then max_loop item val rest'
      else max_loop maxitem maxval rest'
  end.

Definition max_by_priority_score (items : list loc) : M loc :=
  match items with
  | [] => lift (Raise ValueError)
  | item :: rest =>
      d ← load item;
      val ← lift (getitem d "priority_score");
      max_loop item val rest
  end.

(** [sum(e["weight"] for e in pending_events)]: the items are added from
    left to right, starting from the int [0], each addition rounding as
    [+] does (from Python 3.12 on, [sum] carries a compensation term for
    floats, which can change the last bit of the total). *)
Fixpoint sum_weights (acc : value) (items : list loc) : M value :=
  match items with
  | [] => mret acc
  | e :: rest =>
      d ← load e;
      w ← lift (getitem d "weight");
      acc' ← lift (py_add acc w);
      sum_weights acc' rest
  end.

(** The int behind [event["days_until_due"]], on which the classifier
    and the recommendation rules compare. *)
Definition as_int (v : value) : result Z :=
  match v with
  | VInt z => Ok z
  | _ => Raise TypeError
  end.

Definition no_pending_response (current_time : datetime) (user_id : string)
  : response :=
  {| success := true;
     message := "No pending academic events found. Great job staying on top of your work!";
     data_event := None;
     data_analysis :=
       {| total_pending_events := 0;
          average_weight := VFloat f_0_0;
          days_to_due := VInt 0;
          urgency_level := "low";
          impact_score := VFloat f_0_0;
          course_load := "Light" |};
     data_recommendations :=
       ["Consider planning ahead for upcoming assignments";
        "Review your course syllabi for future deadlines";
        "Use this free time to get ahead on reading or projects"];
     timestamp := isoformat current_time;
     user_id := user_id |}.

(** [analyze_highest_weight_event], from the point where the event
    store has answered: [events] is [student_data["events"]] (the
    objects live in the store the computation runs on) and
    [current_time] is the clock reading. *)
Definition analyze_highest_weight_event
    (events : list loc) (current_time : datetime) (user_id : string)
  : M response :=
  pending_events ← filter_pending events;
  match pending_events with
  | [] => mret (no_pending_response current_time user_id)
  | _ :: _ =>
      score_events current_time pending_events;;
      highest_priority_event ← max_by_priority_score pending_events;
      total_weight ← sum_weights (VInt 0) pending_events;
      let len := Z.of_nat (length pending_events) in
      average_weight ← lift (py_truediv total_weight (VInt len));
      hp ← load highest_priority_event;
      days_until_due ← lift (getitem hp "days_until_due");
      days ← lift (as_int days_until_due);
      let urgency_level := get_urgency_level days in
      let course_load :=
        if 8 <=? len then "Heavy"
        else if 5 <=? len then "Moderate"
        else "Light" in
      recommendations ← lift (generate_recommendations hp len days);
      rounded ← lift (py_round average_weight 3);
      priority_score ← lift (getitem hp "priority_score");
      mret
        {| success := true;
           message := "Successfully identified highest priority pending academic event";
           data_event := Some highest_priority_event;
           data_analysis :=
             {| total_pending_events := len;
                average_weight := rounded;
                days_to_due := days_until_due;
                urgency_level := urgency_level;
                impact_score := priority_score;
                course_load := course_load |};
           data_recommendations := recommendations;
           timestamp := isoformat current_time;
           user_id := user_id |}
  end.

End AnalyticsEngine.

(** ** A concrete reading of ISO 8601 strings

    The theorems below hold for any [fromisoformat], [isoformat] and
    [float_repr].  To run the engine on concrete records, this module
    implements the two datetime functions on the shape that [isoformat]
    itself prints: [YYYY-MM-DDTHH:MM:SS], then [.ffffff] when the
    microseconds are not zero, then [+HH:MM] or [-HH:MM] for an aware
    datetime. *)

Module Iso.

Definition digit_of (c : ascii) : option Z :=
  let n := Z.of_nat (nat_of_ascii c) in
  if (48 <=? n) && (n <=? 57) then Some (n - 48) else None.

(** Exactly [n] decimal digits at the head of [s]. *)
Fixpoint digits (n : nat) (acc : Z) (s : string) : option (Z * string) :=
  match n with
  | O => Some (acc, s)
  | S n' =>
      match s with
      | String c s' =>
          match digit_of c with
          | Some d => digits n' (10 * acc + d) s'
          | None => None
          end
      | EmptyString => None
      end
  end.

Definition expect (c : ascii) (s : string) : option string :=
  match s with
  | String c' s' => if Ascii.eqb c c' then Some s' else None
  | EmptyString => None
  end.

Definition is_leap (y : Z) : bool :=
  ((y mod 4 =? 0) && negb (y mod 100 =? 0)) || (y mod 400 =? 0).

Definition days_in_month (y m : Z) : Z :=
  if m =? 2 then (if is_leap y then 29 else 28)
  else if (m =? 4) || (m =? 6) || (m =? 9) || (m =? 11) then 30
  else 31.

(** Days from 0001-01-01 to the given date of the proleptic Gregorian
    calendar. *)
Definition days_before (y m d : Z) : Z :=
  let y' := if m <=? 2 then y - 1 else y in
  let era := y' / 400 in
  let yoe := y' - era * 400 in
  let mp := if 2 <? m then m - 3 else m + 9 in
  let doy := (153 * mp + 2) / 5 + d - 1 in
  let doe := yoe * 365 + yoe / 4 - yoe / 100 + doy in
  era * 146097 + doe - 306.

Definition parse_offset (s : string) : option (option Z) :=
  match s with
  | EmptyString => Some None
  | String c s' =>
      sign ← (if Ascii.eqb c "+" then Some 1
              else if Ascii.eqb c "-" then Some (-1) else None);
      '(hh, s1) ← digits 2 0 s';
      s2 ← expect ":" s1;
      '(mm, s3) ← digits 2 0 s2;
      match s3 with
      | EmptyString =>
          if (hh <? 24) && (mm <? 60)
          then Some (Some (sign * (hh * 3600 + mm * 60) * 1000000))
          else None
      | _ => None
      end
  end.

Definition fromisoformat (s : string) : option datetime :=
  '(y, s) ← digits 4 0 s;
  s ← expect "-" s;
  '(m, s) ← digits 2 0 s;
  s ← expect "-" s;
  '(d, s) ← digits 2 0 s;
  s ← expect "T" s;
  '(hh, s) ← digits 2 0 s;
  s ← expect ":" s;
  '(mi, s) ← digits 2 0 s;
  s ← expect ":" s;
  '(ss, s) ← digits 2 0 s;
  '(us, s) ← match expect "." s with
             | Some s' => digits 6 0 s'
             | None => Some (0, s)
             end;
  off ← parse_offset s;
  if (1 <=? y) && (1 <=? m) && (m <=? 12) && (1 <=? d)
     && (d <=? days_in_month y m) && (hh <? 24) && (mi <? 60) && (ss <? 60)
  then
    Some {| wall := ((days_before y m d * 86400 + hh * 3600 + mi * 60 + ss)
                      * 1000000 + us);
            utcoffset := off |}
  else None.

(** Zero-padded decimal of width [n]. *)
Fixpoint pad (n : nat) (z : Z) : string :=
  match n with
  | O => ""
  | S n' => pad n' (z / 10) +:+ pretty (z mod 10)
  end.

(** The date, [n] days after 0001-01-01. *)
Definition civil (n : Z) : Z * Z * Z :=
  let z := n + 306 in
  let era := z / 146097 in
  let doe := z - era * 146097 in
  let yoe := (doe - doe / 1460 + doe / 36524 - doe / 146096) / 365 in
  let doy := doe - (365 * yoe + yoe / 4 - yoe / 100) in
  let mp := (5 * doy + 2) / 153 in
  let d := doy - (153 * mp + 2) / 5 + 1 in
  let m := if mp <? 10 then mp + 3 else mp - 9 in
  let y := yoe + era * 400 + (if m <=? 2 then 1 else 0) in
  (y, m, d).

Definition isoformat (t : datetime) : string :=
  let secs := wall t / 1000000 in
  let us := wall t mod 1000000 in
  let '(y, m, d) := civil (secs / 86400) in
  let sod := secs mod 86400 in
  pad 4 y +:+ "-" +:+ pad 2 m +:+ "-" +:+ pad 2 d +:+ "T"
    +:+ pad 2 (sod / 3600) +:+ ":" +:+ pad 2 (sod / 60 mod 60) +:+ ":"
    +:+ pad 2 (sod mod 60)
    +:+ (if us =? 0 then "" else "." +:+ pad 6 us)
    +:+ match utcoffset t with
        | None => ""
        | Some o =>
            let a := Z.abs o / 60000000 in
            (if o <? 0 then "-" else "+") +:+ pad 2 (a / 60) +:+ ":"
              +:+ pad 2 (a mod 60)
        end.

End Iso.

(** ** Sample records

    Records shaped like those of [AnalyticsData.get_student_data], with
    due dates relative to the instant [now]. *)

Module Sample.

(** Not reached by the samples: none of them formats a float. *)
Definition float_repr (f : float) : string := "<float>".

Definition now : datetime :=
  default (mk_datetime 0 None) (Iso.fromisoformat "2025-03-01T12:00:00").

Definition f_0_30 : float := PyFloat.of_frac false 30 100.
Definition f_0_35 : float := PyFloat.of_frac false 35 100.
Definition f_0_08 : float := PyFloat.of_frac false 8 100.
Definition f_0_05 : float := PyFloat.of_frac false 5 100.
Definition f_0_25 : float := PyFloat.of_frac false 25 100.

Definition event (id title course type due_date : string) (weight : float)
    (status priority : string) (estimated_hours : Z) : dict :=
  list_to_map
    [("id", VStr id); ("title", VStr title); ("course_id", VStr course);
     ("type", VStr type); ("due_date", VStr due_date);
     ("weight", VFloat weight); ("status", VStr status);
     ("priority", VStr priority); ("estimated_hours", VInt estimated_hours)].

(** Final project, due in 5 days. *)
Definition event1 : dict :=
  event "event1" "Final Programming Project" "cs101" "project"
    "2025-03-06T12:00:00" f_0_25 "pending" "high" 20.

(** Midterm exam, due in exactly 2 days. *)
Definition event2 : dict :=
  event "event2" "Calculus Midterm Exam" "math201" "exam"
    "2025-03-03T12:00:00" f_0_30 "pending" "critical" 8.

(** Lab report, due in 1 day. *)
Definition event3 : dict :=
  event "event3" "Physics Lab Report #3" "phys151" "assignment"
    "2025-03-02T12:00:00" f_0_08 "pending" "medium" 4.

(** Homework, due in 7 days. *)
Definition event4 : dict :=
  event "event4" "Homework Assignment 7" "math201" "homework"
    "2025-03-08T12:00:00" f_0_05 "pending" "medium" 3.

(** A completed quiz. *)
Definition event5 : dict :=
  event "event5" "Algorithm Analysis Quiz" "cs101" "quiz"
    "2025-03-11T12:00:00" f_0_08 "completed" "medium" 2.

(** A quiz that was due one hour ago. *)
Definition event6 : dict :=
  event "event6" "Overdue Quiz" "cs101" "quiz"
    "2025-03-01T11:00:00" f_0_08 "pending" "medium" 2.

(** A heavy exam due later today. *)
Definition event7 : dict :=
  event "event7" "Physics Final Exam" "phys151" "exam"
    "2025-03-01T18:00:00" f_0_35 "pending" "high" 12.

(** A course record (its scalar fields). *)
Definition course1 : dict :=
  list_to_map
    [("id", VStr "cs101"); ("name", VStr "Introduction to Computer Science");
     ("code", VStr "CS 101"); ("credits", VInt 3)].

(** A store holding one course and the events 2, 3, 4 and 5. *)
Definition store1 : store :=
  list_to_map [(1%positive, course1); (2%positive, event2);
               (3%positive, event3); (4%positive, event4);
               (5%positive, event5)].
Definition events1 : list loc := [2; 3; 4; 5]%positive.

(** The midterm with its due date written with the UTC designator. *)
Definition event2_utc : dict :=
<["due_date" := VStr "2025-03-03T12:00:00Z"]> event2.

(** The instant [now] as an aware datetime, in UTC. *)
Definition now_utc : datetime :=
{| wall := wall now; utcoffset := Some 0 |}.

(** Two readings due in 20 and in 30 days. *)
Definition event10 : dict :=
event "event10" "Reading Report" "cs101" "assignment"
  "2025-03-21T12:00:00" f_0_08 "pending" "low" 3.

Definition event11 : dict :=
event "event11" "Reading Report II" "cs101" "assignment"
  "2025-03-31T09:30:00" f_0_08 "pending" "low" 3.

(** A pending quiz whose due date is not a date. *)
Definition event8 : dict :=
event "event8" "Pop Quiz" "cs101" "quiz"
  "next tuesday" f_0_08 "pending" "medium" 1.

(** The same store with the malformed quiz added. *)
Definition store2 : store := <[8%positive := event8]> store1.

(** A second midterm with the weight, type and due date of [event2]. *)
Definition event9 : dict :=
event "event9" "Statistics Midterm Exam" "stat210" "exam"
  "2025-03-03T12:00:00" f_0_30 "pending" "high" 8.

(** A store in which the events 2 and 9 tie for the highest score. *)
Definition store3 : store :=
list_to_map [(3%positive, event3); (2%positive, event2);
             (9%positive, event9); (5%positive, event5)].
Definition events3 : list loc := [3; 2; 5; 9]%positive.

Definition analyze := analyze_highest_weight_event
                        Iso.fromisoformat Iso.isoformat float_repr.

(** The store and the result after analysing [store1]. *)
Definition store1_after : store :=
(analyze events1 now "student123" store1).1.

Definition result1 : response :=
match (analyze events1 now "student123" store1).2 with
| Ok r => r
| Raise _ => no_pending_response Iso.isoformat now "student123"
end.

End Sample.

(** ** The specification's formulas

    Definitions written from the words of the specification, to be
    compared with the engine above. *)

Module Spec.

(** Fixed multiplier per event type; unknown types default to 1.0. *)
Definition type_factor (ty : value) : float :=
  if eq_str ty "exam" then f_1_2
  else if eq_str ty "project" then f_1_1
  else if eq_str ty "assignment" then f_1_0
  else if eq_str ty "quiz" then f_0_9
  else if eq_str ty "homework" then f_0_8
  else f_1_0.

(** 0 if the status is pending, else -50. *)
Definition status_penalty (st : value) : Z :=
  if eq_str st "pending" then 0 else -50.

(** [round((weight*100 + max(0, 14 - days)*5) * type_factor
    + status_penalty, 2)] *)
Definition score (weight : float) (days_until_due : Z) (ty st : value)
  : float :=
  let weight_factor := PyFloat.mul weight (PyFloat.of_Z 100) in
  let urgency_factor := PyFloat.of_Z (Z.max 0 (14 - days_until_due) * 5) in
  PyFloat.round
    (PyFloat.add
       (PyFloat.mul (PyFloat.add weight_factor urgency_factor)
          (type_factor ty))
       (PyFloat.of_Z (status_penalty st)))
    2.

(** An ordered table of (threshold, label) pairs, first match wins. *)
Fixpoint first_match (table : list (Z * string)) (otherwise : string)
    (d : Z) : string :=
  match table with
  | [] => otherwise
  | (threshold, label) :: table' =>
      if d <=? threshold then label else first_match table' otherwise d
  end.

Definition classify : Z -> string :=
  first_match [(1, "critical"); (3, "high"); (7, "moderate")] "low".

(** Whole days truncated toward zero. *)
Definition trunc_days (us : Z) : Z := Z.quot us us_per_day.

(** Whole days rounded down. *)
Definition floor_days (us : Z) : Z := us / us_per_day.

(** The four rule groups of the recommendation generator. *)
Definition time_group (ty : string) (d : Z) : list string :=
  if d <=? 1 then
    ["🚨 URGENT: This " +:+ ty +:+ " is due within 24 hours!";
     "Focus solely on this task and complete it as soon as possible"]
  else if d <=? 3 then
    ["⚠️ Priority: This " +:+ ty +:+ " is due very soon";
     "Allocate significant time today to work on this"]
  else if d <=? 7 then
    ["📅 Plan ahead: Start working on this " +:+ ty +:+ " soon"]
  else [].

Definition weight_group (weight : float) (percentage : Z) : list string :=
  if PyFloat.leb f_0_3 weight then
    ["💎 High Impact: This task represents " +:+ pretty percentage
       +:+ "% of your grade";
     "Consider dedicating extra study time given its importance"]
  else if PyFloat.leb f_0_15 weight then
    ["📊 Moderate Impact: Worth " +:+ pretty percentage
       +:+ "% of your final grade"]
  else [].

Definition workload_group (total_pending : Z) : list string :=
  if 8 <=? total_pending then
    ["📚 Heavy workload detected - prioritize by due date and weight";
     "Break down large tasks into smaller, manageable chunks"]
  else [].

Definition type_group (ty : value) : list string :=
  if eq_str ty "exam" then
    ["📖 Create a study schedule leading up to the exam";
     "Review past materials and practice problems"]
  else if eq_str ty "project" then
    ["🛠️ Break this project into phases with mini-deadlines";
     "Start with research and planning phases"]
  else if eq_str ty "assignment" then
    ["✍️ Begin with an outline or initial draft"]
  else [].

(** The group sizes the specification gives. *)
Definition time_count (d : Z) : nat :=
  if d <=? 1 then 2 else if d <=? 3 then 2 else if d <=? 7 then 1 else 0.

Definition weight_count (weight : float) : nat :=
  if PyFloat.leb f_0_3 weight then 2
  else if PyFloat.leb f_0_15 weight then 1 else 0.

Definition workload_count (total_pending : Z) : nat :=
  if 8 <=? total_pending then 2 else 0.

Definition type_count (ty : value) : nat :=
  if eq_str ty "exam" then 2
  else if eq_str ty "project" then 2
  else if eq_str ty "assignment" then 1
  else 0.

(** The mean of the weights, rounded to 3 decimals. *)
Definition average_weight (weights : list float) : float :=
PyFloat.round
  (PyFloat.div (fold_left PyFloat.add weights (PyFloat.of_Z 0))
     (PyFloat.of_Z (Z.of_nat (length weights))))
  3.

(** Heavy from 8 pending events, Moderate from 5, else Light. *)
Definition course_load (pending_count : Z) : string :=
if 8 <=? pending_count then "Heavy"
else if 5 <=? pending_count then "Moderate"
else "Light".

End Spec.

(** ** Notions used to state the properties *)

#[export] Instance float_eq_dec : EqDecision float.
Proof. solve_decision. Defined.

#[export] Instance value_eq_dec : EqDecision value.
Proof. solve_decision. Defined.

(** The record [l] has a status field. *)
Definition has_status (h : store) (l : loc) : Prop :=
  is_Some ((h !!! l) !! "status").

(** The record [l] has the status "pending". *)
Definition is_pending (h : store) (l : loc) : Prop :=
  (h !!! l) !! "status" = Some (VStr "pending").

#[export] Instance has_status_dec h l : Decision (has_status h l).
Proof. unfold has_status. apply _. Defined.

#[export] Instance is_pending_dec h l : Decision (is_pending h l).
Proof. unfold is_pending. apply _. Defined.

(** The pending events, in input order. *)
Definition pending_of (h : store) (events : list loc) : list loc :=
  filter (is_pending h) events.

(** The score of a record as a float; NaN stands for a record that
    cannot be scored. *)
Definition score_float (fromisoformat : string -> option datetime)
    (now : datetime) (event : dict) : float :=
  match calculate_priority_score fromisoformat event now with
  | Ok (VFloat s) => s
  | _ => S754_nan
  end.

(** A record is scorable when scoring it returns a finite float. *)
Definition scorable (fromisoformat : string -> option datetime)
    (now : datetime) (event : dict) : Prop :=
  PyFloat.is_finite (score_float fromisoformat now event) = true.

(** The record [event] with the two derived fields attached. *)
Definition with_derived (score : value) (days_until_due : Z) (event : dict)
  : dict :=
  <["days_until_due" := VInt days_until_due]>
    (<["priority_score" := score]> event).

(** What the scoring loop leaves in place of the record [event]: the
    record with its two derived fields, when it can be scored. *)
Definition derive (fromisoformat : string -> option datetime)
    (now : datetime) (event : dict) : dict :=
  match calculate_priority_score fromisoformat event now,
        days_until_due_of fromisoformat event now with
  | Ok s, Ok n => with_derived s n event
  | _, _ => event
  end.

(** A computation that never writes the store. *)
Definition read_only {A} (m : M A) : Prop := forall h, (m h).1 = h.

(** The order of [SFcompare] on the floats that are not NaN, as a
    lexicographic order on integer triples: the class of the float, then
    its exponent, then its mantissa. *)
Definition rank (x : float) : Z * Z * Z :=
  match x with
  | S754_zero _ | S754_nan => (0, 0, 0)
  | S754_infinity false => (2, 0, 0)
  | S754_infinity true => (-2, 0, 0)
  | S754_finite false m e => (1, e, Zpos m)
  | S754_finite true m e => (-1, - e, Zneg m)
  end.

Definition lex_lt (a b : Z * Z * Z) : Prop :=
  let '(a1, a2, a3) := a in
  let '(b1, b2, b3) := b in
  a1 < b1 \/ (a1 = b1 /\ (a2 < b2 \/ (a2 = b2 /\ a3 < b3))).

Definition lex_le (a b : Z * Z * Z) : Prop :=
  let '(a1, a2, a3) := a in
  let '(b1, b2, b3) := b in
  a1 < b1 \/ (a1 = b1 /\ (a2 < b2 \/ (a2 = b2 /\ a3 <= b3))).

(** Whether the first string of a list starts with [p]. *)
Definition first_starts_with (p : string) (l : list string) : bool :=
  match l with
  | r :: _ => String.prefix p r
  | [] => false
  end.

(** The four urgency labels by severity. *)
Definition severity (level : string) : nat :=
  if bool_decide (level = "critical") then 3
  else if bool_decide (level = "high") then 2
  else if bool_decide (level = "moderate") then 1
  else 0.

(** The record [e] of the store already holds the derived fields that
    scoring it would write. *)
Definition settled (fromisoformat : string -> option datetime)
    (now : datetime) (h : store) (e : loc) : Prop :=
  exists d s n,
    h !! e = Some d
    /\ calculate_priority_score fromisoformat d now = Ok s
    /\ days_until_due_of fromisoformat d now = Ok n
    /\ d !! "priority_score" = Some s
    /\ d !! "days_until_due" = Some (VInt n).

(** ** The server around the engine

    The mock event store [AnalyticsData.get_student_data], the whole of
    [analyze_highest_weight_event] (which first asks the store and reads
    the clock) and the request handler [AnalyticsHandler]. *)

(** Data handed to [json.dumps]: scalars, lists, dict displays with
    their keys in source order, and dict objects of the store. *)
#[warnings="-register-all"]
Inductive json : Type :=
  | JVal (v : value)
  | JBool (b : bool)
  | JList (items : list json)
  | JObj (fields : list (string * json))
  | JDict (l : loc).

(** The dict returned by [get_student_data]. *)
Record student_data : Type := mk_student_data {
  sd_user_id : string;
  sd_courses : list json;
  sd_events : list loc;
  sd_last_updated : string
}.

(** What the handler does to its connection, call by call, and the
    lines that [log_message] prints in between. *)
Inductive http_call : Type :=
  | SendResponse (code : Z)
  | SendHeader (keyword val : string)
  | EndHeaders
  | WfileWrite (data : string)
  | LogLine (line : string).

(** The state a request runs in: the objects, the number of clock
    readings taken so far, and the calls made on the connection, with
    the log lines. *)
Record world : Type := mk_world {
  w_store : store;
  w_reads : nat;
  w_out : list http_call
}.

Inductive failure : Type :=
  | EngineError (e : exn)
  | IndexError.

Inductive outcome (A : Type) : Type :=
  | Returned (a : A)
  | Failed (f : failure).
Arguments Returned {A} a.
Arguments Failed {A} f.

Definition W (A : Type) : Type := world -> world * outcome A.

#[export] Instance W_ret : MRet W := fun A a w => (w, Returned a).
#[export] Instance W_bind : MBind W := fun A B f m w =>
  match m w with
  | (w', Returned a) => f a w'
  | (w', Failed e) => (w', Failed e)
  end.

(** A computation on the objects alone. *)
Definition run_engine {A} (m : M A) : W A := fun w =>
  let '(h, r) := m (w_store w) in
  (mk_world h (w_reads w) (w_out w),
   match r with
   | Ok a => Returned a
   | Raise e => Failed (EngineError e)
   end).

(** A new dict object: an identity the store does not hold yet. *)
Definition alloc (d : dict) : M loc := fun h =>
  let l := fresh (dom h) in (<[l := d]> h, Ok l).

(** The first instant no [datetime] can hold, 10000-01-01T00:00:00, in
    microseconds since 0001-01-01T00:00:00. *)
Definition max_wall : Z := 3652059 * us_per_day.

(** [datetime.timedelta(days=n)] *)
Definition timedelta_days (n : Z) : timedelta :=
  timedelta_of_us (n * us_per_day).

(** [t + delta]; a result outside the years 1 to 9999 raises
    [OverflowError]. *)
Definition datetime_add (t : datetime) (delta : timedelta) : result datetime :=
  let us := days delta * us_per_day + seconds delta * 1000000
            + microseconds delta in
  let wall' := wall t + us in
  if (0 <=? wall') && (wall' <? max_wall)
  then Ok (mk_datetime wall' (utcoffset t))
  else Raise OverflowError.

(** One entry of the list of sample events: the fields of its dict
    display, the due date given by the number of days after [now]. *)
Record mock_event : Type := mk_mock_event {
  me_id : string;
  me_title : string;
  me_description : string;
  me_course_id : string;
  me_course_name : string;
  me_type : string;
  me_due_in_days : Z;
  me_weight : float;
  me_status : string;
  me_priority : string;
  me_estimated_hours : Z
}.

Definition mock_events : list mock_event :=
  [ mk_mock_event "event1" "Final Programming Project"
      "Develop a complete web application using React and Node.js"
      "cs101" "Introduction to Computer Science" "project" 5
      (PyFloat.of_frac false 25 100) "pending" "high" 20;
    mk_mock_event "event2" "Calculus Midterm Exam"
      "Comprehensive exam covering integration techniques and applications"
      "math201" "Calculus II" "exam" 2
      (PyFloat.of_frac false 30 100) "pending" "critical" 8;
    mk_mock_event "event3" "Physics Lab Report #3"
      "Analysis of pendulum motion and harmonic oscillation"
      "phys151" "Physics I" "assignment" 1
      (PyFloat.of_frac false 8 100) "pending" "medium" 4;
    mk_mock_event "event4" "Homework Assignment 7"
      "Integration by parts and partial fractions"
      "math201" "Calculus II" "homework" 7
      (PyFloat.of_frac false 5 100) "pending" "medium" 3;
    mk_mock_event "event5" "Algorithm Analysis Quiz"
      "Big O notation and complexity analysis"
      "cs101" "Introduction to Computer Science" "quiz" 10
      (PyFloat.of_frac false 8 100) "pending" "medium" 2;
    mk_mock_event "event6" "Physics Final Exam"
      "Comprehensive final covering all semester material"
      "phys151" "Physics I" "exam" 12
      (PyFloat.of_frac false 35 100) "pending" "high" 12 ].

(** The dict display of one sample event. *)
Definition mock_event_dict (m : mock_event) (due_date : string) : dict :=
  list_to_map
    [("id", VStr (me_id m)); ("title", VStr (me_title m));
     ("description", VStr (me_description m));
     ("course_id", VStr (me_course_id m));
     ("course_name", VStr (me_course_name m));
     ("type", VStr (me_type m)); ("due_date", VStr due_date);
     ("weight", VFloat (me_weight m)); ("status", VStr (me_status m));
     ("priority", VStr (me_priority m));
     ("estimated_hours", VInt (me_estimated_hours m))].

Definition jstr (s : string) : json := JVal (VStr s).
Definition jint (z : Z) : json := JVal (VInt z).
Definition jfloat (n d : positive) : json :=
  JVal (VFloat (PyFloat.of_frac false n d)).

(** The dict display of one sample course. *)
Definition mock_course (id name code : string) (credits : Z)
    (instructor color : string)
    (assignments exams projects participation current target : json)
  : json :=
  JObj [("id", jstr id); ("name", jstr name); ("code", jstr code);
        ("credits", jint credits); ("instructor", jstr instructor);
        ("color", jstr color); ("semester", jstr "Fall");
        ("year", jint 2024);
        ("grade_weight",
         JObj [("assignments", assignments); ("exams", exams);
               ("projects", projects); ("participation", participation)]);
        ("current_grade", current); ("target_grade", target)].

Definition mock_courses : list json :=
  [ mock_course "cs101" "Introduction to Computer Science" "CS 101" 3
      "Dr. Smith" "#122C4A"
      (jfloat 4 10) (jfloat 4 10) (jfloat 15 100) (jfloat 5 100)
      (jfloat 85 100) (jfloat 90 100);
    mock_course "math201" "Calculus II" "MATH 201" 4
      "Prof. Johnson" "#50E3C2"
      (jfloat 25 100) (jfloat 60 100) (JVal (VFloat (S754_zero false)))
      (jfloat 15 100) (jfloat 78 100) (jfloat 85 100);
    mock_course "phys151" "Physics I" "PHYS 151" 4
      "Dr. Wilson" "#FF6B6B"
      (jfloat 20 100) (jfloat 50 100) (jfloat 20 100) (jfloat 10 100)
      (jfloat 82 100) (jfloat 88 100) ].

Section Server.

(** Library functions: as above, and the path and the query of
    [urlparse], [parse_qs], and [json.dumps(data, indent=2)], which reads
    the dict objects in the store. *)
Variable fromisoformat : string -> option datetime.
Variable isoformat : datetime -> string.
Variable float_repr : float -> string.
Variable url_path : string -> string.
Variable url_query : string -> string.
Variable parse_qs : string -> gmap string (list string).
Variable json_dumps : store -> json -> string.

(** The dashboard page, a string literal of some 800 lines. *)
Variable html_content : string.

(** [strftime('%H:%M:%S')], and the text [format % args] that
    [log_request] of [BaseHTTPRequestHandler] hands to [log_message] for
    a status code: the request line, the code and [-] for the size. *)
Variable strftime_HMS : datetime -> string.
Variable request_log : Z -> string.

(** The wall clock: [clock n] is the reading, in microseconds since
    0001-01-01T00:00:00, that the call number [n] of [datetime.now()]
    returns. *)
Variable clock : nat -> Z.

(** [datetime.datetime.now()]: a naive datetime. *)
Definition datetime_now : W datetime := fun w =>
  (mk_world (w_store w) (S (w_reads w)) (w_out w),
   Returned (mk_datetime (clock (w_reads w)) None)).

(** One element of the list display of events:
    [(now + datetime.timedelta(days=n)).isoformat()] and the dict. *)
Definition new_event (now : datetime) (m : mock_event) : W loc :=
  run_engine
    (due ← lift (datetime_add now (timedelta_days (me_due_in_days m)));
     alloc (mock_event_dict m (isoformat due))).

Fixpoint new_events (now : datetime) (ms : list mock_event) : W (list loc) :=
  match ms with
  | [] => mret []
  | m :: ms' =>
      l ← new_event now m;
      ls ← new_events now ms';
      mret (l :: ls)
  end.

Definition get_student_data (user_id : string) : W student_data :=
  now ← datetime_now;
  let courses := mock_courses in
  events ← new_events now mock_events;
  mret {| sd_user_id := user_id;
          sd_courses := courses;
          sd_events := events;
          sd_last_updated := isoformat now |}.

(** The whole of [analyze_highest_weight_event(user_id)]: the two lines
    that ask the store and read the clock, then the body modelled
    above. *)
Definition analyze_highest_weight_event_request (user_id : string)
  : W response :=
  student_data ← get_student_data user_id;
  current_time ← datetime_now;
  run_engine
    (analyze_highest_weight_event fromisoformat isoformat float_repr
       (sd_events student_data) current_time user_id).

(** The result dict as [json.dumps] receives it. *)
Definition json_of_response (r : response) : json :=
  JObj
    [("success", JBool (success r));
     ("message", jstr (message r));
     ("data",
      JObj
        [("event",
          match data_event r with
          | Some l => JDict l
          | None => JVal VNone
          end);
         ("analysis",
          JObj
            [("total_pending_events",
              jint (total_pending_events (data_analysis r)));
             ("average_weight", JVal (average_weight (data_analysis r)));
             ("days_to_due", JVal (days_to_due (data_analysis r)));
             ("urgency_level", jstr (urgency_level (data_analysis r)));
             ("impact_score", JVal (impact_score (data_analysis r)));
             ("course_load", jstr (course_load (data_analysis r)))]);
         ("recommendations", JList (jstr <$> data_recommendations r))]);
     ("timestamp", jstr (timestamp r));
     ("user_id", jstr (user_id r))].

Definition json_of_student_data (sd : student_data) : json :=
  JObj [("user_id", jstr (sd_user_id sd));
        ("courses", JList (sd_courses sd));
        ("events", JList (JDict <$> sd_events sd));
        ("last_updated", jstr (sd_last_updated sd))].

(** The methods of [BaseHTTPRequestHandler] the handler calls. *)
Definition emit (c : http_call) : W unit := fun w =>
  (mk_world (w_store w) (w_reads w) (w_out w ++ [c]), Returned tt).

(** [log_message]:
    [print(f"[{datetime.datetime.now().strftime('%H:%M:%S')}] {format % args}")] *)
Definition log_message (text : string) : W unit :=
  now ← datetime_now;
  emit (LogLine ("[" +:+ strftime_HMS now +:+ "] " +:+ text)).

(** [send_response] of [BaseHTTPRequestHandler] logs the request, which
    calls [log_message] above, and then buffers the status line. *)
Definition send_response (code : Z) : W unit :=
  log_message (request_log code);;
  emit (SendResponse code).
Definition send_header (keyword val : string) : W unit :=
  emit (SendHeader keyword val).
Definition end_headers : W unit := emit EndHeaders.
Definition wfile_write (data : string) : W unit := emit (WfileWrite data).

(** [json.dumps(data, indent=2).encode()] *)
Definition dumps (data : json) : W string := fun w =>
  (w, Returned (json_dumps (w_store w) data)).

Definition _set_cors_headers : W unit :=
  send_header "Access-Control-Allow-Origin" "*";;
  send_header "Access-Control-Allow-Methods" "GET, POST, OPTIONS";;
  send_header "Access-Control-Allow-Headers" "Content-Type".

Definition _send_json_response (data : json) (status_code : Z) : W unit :=
  send_response status_code;;
  send_header "Content-Type" "application/json";;
  _set_cors_headers;;
  end_headers;;
  body ← dumps data;
  wfile_write body.

Definition do_OPTIONS : W unit :=
  send_response 200;;
  _set_cors_headers;;
  end_headers.

Definition _serve_dashboard : W unit :=
  send_response 200;;
  send_header "Content-Type" "text/html";;
  _set_cors_headers;;
  end_headers;;
  wfile_write html_content.

(** [query_params.get('user_id', ['student123'])[0]] *)
Definition user_id_param (query_params : gmap string (list string))
  : W string :=
  match default ["student123"] (query_params !! "user_id") with
  | user_id :: _ => mret user_id
  | [] => fun w => (w, Failed IndexError)
  end.

(** [do_GET], for the request line path [self_path]. *)
Definition do_GET (self_path : string) : W unit :=
  let path := url_path self_path in
  let query_params := parse_qs (url_query self_path) in
  if bool_decide (path = "/") then
    _serve_dashboard
  else if bool_decide (path = "/api/health") then
    now ← datetime_now;
    _send_json_response
      (JObj [("status", jstr "healthy");
             ("service", jstr "AceUp Analytics Server");
             ("timestamp", jstr (isoformat now));
             ("version", jstr "1.0.0")])
      200
  else if bool_decide (path = "/api/highest-weight-event") then
    user_id ← user_id_param query_params;
    result ← analyze_highest_weight_event_request user_id;
    _send_json_response (json_of_response result) 200
  else if bool_decide (path = "/api/student-data") then
    user_id ← user_id_param query_params;
    data ← get_student_data user_id;
    _send_json_response (json_of_student_data data) 200
  else
    _send_json_response
      (JObj [("error", jstr "Endpoint not found");
             ("available_endpoints",
              JList [jstr "/api/health";
                     jstr "/api/highest-weight-event";
                     jstr "/api/student-data"])])
      404.

End Server.

(** A server to run: a clock that advances by one millisecond from
    reading to reading, and stand-ins for the library functions that the
    samples do not depend on. *)
Module ServerSample.

Definition clock (n : nat) : Z := wall Sample.now + Z.of_nat n * 1000.

(** A clock that does not advance. *)
Definition frozen_clock (n : nat) : Z := wall Sample.now.

Definition url_path (s : string) : string := s.
Definition url_query (s : string) : string := "".
Definition parse_qs (s : string) : gmap string (list string) := ∅.
Definition json_dumps (h : store) (data : json) : string := "<json>".
Definition html_content : string := "<!DOCTYPE html>".
Definition strftime_HMS (t : datetime) : string := "12:00:00".
Definition request_log (code : Z) : string :=
  if code =? 200 then "GET 200 -" else "GET 404 -".

Definition world0 : world := mk_world ∅ 0 [].

Definition analyze (clock : nat -> Z) :=
  analyze_highest_weight_event_request
    Iso.fromisoformat Iso.isoformat Sample.float_repr clock.

Definition do_GET :=
  do_GET Iso.fromisoformat Iso.isoformat Sample.float_repr
    url_path url_query parse_qs json_dumps html_content strftime_HMS
    request_log clock.

End ServerSample.

(** A computation of the server that makes no call on the
    connection and logs nothing. *)
Definition quiet {A} (m : W A) : Prop := forall w, w_out (m w).1 = w_out w.

(** The result [r] with another echoed user. *)
Definition with_user_id (uid : string) (r : response) : response :=
  {| success := success r;
     message := message r;
     data_event := data_event r;
     data_analysis := data_analysis r;
     data_recommendations := data_recommendations r;
     timestamp := timestamp r;
     user_id := uid |}.

(** The paths [do_GET] knows. *)
Definition known_paths : list string :=
  ["/"; "/api/health"; "/api/highest-weight-event"; "/api/student-data"].

(** The three headers of [_set_cors_headers]. *)
Definition cors_headers : list http_call :=
  [SendHeader "Access-Control-Allow-Origin" "*";
   SendHeader "Access-Control-Allow-Methods" "GET, POST, OPTIONS";
   SendHeader "Access-Control-Allow-Headers" "Content-Type"].

(** * Properties *)

(** ** Floats: small integers convert exactly *)

Lemma digits2_pos_shift (m : positive) (k : positive) :
  digits2_pos (Pos.iter xO m k) = (digits2_pos m + k)%positive.
Proof.
  induction k as [|k IH] using Pos.peano_ind.
  - simpl. lia.
  - rewrite Pos.iter_succ. simpl. rewrite IH. lia.
Qed.

Lemma digits2_pos_size (m : positive) : digits2_pos m = Pos.size m.
Proof. induction m as [m IH|m IH|]; simpl; congruence. Qed.

Lemma digits2_pos_bound (m : positive) (n : positive) :
  Zpos m < 2 ^ Zpos n -> (digits2_pos m <= n)%positive.
Proof.
  intros Hlt. rewrite digits2_pos_size.
  destruct (Pos.leb_spec (Pos.size m) n) as [Hle|Hgt]; [exact Hle|exfalso].
  pose proof (Pos.size_le m) as Hsz.
  assert (Hz : 2 ^ Zpos (Pos.size m) <= 2 * Zpos m).
  { change (2 * Zpos m) with (Zpos m~0).
    rewrite <- Pos2Z.inj_pow. lia. }
  assert (Hpow : 2 ^ (Zpos n + 1) <= 2 ^ Zpos (Pos.size m)).
  { apply Z.pow_le_mono_r; lia. }
  rewrite Z.pow_add_r in Hpow by lia. lia.
Qed.

Lemma fexp_normal (e : Z) :
  -1074 <= e -> fexp PyFloat.prec PyFloat.emax (53 + e) = e.
Proof. unfold fexp, emin, PyFloat.prec, PyFloat.emax. lia. Qed.

(** A 53-bit mantissa with an exponent in range is already rounded. *)
Lemma binary_round_aux_exact (s : bool) (m : positive) (e : Z) :
  digits2_pos m = 53%positive -> -1074 <= e <= 971 ->
  binary_round_aux PyFloat.prec PyFloat.emax s (Zpos m) e loc_Exact
  = S754_finite s m e.
Proof.
  intros Hd He.
  assert (Hshr : shr_fexp PyFloat.prec PyFloat.emax (Zpos m) e loc_Exact
                 = (Build_shr_record (Zpos m) false false, e)).
  { unfold shr_fexp. cbn [Zdigits2]. rewrite Hd, fexp_normal by lia.
    rewrite Z.sub_diag. reflexivity. }
  unfold binary_round_aux. rewrite Hshr.
  cbn [shr_m loc_of_shr_record round_nearest_even]. rewrite Hshr.
  cbn [shr_m].
  destruct (e <=? PyFloat.emax - PyFloat.prec) eqn:Hle; [reflexivity|].
  apply Z.leb_gt in Hle. unfold PyFloat.emax, PyFloat.prec in Hle. lia.
Qed.

(** An integer below [2^53] is a double, so converting it never
    overflows. *)
Lemma of_Z_finite (z : Z) :
  Z.abs z < 2 ^ 53 -> PyFloat.is_finite (PyFloat.of_Z z) = true.
Proof.
  intros Hz. unfold PyFloat.of_Z, binary_normalize.
  assert (Hpos : forall s m, Zpos m < 2 ^ 53 ->
            PyFloat.is_finite
              (binary_round PyFloat.prec PyFloat.emax s m 0) = true).
  { clear. intros s m Hm.
    pose proof (digits2_pos_bound m 53 Hm) as Hd.
    unfold binary_round.
    assert (Hfexp : fexp PyFloat.prec PyFloat.emax (Zpos (digits2_pos m) + 0)
                    = Zpos (digits2_pos m) - 53).
    { unfold fexp, emin, PyFloat.prec, PyFloat.emax. lia. }
    rewrite Hfexp. unfold shl_align.
    destruct (Zpos (digits2_pos m) - 53 - 0) as [|q|q] eqn:Hq; [|lia|].
    - rewrite binary_round_aux_exact; [reflexivity|lia|lia].
    - rewrite binary_round_aux_exact; [reflexivity| |lia].
      rewrite digits2_pos_shift. lia. }
  destruct z as [|m|m]; [reflexivity| |]; apply Hpos; lia.
Qed.

Lemma float_of_int_small (z : Z) :
  Z.abs z < 2 ^ 53 -> float_of_int z = Ok (PyFloat.of_Z z).
Proof. intros Hz. unfold float_of_int. by rewrite of_Z_finite. Qed.

(** ** The result monad *)

(** Runs the binds whose first computation has returned. *)
Tactic Notation "run_result" := cbn [mbind result_bind mret result_ret].
Tactic Notation "run_result" "in" hyp(H) :=
  cbn [mbind result_bind mret result_ret] in H.

Lemma bind_Ok {A B} (a : A) (k : A -> result B) : (x ← Ok a; k x) = k a.
Proof. reflexivity. Qed.

Lemma getitem_Some (d : dict) (k : string) (v : value) :
  d !! k = Some v -> getitem d k = Ok v.
Proof. intros H. unfold getitem. by rewrite H. Qed.

Lemma getitem_Ok (d : dict) (k : string) (v : value) :
  getitem d k = Ok v -> d !! k = Some v.
Proof. unfold getitem. destruct (d !! k); congruence. Qed.

(** ** Scoring *)

Lemma datetime_sub_days_range (a b : datetime) (delta : timedelta) :
  datetime_sub a b = Ok delta ->
  - max_delta_days <= days delta <= max_delta_days.
Proof.
  unfold datetime_sub. destruct (elapsed_us a b) as [us|]; [|discriminate].
  destruct (_ && _) eqn:Hr; [|discriminate].
  intros [= <-]. apply andb_true_iff in Hr. lia.
Qed.

Lemma days_until_due_of_range fromisoformat event now d :
  days_until_due_of fromisoformat event now = Ok d ->
  - max_delta_days <= d <= max_delta_days.
Proof.
  unfold days_until_due_of.
  destruct (parse_due_date fromisoformat event) as [due|]; [|discriminate].
  rewrite bind_Ok.
  destruct (datetime_sub due now) as [delta|] eqn:Hsub; [|discriminate].
  intros [= <-]. by apply datetime_sub_days_range in Hsub.
Qed.

Lemma type_multipliers_get_spec (ty : value) :
  type_multipliers_get ty = Spec.type_factor ty.
Proof.
  destruct ty as [|z|f|s]; try reflexivity.
  unfold type_multipliers_get, Spec.type_factor, type_multipliers, eq_str.
  repeat (case_bool_decide;
          [subst s; reflexivity | rewrite lookup_insert_ne by congruence]).
  by rewrite lookup_empty.
Qed.

Lemma py_mul_float_int (x : float) (y : Z) :
  Z.abs y < 2 ^ 53 ->
  py_mul (VFloat x) (VInt y) = Ok (VFloat (PyFloat.mul x (PyFloat.of_Z y))).
Proof. intros Hy. unfold py_mul. by rewrite float_of_int_small. Qed.

Lemma py_add_float_int (x : float) (y : Z) :
  Z.abs y < 2 ^ 53 ->
  py_add (VFloat x) (VInt y) = Ok (VFloat (PyFloat.add x (PyFloat.of_Z y))).
Proof. intros Hy. unfold py_add. by rewrite float_of_int_small. Qed.

Lemma two_53 : 2 ^ 53 = 9007199254740992.
Proof. reflexivity. Qed.

(** The score of a record with a float weight. *)
Lemma calculate_priority_score_float
    (fromisoformat : string -> option datetime) (event : dict)
    (now : datetime) (w : float) (ty st : value) (d : Z) :
  event !! "weight" = Some (VFloat w) ->
  event !! "type" = Some ty ->
  event !! "status" = Some st ->
  days_until_due_of fromisoformat event now = Ok d ->
  calculate_priority_score fromisoformat event now
    = Ok (VFloat (Spec.score w d ty st)).
Proof.
  intros Hw Hty Hst Hd.
  pose proof (days_until_due_of_range _ _ _ _ Hd) as Hrange.
  unfold max_delta_days in Hrange.
  unfold calculate_priority_score.
  rewrite Hd, bind_Ok.
  rewrite (getitem_Some _ _ _ Hw), bind_Ok.
  rewrite (getitem_Some _ _ _ Hty), (getitem_Some _ _ _ Hst).
  rewrite py_mul_float_int by (rewrite two_53; lia).
  rewrite !bind_Ok.
  rewrite py_add_float_int by (rewrite two_53; lia).
  rewrite bind_Ok. cbn [py_mul]. rewrite bind_Ok.
  rewrite py_add_float_int
    by (rewrite two_53; destruct (eq_str st "pending"); lia).
  rewrite bind_Ok. unfold py_round, Spec.score, Spec.status_penalty.
  by rewrite type_multipliers_get_spec.
Qed.





(** A due date with the UTC designator is scored against an aware clock
    reading, and raises [TypeError] against a naive one (which is what
    [datetime.now()] returns). *)
Lemma calculate_priority_score_utc :
  calculate_priority_score Iso.fromisoformat Sample.event2_utc Sample.now_utc
  = Ok (VFloat (PyFloat.of_Z 108))
  /\ calculate_priority_score Iso.fromisoformat Sample.event2_utc Sample.now
     = Raise TypeError.
Proof. split; vm_compute; reflexivity. Qed.

(** ** Urgency classifier *)

(** C4. The classifier is total on the integers and returns exactly one
    of the four labels, by the thresholds in order, first match wins:
    [<= 1] (every negative integer included) is critical, [<= 3] high,
    [<= 7] moderate, anything else low; 1 is critical, 2 and 3 high, 4 and
    7 moderate, 8 low. *)
Theorem get_urgency_level_thresholds (d : Z) :
  get_urgency_level d = Spec.classify d
  /\ (d <= 1 -> get_urgency_level d = "critical")
  /\ (d < 0 -> get_urgency_level d = "critical")
  /\ (1 < d <= 3 -> get_urgency_level d = "high")
  /\ (3 < d <= 7 -> get_urgency_level d = "moderate")
  /\ (7 < d -> get_urgency_level d = "low")
  /\ get_urgency_level d ∈ ["critical"; "high"; "moderate"; "low"]
  /\ get_urgency_level 1 = "critical"
  /\ get_urgency_level 2 = "high"
  /\ get_urgency_level 3 = "high"
  /\ get_urgency_level 4 = "moderate"
  /\ get_urgency_level 7 = "moderate"
  /\ get_urgency_level 8 = "low".
Proof.
  assert (Hcases :
    (d <= 1 /\ get_urgency_level d = "critical")
    \/ (1 < d <= 3 /\ get_urgency_level d = "high")
    \/ (3 < d <= 7 /\ get_urgency_level d = "moderate")
    \/ (7 < d /\ get_urgency_level d = "low")).
  { unfold get_urgency_level.
    destruct (Z.leb_spec d 1); [left; done|].
    destruct (Z.leb_spec d 3); [right; left; split; [lia|done]|].
    destruct (Z.leb_spec d 7); [right; right; left; split; [lia|done]|].
    right; right; right. split; [lia|done]. }
  split; [|split; [|split; [|split; [|split; [|split; [|split]]]]]].
  - unfold get_urgency_level, Spec.classify, Spec.first_match. reflexivity.
  - intros Hd. destruct Hcases as [[_ ->]|[[? _]|[[? _]|[? _]]]]; [done|lia..].
  - intros Hd. destruct Hcases as [[_ ->]|[[? _]|[[? _]|[? _]]]]; [done|lia..].
  - intros Hd. destruct Hcases as [[? _]|[[_ ->]|[[? _]|[? _]]]]; [lia|done|lia..].
  - intros Hd. destruct Hcases as [[? _]|[[? _]|[[_ ->]|[? _]]]]; [lia|lia|done|lia].
  - intros Hd. destruct Hcases as [[? _]|[[? _]|[[? _]|[_ ->]]]]; [lia|lia|lia|done].
  - destruct Hcases as [[_ ->]|[[_ ->]|[[_ ->]|[_ ->]]]].
    + apply list_elem_of_here.
    + apply list_elem_of_further, list_elem_of_here.
    + do 2 apply list_elem_of_further. apply list_elem_of_here.
    + do 3 apply list_elem_of_further. apply list_elem_of_here.
  - repeat split.
Qed.

(** ** Recommendation generator *)

Lemma py_int_float_trunc (x : float) (z : Z) :
  PyFloat.trunc x = Some z -> py_int (VFloat x) = Ok z.
Proof. intros H. unfold py_int. by rewrite H. Qed.

(** The strings of the generator, group by group. *)
Lemma generate_recommendations_float
    (float_repr : float -> string) (event : dict)
    (total_pending days_until_due : Z) (w : float) (ty : value) (pct : Z) :
  event !! "weight" = Some (VFloat w) ->
  event !! "type" = Some ty ->
  PyFloat.trunc (PyFloat.mul w (PyFloat.of_Z 100)) = Some pct ->
  generate_recommendations float_repr event total_pending days_until_due
    = Ok (Spec.time_group (str_of_value float_repr ty) days_until_due
            ++ Spec.weight_group w pct
            ++ Spec.workload_group total_pending
            ++ Spec.type_group ty).
Proof.
  intros Hw Hty Hpct.
  pose proof (py_mul_float_int w 100 ltac:(by vm_compute)) as Hmul.
  pose proof (py_int_float_trunc _ _ Hpct) as Hint.
  unfold generate_recommendations.
  rewrite !(getitem_Some _ _ _ Hw), !(getitem_Some _ _ _ Hty).
  unfold Spec.time_group, Spec.weight_group, Spec.workload_group,
    Spec.type_group.
  destruct (days_until_due <=? 1); [|destruct (days_until_due <=? 3);
    [|destruct (days_until_due <=? 7)]];
    cbn [mbind result_bind]; rewrite Hmul;
    cbn [mbind result_bind]; rewrite Hint;
    cbn [mbind result_bind py_ge];
    (destruct (PyFloat.leb f_0_3 w);
       [|cbn [mbind result_bind]; destruct (PyFloat.leb f_0_15 w)]);
    cbn [mbind result_bind];
    destruct (8 <=? total_pending);
    destruct (eq_str ty "exam"), (eq_str ty "project"),
      (eq_str ty "assignment"); reflexivity.
Qed.

(** C5. For an event with a float weight whose percentage [weight * 100]
    is finite, the generator returns the strings of four rule groups in
    this order: time-based (2 strings when [days_until_due <= 1], else 2
    when [<= 3], else 1 when [<= 7], else none), weight-based (2 when
    [weight >= 0.30], else 1 when [weight >= 0.15], else none), workload
    (2 when at least 8 events are pending, else none), type-specific (2
    for an exam, 2 for a project, 1 for an assignment, none for any other
    type).  For the weight 0.35, 0 days, the type exam and 10 pending
    events it returns exactly 8 strings, in that group order. *)
Theorem generate_recommendations_groups
    (float_repr : float -> string) (event : dict)
    (total_pending days_until_due : Z) (w : float) (ty : value) (pct : Z) :
  event !! "weight" = Some (VFloat w) ->
  event !! "type" = Some ty ->
  PyFloat.trunc (PyFloat.mul w (PyFloat.of_Z 100)) = Some pct ->
  generate_recommendations float_repr event total_pending days_until_due
    = Ok (Spec.time_group (str_of_value float_repr ty) days_until_due
            ++ Spec.weight_group w pct
            ++ Spec.workload_group total_pending
            ++ Spec.type_group ty)
  /\ length (Spec.time_group (str_of_value float_repr ty) days_until_due)
     = Spec.time_count days_until_due
  /\ length (Spec.weight_group w pct) = Spec.weight_count w
  /\ length (Spec.workload_group total_pending)
     = Spec.workload_count total_pending
  /\ length (Spec.type_group ty) = Spec.type_count ty
  /\ generate_recommendations Sample.float_repr Sample.event7 10 0
     = Ok ["🚨 URGENT: This exam is due within 24 hours!";
           "Focus solely on this task and complete it as soon as possible";
           "💎 High Impact: This task represents 35% of your grade";
           "Consider dedicating extra study time given its importance";
           "📚 Heavy workload detected - prioritize by due date and weight";
           "Break down large tasks into smaller, manageable chunks";
           "📖 Create a study schedule leading up to the exam";
           "Review past materials and practice problems"].
Proof.
  intros Hw Hty Hpct.
  split; [|split; [|split; [|split; [|split]]]].
  - by apply generate_recommendations_float.
  - unfold Spec.time_group, Spec.time_count.
    repeat (destruct (_ <=? _); try reflexivity).
  - unfold Spec.weight_group, Spec.weight_count.
    repeat (destruct (PyFloat.leb _ _); try reflexivity).
  - unfold Spec.workload_group, Spec.workload_count.
    destruct (_ <=? _); reflexivity.
  - unfold Spec.type_group, Spec.type_count.
    repeat (destruct (eq_str _ _); try reflexivity).
  - vm_compute. reflexivity.
Qed.

Lemma generate_recommendations_groups_witness :
  generate_recommendations Sample.float_repr Sample.event2 3 2
  = Ok (Spec.time_group "exam" 2 ++ Spec.weight_group Sample.f_0_30 30
          ++ Spec.workload_group 3 ++ Spec.type_group (VStr "exam")).
Proof.
  apply (generate_recommendations_groups Sample.float_repr Sample.event2 3 2
           Sample.f_0_30 (VStr "exam") 30); vm_compute; reflexivity.
Defined.

(** ** Computations on the store *)

Lemma bindM_eq {A B} (m : M A) (k : A -> M B) (h : store) :
  (x ← m; k x) h
  = match m h with
    | (h', Ok a) => k a h'
    | (h', Raise e) => (h', Raise e)
    end.
Proof. reflexivity. Qed.

Lemma bindM_load {B} (l : loc) (k : dict -> M B) (h : store) :
  (d ← load l; k d) h = k (h !!! l) h.
Proof. reflexivity. Qed.

Lemma bindM_lift_Ok {A B} (r : result A) (a : A) (k : A -> M B) (h : store) :
  r = Ok a -> (x ← lift r; k x) h = k a h.
Proof. intros ->. reflexivity. Qed.

Lemma bindM_lift_Raise {A B} (r : result A) (e : exn) (k : A -> M B)
    (h : store) :
  r = Raise e -> (x ← lift r; k x) h = (h, Raise e).
Proof. intros ->. reflexivity. Qed.

Lemma eq_str_true (v : value) (s : string) :
  eq_str v s = true <-> v = VStr s.
Proof.
  destruct v as [|z|f|t]; simpl; try (split; [discriminate|congruence]).
  rewrite bool_decide_eq_true. split; congruence.
Qed.

Lemma eq_str_is_pending (h : store) (l : loc) (st : value) :
  (h !!! l) !! "status" = Some st ->
  (eq_str st "pending" = true <-> is_pending h l).
Proof.
  intros Hst. unfold is_pending. rewrite Hst, eq_str_true.
  split; congruence.
Qed.

(** The list comprehension leaves the store as it is; it returns the
    pending events in order when every event has a status, and raises
    [KeyError] otherwise. *)
Lemma filter_pending_run (events : list loc) (h : store) :
  filter_pending events h
  = (h, if decide (Forall (has_status h) events)
        then Ok (pending_of h events)
        else Raise (KeyError "status")).
Proof.
  induction events as [|e rest IH]; [reflexivity|].
  cbn [filter_pending]. rewrite bindM_load.
  destruct ((h !!! e) !! "status") as [st|] eqn:Hst.
  - rewrite (bindM_lift_Ok _ st) by (by apply getitem_Some).
    rewrite bindM_eq, IH.
    destruct (decide (Forall (has_status h) rest)) as [Hrest|Hrest].
    + rewrite decide_True by (constructor; [by exists st|done]).
      unfold pending_of. cbn [mret M_ret]. f_equal. f_equal.
      destruct (eq_str st "pending") eqn:Hp.
      * rewrite filter_cons_True; [done|]. by apply (eq_str_is_pending h e st).
      * rewrite filter_cons_False; [done|].
        intros Hpend. apply (eq_str_is_pending h e st) in Hpend; congruence.
    + rewrite decide_False; [done|]. by inversion 1.
  - rewrite (bindM_lift_Raise _ (KeyError "status"))
      by (unfold getitem; by rewrite Hst).
    rewrite decide_False; [done|].
    inversion 1 as [|? ? [st Hst'] ?]; subst. congruence.
Qed.

(** ** No pending events *)

(** C6. When no event of the user has the status "pending", the analysis
    succeeds: [success] is true, the event is null, the analysis fields
    are 0 pending events, average weight 0.0, 0 days to due, urgency
    "low", impact score 0.0 and course load "Light", and the
    recommendations are exactly three fixed encouragement strings.  The
    store is left as it was. *)
Theorem analyze_no_pending_events
    (fromisoformat : string -> option datetime)
    (isoformat : datetime -> string) (float_repr : float -> string)
    (events : list loc) (now : datetime) (uid : string) (h : store) :
  Forall (fun l => has_status h l /\ ~ is_pending h l) events ->
  exists r,
    analyze_highest_weight_event fromisoformat isoformat float_repr
      events now uid h = (h, Ok r)
    /\ success r = true
    /\ data_event r = None
    /\ total_pending_events (data_analysis r) = 0
    /\ average_weight (data_analysis r) = VFloat (S754_zero false)
    /\ days_to_due (data_analysis r) = VInt 0
    /\ urgency_level (data_analysis r) = "low"
    /\ impact_score (data_analysis r) = VFloat (S754_zero false)
    /\ course_load (data_analysis r) = "Light"
    /\ length (data_recommendations r) = 3%nat
    /\ data_recommendations r
       = ["Consider planning ahead for upcoming assignments";
          "Review your course syllabi for future deadlines";
          "Use this free time to get ahead on reading or projects"].
Proof.
  intros Hall.
  assert (Hst : Forall (has_status h) events).
  { eapply Forall_impl; [exact Hall|]. by intros l [? _]. }
  assert (Hnone : pending_of h events = []).
  { unfold pending_of. induction Hall as [|l rest [_ Hl] _ IH]; [done|].
    rewrite filter_cons_False by done. apply IH. by inversion Hst. }
  exists (no_pending_response isoformat now uid).
  split; [|repeat split].
  unfold analyze_highest_weight_event.
  rewrite bindM_eq, filter_pending_run, decide_True by done.
  by rewrite Hnone.
Qed.

Lemma analyze_no_pending_events_witness :
  exists r,
    Sample.analyze [5%positive] Sample.now "student123" Sample.store1
      = (Sample.store1, Ok r)
    /\ success r = true /\ data_event r = None
    /\ total_pending_events (data_analysis r) = 0
    /\ length (data_recommendations r) = 3%nat.
Proof.
  destruct (analyze_no_pending_events Iso.fromisoformat Iso.isoformat
              Sample.float_repr [5%positive] Sample.now "student123"
              Sample.store1) as (r & Hrun & Hs & He & Hn & _ & _ & _ & _ & _ & Hl & _).
  - constructor; [split|constructor].
    + vm_compute. eexists. reflexivity.
    + intros Hp. vm_compute in Hp. discriminate Hp.
  - exists r. repeat split; assumption.
Defined.

(** ** Days until due *)

(** C3 as stated does not hold: for a due date one hour in the past,
    truncation toward zero gives 0 whole days, and the engine derives
    -1. *)
Lemma days_until_due_past_counterexample :
  (due ← parse_due_date Iso.fromisoformat Sample.event6;
   Ok (elapsed_us due Sample.now)) = Ok (Some (-3600000000))
  /\ Spec.trunc_days (-3600000000) = 0
  /\ days_until_due_of Iso.fromisoformat Sample.event6 Sample.now = Ok (-1).
Proof. vm_compute. repeat split. Qed.

(** C3 (amended). The derived [days_until_due] is the exact difference
    between the due instant and [now], in whole days rounded down (floor)
    whatever its sign: it equals the truncated difference when the due
    date is not in the past, and a due date less than 24 hours in the
    past yields -1. *)
Theorem days_until_due_of_floor
    (fromisoformat : string -> option datetime) (event : dict)
    (now due : datetime) (us : Z) :
  parse_due_date fromisoformat event = Ok due ->
  elapsed_us due now = Some us ->
  - max_delta_days <= Spec.floor_days us <= max_delta_days ->
  days_until_due_of fromisoformat event now = Ok (Spec.floor_days us)
  /\ us_per_day * Spec.floor_days us <= us
     < us_per_day * (Spec.floor_days us + 1)
  /\ (0 <= us -> Spec.floor_days us = Spec.trunc_days us)
  /\ (- us_per_day <= us < 0 -> Spec.floor_days us = -1).
Proof.
  intros Hdue Hus Hrange. unfold Spec.floor_days, Spec.trunc_days in *.
  assert (Hday : 0 < us_per_day) by (by vm_compute).
  repeat split.
  - unfold days_until_due_of, datetime_sub.
    rewrite Hdue, bind_Ok, Hus. cbn [timedelta_of_us days].
    destruct (_ && _) eqn:Hr; [reflexivity|].
    apply andb_false_iff in Hr. destruct Hr as [Hr|Hr];
      apply Z.leb_gt in Hr; lia.
  - apply Z.mul_div_le; lia.
  - pose proof (Z.mul_succ_div_gt us us_per_day Hday). lia.
  - intros Hpos. symmetry. apply Z.quot_div_nonneg; lia.
  - intros Hneg. symmetry. apply Z.div_unique with (r := us + us_per_day); lia.
Qed.

Lemma days_until_due_of_floor_witness :
  days_until_due_of Iso.fromisoformat Sample.event6 Sample.now = Ok (-1).
Proof.
  apply (days_until_due_of_floor Iso.fromisoformat Sample.event6 Sample.now
           (mk_datetime 63876423600000000 None) (-3600000000)).
  - vm_compute. reflexivity.
  - vm_compute. reflexivity.
  - vm_compute. split; discriminate.
Defined.

(** ** The scoring loop *)

Section Scoring.

Variable fromisoformat : string -> option datetime.
Variable now : datetime.

Local Abbreviation score := (calculate_priority_score fromisoformat).
Local Abbreviation days_of := (days_until_due_of fromisoformat).

(** Scoring reads the due date, the weight, the type and the status,
    and nothing else. *)
Lemma days_until_due_of_insert (k : string) (v : value) (d : dict) :
  k <> "due_date" ->
  days_of (<[k := v]> d) now = days_of d now.
Proof.
  intros Hk. unfold days_until_due_of, parse_due_date, getitem.
  by rewrite lookup_insert_ne.
Qed.

Lemma calculate_priority_score_insert (k : string) (v : value) (d : dict) :
  k <> "due_date" -> k <> "weight" -> k <> "type" -> k <> "status" ->
  score (<[k := v]> d) now = score d now.
Proof.
  intros H1 H2 H3 H4. unfold calculate_priority_score.
  rewrite days_until_due_of_insert by done.
  unfold getitem. by rewrite !lookup_insert_ne.
Qed.

Lemma days_of_with_derived (s : value) (n : Z) (d : dict) :
  days_of (with_derived s n d) now = days_of d now.
Proof.
  unfold with_derived. by rewrite !days_until_due_of_insert.
Qed.

Lemma score_with_derived (s : value) (n : Z) (d : dict) :
  score (with_derived s n d) now = score d now.
Proof.
  unfold with_derived. by rewrite !calculate_priority_score_insert.
Qed.

(** A record that can be scored has a due date that can be read. *)
Lemma score_Ok_days (d : dict) (s : value) :
  score d now = Ok s -> exists n, days_of d now = Ok n.
Proof.
  unfold calculate_priority_score.
  destruct (days_of d now) as [n|e]; [eauto|discriminate].
Qed.

Lemma derive_Ok (d : dict) (s : value) (n : Z) :
  score d now = Ok s -> days_of d now = Ok n ->
  derive fromisoformat now d = with_derived s n d.
Proof. intros Hs Hn. unfold derive. by rewrite Hs, Hn. Qed.

Lemma score_derive (d : dict) :
  score (derive fromisoformat now d) now = score d now.
Proof.
  unfold derive. destruct (score d now) as [s|e] eqn:Hs; [|done].
  destruct (days_of d now) as [n|e] eqn:Hn; [|done].
  by rewrite score_with_derived.
Qed.

Lemma days_of_derive (d : dict) :
  days_of (derive fromisoformat now d) now = days_of d now.
Proof.
  unfold derive. destruct (score d now) as [s|e] eqn:Hs; [|done].
  destruct (days_of d now) as [n|e] eqn:Hn; [|done].
  by rewrite days_of_with_derived.
Qed.

Lemma with_derived_idem (s : value) (n : Z) (d : dict) :
  with_derived s n (with_derived s n d) = with_derived s n d.
Proof.
  unfold with_derived. apply map_eq. intros k.
  destruct (decide (k = "days_until_due")) as [->|Hk1].
  { by rewrite !lookup_insert_eq. }
  rewrite !(lookup_insert_ne _ "days_until_due") by done.
  destruct (decide (k = "priority_score")) as [->|Hk2].
  { by rewrite !lookup_insert_eq. }
  rewrite !(lookup_insert_ne _ "priority_score") by done.
  by rewrite !lookup_insert_ne.
Qed.

Lemma derive_idem (d : dict) :
  derive fromisoformat now (derive fromisoformat now d)
  = derive fromisoformat now d.
Proof.
  unfold derive at 1. rewrite score_derive, days_of_derive.
  destruct (score d now) as [s|e] eqn:Hs; [|done].
  destruct (days_of d now) as [n|e] eqn:Hn; [|done].
  rewrite (derive_Ok d s n) by done. apply with_derived_idem.
Qed.

(** One turn of the loop on a record that can be scored. *)
Lemma score_events_cons (event : loc) (rest : list loc) (h : store)
    (s : value) (n : Z) :
  score (h !!! event) now = Ok s ->
  days_of (h !!! event) now = Ok n ->
  score_events fromisoformat now (event :: rest) h
  = score_events fromisoformat now rest
      (<[event := with_derived s n (h !!! event)]>
         (<[event := <["priority_score" := s]> (h !!! event)]> h)).
Proof.
  intros Hs Hn. cbn [score_events]. rewrite bindM_load.
  rewrite (bindM_lift_Ok _ s) by done.
  rewrite bindM_eq. cbn [setitem]. rewrite bindM_load.
  rewrite lookup_total_insert_eq.
  rewrite (bindM_lift_Ok _ n)
    by (by rewrite days_until_due_of_insert).
  rewrite bindM_eq. cbn [setitem]. by rewrite lookup_total_insert_eq.
Qed.

(** When every pending record can be scored, the loop returns, and
    leaves each pending record with its derived fields and every other
    object as it was. *)
Lemma score_events_run (pending : list loc) (h : store) :
  Forall (fun l => is_ok (score (h !!! l) now) = true) pending ->
  exists h',
    score_events fromisoformat now pending h = (h', Ok tt)
    /\ forall l, h' !!! l
                 = if decide (l ∈ pending)
                   then derive fromisoformat now (h !!! l)
                   else h !!! l.
Proof.
  revert h. induction pending as [|e rest IH]; intros h Hall.
  { exists h. split; [reflexivity|]. intros l.
    rewrite decide_False; [done|]. apply not_elem_of_nil. }
  inversion Hall as [|? ? He Hrest]; subst.
  destruct (score (h !!! e) now) as [s|] eqn:Hs; [|discriminate].
  destruct (score_Ok_days _ _ Hs) as [n Hn].
  rewrite (score_events_cons e rest h s n Hs Hn).
  set (h2 := <[e := with_derived s n (h !!! e)]> _).
  assert (Hh2 : forall l, h2 !!! l
                  = if decide (l = e)
                    then derive fromisoformat now (h !!! e)
                    else h !!! l).
  { intros l. unfold h2. destruct (decide (l = e)) as [->|Hne].
    - by rewrite lookup_total_insert_eq, (derive_Ok _ s n).
    - by rewrite !lookup_total_insert_ne. }
  destruct (IH h2) as (h' & Hrun & Hh').
  { apply Forall_forall. intros l Hl. rewrite Hh2.
    destruct (decide (l = e)) as [->|Hne].
    - by rewrite score_derive, Hs.
    - rewrite Forall_forall in Hrest. by apply Hrest. }
  exists h'. split; [exact Hrun|]. intros l. rewrite Hh', Hh2.
  destruct (decide (l = e)) as [->|Hne].
  - rewrite (decide_True (P := e ∈ e :: rest)) by apply list_elem_of_here.
    destruct (decide (e ∈ rest)); [apply derive_idem|done].
  - destruct (decide (l ∈ rest)) as [Hin|Hnin].
    + by rewrite (decide_True (P := l ∈ e :: rest))
        by (by apply list_elem_of_further).
    + rewrite (decide_False (P := l ∈ e :: rest)); [done|].
      rewrite elem_of_cons. intros [?|?]; done.
Qed.

End Scoring.

(** ** The order on floats *)

Lemma ltb_rank (a b : float) :
  PyFloat.is_nan a = false -> PyFloat.is_nan b = false ->
  (PyFloat.ltb a b = true <-> lex_lt (rank a) (rank b)).
Proof.
  unfold PyFloat.ltb, SFltb, SFcompare.
  destruct a as [sa|sa| |sa ma ea], b as [sb|sb| |sb mb eb];
    try discriminate; intros _ _;
    try destruct sa; try destruct sb; cbn [rank lex_lt];
    try (split; [discriminate|lia]); try (split; [lia|reflexivity]);
    change (Pos.compare_cont Eq ma mb) with (ma ?= mb)%positive;
    destruct (Z.compare_spec ea eb), (Pos.compare_spec ma mb);
    cbn [CompOpp]; split; intros; try discriminate; try reflexivity; lia.
Qed.

Lemma leb_rank (a b : float) :
  PyFloat.is_nan a = false -> PyFloat.is_nan b = false ->
  (PyFloat.leb a b = true <-> lex_le (rank a) (rank b)).
Proof.
  unfold PyFloat.leb, SFleb, SFcompare.
  destruct a as [sa|sa| |sa ma ea], b as [sb|sb| |sb mb eb];
    try discriminate; intros _ _;
    try destruct sa; try destruct sb; cbn [rank lex_le];
    try (split; [discriminate|lia]); try (split; [lia|reflexivity]);
    change (Pos.compare_cont Eq ma mb) with (ma ?= mb)%positive;
    destruct (Z.compare_spec ea eb), (Pos.compare_spec ma mb);
    cbn [CompOpp]; split; intros; try discriminate; try reflexivity; lia.
Qed.

Lemma ltb_not_nan (a b : float) :
  PyFloat.ltb a b = true ->
  PyFloat.is_nan a = false /\ PyFloat.is_nan b = false.
Proof. destruct a, b; try discriminate; by split. Qed.

Lemma leb_not_nan (a b : float) :
  PyFloat.leb a b = true ->
  PyFloat.is_nan a = false /\ PyFloat.is_nan b = false.
Proof. destruct a, b; try discriminate; by split. Qed.

Lemma ltb_trans (a b c : float) :
  PyFloat.ltb a b = true -> PyFloat.ltb b c = true -> PyFloat.ltb a c = true.
Proof.
  intros Hab Hbc.
  destruct (ltb_not_nan _ _ Hab) as [Ha Hb].
  destruct (ltb_not_nan _ _ Hbc) as [_ Hc].
  apply ltb_rank in Hab; [|done..]. apply ltb_rank in Hbc; [|done..].
  apply ltb_rank; [done..|].
  destruct (rank a) as [[a1 a2] a3], (rank b) as [[b1 b2] b3],
    (rank c) as [[c1 c2] c3]. unfold lex_lt in *. lia.
Qed.

Lemma leb_ltb_trans (a b c : float) :
  PyFloat.leb a b = true -> PyFloat.ltb b c = true -> PyFloat.ltb a c = true.
Proof.
  intros Hab Hbc.
  destruct (leb_not_nan _ _ Hab) as [Ha Hb].
  destruct (ltb_not_nan _ _ Hbc) as [_ Hc].
  apply leb_rank in Hab; [|done..]. apply ltb_rank in Hbc; [|done..].
  apply ltb_rank; [done..|].
  destruct (rank a) as [[a1 a2] a3], (rank b) as [[b1 b2] b3],
    (rank c) as [[c1 c2] c3]. unfold lex_lt, lex_le in *. lia.
Qed.

Lemma ltb_false_leb (a b : float) :
  PyFloat.is_nan a = false -> PyFloat.is_nan b = false ->
  PyFloat.ltb a b = false -> PyFloat.leb b a = true.
Proof.
  intros Ha Hb Hab. apply leb_rank; [done..|].
  assert (Hn : ~ lex_lt (rank a) (rank b)).
  { intros Hlt. apply ltb_rank in Hlt; [congruence|done..]. }
  destruct (rank a) as [[a1 a2] a3], (rank b) as [[b1 b2] b3].
  unfold lex_lt, lex_le in *. lia.
Qed.

Lemma ltb_leb (a b : float) :
  PyFloat.ltb a b = true -> PyFloat.leb a b = true.
Proof.
  intros Hab. destruct (ltb_not_nan _ _ Hab) as [Ha Hb].
  apply ltb_rank in Hab; [|done..]. apply leb_rank; [done..|].
  destruct (rank a) as [[a1 a2] a3], (rank b) as [[b1 b2] b3].
  unfold lex_lt, lex_le in *. lia.
Qed.

Lemma leb_refl (a : float) : PyFloat.is_nan a = false -> PyFloat.leb a a = true.
Proof.
  intros Ha. apply leb_rank; [done..|].
  destruct (rank a) as [[a1 a2] a3]. unfold lex_le. lia.
Qed.

Lemma is_finite_not_nan (a : float) :
  PyFloat.is_finite a = true -> PyFloat.is_nan a = false.
Proof. by destruct a. Qed.

(** ** Reading the store *)

Lemma read_only_ret {A} (a : A) : read_only (mret a).
Proof. by intros h. Qed.

Lemma read_only_lift {A} (r : result A) : read_only (lift r).
Proof. by intros h. Qed.

Lemma read_only_load (l : loc) : read_only (load l).
Proof. by intros h. Qed.

Lemma read_only_bind {A B} (m : M A) (k : A -> M B) :
  read_only m -> (forall a, read_only (k a)) -> read_only (x ← m; k x).
Proof.
  intros Hm Hk h. rewrite bindM_eq. specialize (Hm h).
  destruct (m h) as [h' [a|e]]; cbn [fst] in Hm; subst h'; [apply Hk|done].
Qed.

Lemma read_only_max_loop (maxitem : loc) (maxval : value) (rest : list loc) :
  read_only (max_loop maxitem maxval rest).
Proof.
  revert maxitem maxval. induction rest as [|item rest IH];
    intros maxitem maxval; [apply read_only_ret|].
  cbn [max_loop].
  apply read_only_bind; [apply read_only_load|intros d].
  apply read_only_bind; [apply read_only_lift|intros val].
  apply read_only_bind; [apply read_only_lift|intros gt].
  destruct gt; apply IH.
Qed.

Lemma read_only_max_by_priority_score (items : list loc) :
  read_only (max_by_priority_score items).
Proof.
  destruct items as [|item rest]; [apply read_only_lift|].
  cbn [max_by_priority_score].
  apply read_only_bind; [apply read_only_load|intros d].
  apply read_only_bind; [apply read_only_lift|intros val].
  apply read_only_max_loop.
Qed.

Lemma read_only_sum_weights (acc : value) (items : list loc) :
  read_only (sum_weights acc items).
Proof.
  revert acc. induction items as [|e rest IH]; intros acc;
    [apply read_only_ret|].
  cbn [sum_weights].
  apply read_only_bind; [apply read_only_load|intros d].
  apply read_only_bind; [apply read_only_lift|intros w].
  apply read_only_bind; [apply read_only_lift|intros acc'].
  apply IH.
Qed.

(** ** Selecting the maximum *)

(** The maximum loop on floats: with [maxitem] the running maximum of the
    items [pre ++ maxitem :: mid] seen so far, strictly above those before
    it and at least those after it, the loop returns an item of the whole
    list with the same two properties. *)
Lemma max_loop_first_max (key : loc -> float) (h : store) (rest : list loc) :
  forall (pre : list loc) (maxitem : loc) (mid : list loc),
  (forall l, l ∈ rest ->
     (h !!! l) !! "priority_score" = Some (VFloat (key l))) ->
  (forall l, l ∈ pre ++ maxitem :: mid ++ rest ->
     PyFloat.is_nan (key l) = false) ->
  (forall l, l ∈ pre -> PyFloat.ltb (key l) (key maxitem) = true) ->
  (forall l, l ∈ mid -> PyFloat.leb (key l) (key maxitem) = true) ->
  exists pre' w post',
    max_loop maxitem (VFloat (key maxitem)) rest h = (h, Ok w)
    /\ pre ++ maxitem :: mid ++ rest = pre' ++ w :: post'
    /\ (forall l, l ∈ pre' -> PyFloat.ltb (key l) (key w) = true)
    /\ (forall l, l ∈ post' -> PyFloat.leb (key l) (key w) = true).
Proof.
  induction rest as [|item rest IH]; intros pre maxitem mid Hkey Hnan Hpre Hmid.
  { exists pre, maxitem, mid. rewrite app_nil_r. by repeat split. }
  cbn [max_loop]. rewrite bindM_load.
  rewrite (bindM_lift_Ok _ (VFloat (key item)))
    by (apply getitem_Some, Hkey, list_elem_of_here).
  rewrite (bindM_lift_Ok _ (PyFloat.ltb (key maxitem) (key item)))
    by reflexivity.
  assert (Hkey' : forall l, l ∈ rest ->
            (h !!! l) !! "priority_score" = Some (VFloat (key l))).
  { intros l Hl. by apply Hkey, list_elem_of_further. }
  destruct (PyFloat.ltb (key maxitem) (key item)) eqn:Hgt.
  - destruct (IH (pre ++ maxitem :: mid) item [] Hkey')
      as (pre' & w & post' & Hrun & Heq & Hlt & Hle).
    + intros l Hl. apply Hnan. cbn [app] in Hl.
      by rewrite <- app_assoc in Hl.
    + intros l Hl. apply elem_of_app in Hl as [Hl|Hl].
      * eapply ltb_trans; [by apply Hpre|done].
      * apply elem_of_cons in Hl as [->|Hl]; [done|].
        eapply leb_ltb_trans; [by apply Hmid|done].
    + intros l Hl. by apply elem_of_nil in Hl.
    + exists pre', w, post'. split; [done|]. split; [|done].
      rewrite <- Heq. cbn [app]. by rewrite <- app_assoc.
  - destruct (IH pre maxitem (mid ++ [item]) Hkey')
      as (pre' & w & post' & Hrun & Heq & Hlt & Hle).
    + intros l Hl. apply Hnan. by rewrite <- app_assoc in Hl.
    + done.
    + intros l Hl. apply elem_of_app in Hl as [Hl|Hl]; [by apply Hmid|].
      apply list_elem_of_singleton in Hl as ->.
      apply ltb_false_leb; [| |done]; apply Hnan.
      * apply elem_of_app. right. apply list_elem_of_here.
      * apply elem_of_app. right. apply list_elem_of_further.
        apply elem_of_app. right. apply list_elem_of_here.
    + exists pre', w, post'. split; [done|]. split; [|done].
      rewrite <- Heq. by rewrite <- app_assoc.
Qed.

Lemma max_by_priority_score_first_max (key : loc -> float) (h : store)
    (items : list loc) :
  items <> [] ->
  (forall l, l ∈ items ->
     (h !!! l) !! "priority_score" = Some (VFloat (key l))) ->
  (forall l, l ∈ items -> PyFloat.is_nan (key l) = false) ->
  exists pre w post,
    max_by_priority_score items h = (h, Ok w)
    /\ items = pre ++ w :: post
    /\ (forall l, l ∈ pre -> PyFloat.ltb (key l) (key w) = true)
    /\ (forall l, l ∈ post -> PyFloat.leb (key l) (key w) = true).
Proof.
  destruct items as [|item rest]; [done|]. intros _ Hkey Hnan.
  cbn [max_by_priority_score]. rewrite bindM_load.
  rewrite (bindM_lift_Ok _ (VFloat (key item)))
    by (apply getitem_Some, Hkey, list_elem_of_here).
  destruct (max_loop_first_max key h rest [] item [])
    as (pre & w & post & Hrun & Heq & Hlt & Hle).
  - intros l Hl. by apply Hkey, list_elem_of_further.
  - intros l Hl. by apply Hnan.
  - intros l Hl. by apply elem_of_nil in Hl.
  - intros l Hl. by apply elem_of_nil in Hl.
  - exists pre, w, post. by repeat split.
Qed.

(** ** Finite scores *)

Lemma add_not_finite (x y : float) :
  PyFloat.is_finite x = false -> PyFloat.is_finite (PyFloat.add x y) = false.
Proof.
  destruct x as [sx|[]| |sx mx ex]; try discriminate; intros _;
    destruct y as [sy|[]| |sy my ey]; reflexivity.
Qed.

Lemma mul_not_finite (x y : float) :
  PyFloat.is_finite x = false -> PyFloat.is_finite (PyFloat.mul x y) = false.
Proof.
  destruct x as [sx|sx| |sx mx ex]; try discriminate; intros _;
    destruct y as [sy|sy| |sy my ey]; reflexivity.
Qed.

Lemma round_not_finite (x : float) (n : Z) :
  PyFloat.is_finite x = false -> PyFloat.is_finite (PyFloat.round x n) = false.
Proof. by destruct x. Qed.

Lemma trunc_finite (x : float) :
  PyFloat.is_finite x = true -> exists z, PyFloat.trunc x = Some z.
Proof. destruct x; try discriminate; intros _; cbn [PyFloat.trunc]; eauto. Qed.

(** A finite score comes from a finite percentage. *)
Lemma score_finite_percentage (w : float) (d : Z) (ty st : value) :
  PyFloat.is_finite (Spec.score w d ty st) = true ->
  PyFloat.is_finite (PyFloat.mul w (PyFloat.of_Z 100)) = true.
Proof.
  intros Hfin.
  destruct (PyFloat.is_finite (PyFloat.mul w (PyFloat.of_Z 100))) eqn:Hp;
    [done|].
  unfold Spec.score in Hfin.
  rewrite round_not_finite in Hfin; [done|].
  apply add_not_finite, mul_not_finite, add_not_finite, Hp.
Qed.

(** A positive integer below [2^53] converts to a positive finite
    float. *)
Lemma of_Z_pos_finite (z : Z) :
  0 < z < 2 ^ 53 -> exists m e, PyFloat.of_Z z = S754_finite false m e.
Proof.
  intros [Hpos Hlt]. destruct z as [|m|m]; [lia| |lia].
  unfold PyFloat.of_Z, binary_normalize, binary_round.
  pose proof (digits2_pos_bound m 53 Hlt) as Hd.
  assert (Hfexp : fexp PyFloat.prec PyFloat.emax (Zpos (digits2_pos m) + 0)
                  = Zpos (digits2_pos m) - 53).
  { unfold fexp, emin, PyFloat.prec, PyFloat.emax. lia. }
  rewrite Hfexp. unfold shl_align.
  destruct (Zpos (digits2_pos m) - 53 - 0) as [|q|q] eqn:Hq; [|lia|].
  - rewrite binary_round_aux_exact; [eauto|lia|lia].
  - rewrite binary_round_aux_exact; [eauto| |lia].
    rewrite digits2_pos_shift. lia.
Qed.

(** ** The sum of the weights *)

Lemma sum_weights_from_float (h : store) (items : list loc) (ws : list float) :
  Forall2 (fun l w => (h !!! l) !! "weight" = Some (VFloat w)) items ws ->
  forall acc,
    sum_weights (VFloat acc) items h
    = (h, Ok (VFloat (fold_left PyFloat.add ws acc))).
Proof.
  induction 1 as [|e w rest ws' Hw _ IH]; intros acc; [reflexivity|].
  cbn [sum_weights fold_left]. rewrite bindM_load.
  rewrite (bindM_lift_Ok _ (VFloat w)) by (by apply getitem_Some).
  rewrite (bindM_lift_Ok _ (VFloat (PyFloat.add acc w))) by reflexivity.
  apply IH.
Qed.

Lemma sum_weights_floats (h : store) (items : list loc) (ws : list float) :
  items <> [] ->
  Forall2 (fun l w => (h !!! l) !! "weight" = Some (VFloat w)) items ws ->
  sum_weights (VInt 0) items h
  = (h, Ok (VFloat (fold_left PyFloat.add ws (PyFloat.of_Z 0)))).
Proof.
  intros Hne Hws. destruct Hws as [|e w rest ws' Hw Hrest]; [done|].
  cbn [sum_weights fold_left]. rewrite bindM_load.
  rewrite (bindM_lift_Ok _ (VFloat w)) by (by apply getitem_Some).
  rewrite (bindM_lift_Ok _ (VFloat (PyFloat.add (PyFloat.of_Z 0) w)))
    by reflexivity.
  by apply sum_weights_from_float.
Qed.

Lemma weights_transfer (h h' : store) (items : list loc) (ws : list float) :
  (forall l, l ∈ items -> (h' !!! l) !! "weight" = (h !!! l) !! "weight") ->
  Forall2 (fun l w => (h !!! l) !! "weight" = Some (VFloat w)) items ws ->
  Forall2 (fun l w => (h' !!! l) !! "weight" = Some (VFloat w)) items ws.
Proof.
  intros Hsame Hws. induction Hws as [|e w rest ws' Hw _ IH]; constructor.
  - rewrite Hsame; [done|apply list_elem_of_here].
  - apply IH. intros l Hl. by apply Hsame, list_elem_of_further.
Qed.

Lemma py_truediv_float_count (total : float) (n : Z) :
  0 < n < 2 ^ 53 ->
  py_truediv (VFloat total) (VInt n)
  = Ok (VFloat (PyFloat.div total (PyFloat.of_Z n))).
Proof.
  intros Hn. unfold py_truediv.
  rewrite float_of_int_small by lia. run_result.
  destruct (of_Z_pos_finite n Hn) as (m & e & ->). reflexivity.
Qed.

(** ** The analysis of a non-empty pending set *)

Lemma with_derived_lookup (s : value) (n : Z) (d : dict) (k : string) :
  k <> "priority_score" -> k <> "days_until_due" ->
  with_derived s n d !! k = d !! k.
Proof. intros H1 H2. unfold with_derived. by rewrite !lookup_insert_ne. Qed.

Lemma with_derived_priority_score (s : value) (n : Z) (d : dict) :
  with_derived s n d !! "priority_score" = Some s.
Proof.
  unfold with_derived. by rewrite lookup_insert_ne, lookup_insert_eq.
Qed.

Lemma with_derived_days_until_due (s : value) (n : Z) (d : dict) :
  with_derived s n d !! "days_until_due" = Some (VInt n).
Proof. unfold with_derived. by rewrite lookup_insert_eq. Qed.

Lemma derive_lookup fromisoformat now (d : dict) (k : string) :
  k <> "priority_score" -> k <> "days_until_due" ->
  derive fromisoformat now d !! k = d !! k.
Proof.
  intros H1 H2. unfold derive.
  destruct (calculate_priority_score _ _ _); [|done].
  destruct (days_until_due_of _ _ _); [|done].
  by apply with_derived_lookup.
Qed.

Section Analysis.

Variable fromisoformat : string -> option datetime.
Variable isoformat : datetime -> string.
Variable float_repr : float -> string.
Variable now : datetime.

Local Abbreviation score := (calculate_priority_score fromisoformat).
Local Abbreviation days_of := (days_until_due_of fromisoformat).
Local Abbreviation key := (score_float fromisoformat now).

(** What a scorable record holds. *)
Lemma scorable_inv (d : dict) :
  scorable fromisoformat now d ->
  exists n ty st,
    score d now = Ok (VFloat (key d))
    /\ PyFloat.is_finite (key d) = true
    /\ days_of d now = Ok n
    /\ d !! "type" = Some ty
    /\ d !! "status" = Some st.
Proof.
  unfold scorable, score_float. intros Hfin.
  destruct (score d now) as [[|z|f|t]|] eqn:Hs; try discriminate.
  unfold calculate_priority_score in Hs.
  destruct (days_of d now) as [n|] eqn:Hn; [|discriminate].
  run_result in Hs.
  destruct (getitem d "weight") as [wv|] eqn:Hw; [|discriminate].
  run_result in Hs.
  destruct (py_mul wv (VInt 100)) as [wf|]; [|discriminate].
  run_result in Hs.
  destruct (getitem d "type") as [ty|] eqn:Hty; [|discriminate].
  run_result in Hs.
  destruct (getitem d "status") as [st|] eqn:Hst; [|discriminate].
  exists n, ty, st. repeat split; try done; by apply getitem_Ok.
Qed.

(** The derived record of a scorable record. *)
Lemma derive_scorable (d : dict) :
  scorable fromisoformat now d ->
  exists n,
    days_of d now = Ok n
    /\ derive fromisoformat now d = with_derived (VFloat (key d)) n d.
Proof.
  intros Hsc. destruct (scorable_inv d Hsc) as (n & ty & st & Hs & _ & Hn & _).
  exists n. split; [done|]. by apply derive_Ok.
Qed.

(** A scorable record with a float weight gets its recommendations. *)
Lemma generate_recommendations_scorable (d d' : dict) (w : float)
    (total n : Z) :
  scorable fromisoformat now d ->
  d !! "weight" = Some (VFloat w) ->
  (forall k, k <> "priority_score" -> k <> "days_until_due" ->
     d' !! k = d !! k) ->
  exists recs, generate_recommendations float_repr d' total n = Ok recs.
Proof.
  intros Hsc Hw Hsame.
  destruct (scorable_inv d Hsc) as (m & ty & st & Hs & Hfin & Hm & Hty & Hst).
  rewrite (calculate_priority_score_float _ d now w ty st m) in Hs by done.
  injection Hs as Hs. rewrite <- Hs in Hfin.
  apply score_finite_percentage, trunc_finite in Hfin as [pct Hpct].
  eexists.
  apply (generate_recommendations_float float_repr d' total n w ty pct);
    [rewrite Hsame|rewrite Hsame|]; done.
Qed.

(** The run of the analysis when at least one event is pending, every
    event has a status, every pending event is scorable and has a float
    weight. *)
Lemma analyze_run (events : list loc) (uid : string) (h : store)
    (ws : list float) :
  Forall (has_status h) events ->
  pending_of h events <> [] ->
  Forall (fun l => scorable fromisoformat now (h !!! l)) (pending_of h events) ->
  Forall2 (fun l w => (h !!! l) !! "weight" = Some (VFloat w))
    (pending_of h events) ws ->
  Z.of_nat (length events) < 2 ^ 53 ->
  let pending := pending_of h events in
  let len := Z.of_nat (length pending) in
  exists h' r pre w post n recs,
    analyze_highest_weight_event fromisoformat isoformat float_repr
      events now uid h = (h', Ok r)
    /\ r = {| success := true;
             message := "Successfully identified highest priority pending academic event";
             data_event := Some w;
             data_analysis :=
               {| total_pending_events := len;
                  average_weight :=
                    VFloat (PyFloat.round
                              (PyFloat.div
                                 (fold_left PyFloat.add ws (PyFloat.of_Z 0))
                                 (PyFloat.of_Z len)) 3);
                  days_to_due := VInt n;
                  urgency_level := get_urgency_level n;
                  impact_score := VFloat (key (h !!! w));
                  course_load :=
                    if 8 <=? len then "Heavy"
                    else if 5 <=? len then "Moderate" else "Light" |};
             data_recommendations := recs;
             timestamp := isoformat now;
             user_id := uid |}
    /\ (forall l, h' !!! l = if decide (l ∈ pending)
                            then derive fromisoformat now (h !!! l)
                            else h !!! l)
    /\ pending = pre ++ w :: post
    /\ (forall l, l ∈ pre -> PyFloat.ltb (key (h !!! l)) (key (h !!! w)) = true)
    /\ (forall l, l ∈ post -> PyFloat.leb (key (h !!! l)) (key (h !!! w)) = true)
    /\ days_of (h !!! w) now = Ok n
    /\ generate_recommendations float_repr (h' !!! w) len n = Ok recs.
Proof.
  intros Hst Hne Hsc Hws Hlen pending len. subst pending len.
  unfold analyze_highest_weight_event.
  rewrite bindM_eq, filter_pending_run, decide_True by done.
  assert (Hlen' : 0 < Z.of_nat (length (pending_of h events)) < 2 ^ 53).
  { unfold pending_of.
    pose proof (length_filter (is_pending h) events).
    destruct (filter (is_pending h) events) eqn:Hf; [done|].
    cbn [length] in *. lia. }
  destruct (pending_of h events) as [|e0 rest0] eqn:Hp; [done|].
  cbv beta iota. set (pending := e0 :: rest0) in *. clearbody pending.
  (* the scoring loop *)
  destruct (score_events_run fromisoformat now pending h)
    as (h' & Hloop & Hh').
  { eapply Forall_impl; [exact Hsc|]. intros l Hl.
    destruct (scorable_inv _ Hl) as (n & ty & st & -> & _). done. }
  assert (Hpend' : forall l, l ∈ pending ->
            exists n, days_of (h !!! l) now = Ok n
              /\ h' !!! l = with_derived (VFloat (key (h !!! l))) n (h !!! l)).
  { intros l Hl. rewrite Hh', decide_True by done.
    rewrite Forall_forall in Hsc.
    destruct (derive_scorable (h !!! l) (Hsc l Hl)) as (n & Hn & Hd). eauto. }
  (* the maximum *)
  destruct (max_by_priority_score_first_max (fun l => key (h !!! l)) h' pending)
    as (pre & w & post & Hmax & Hsplit & Hlt & Hle).
  { done. }
  { intros l Hl. destruct (Hpend' l Hl) as (n & _ & ->).
    apply with_derived_priority_score. }
  { intros l Hl. rewrite Forall_forall in Hsc.
    apply is_finite_not_nan, (Hsc l Hl). }
  assert (Hw : w ∈ pending).
  { rewrite Hsplit. apply elem_of_app. right. apply list_elem_of_here. }
  destruct (Hpend' w Hw) as (n & Hn & Hhw).
  (* the sum of the weights *)
  assert (Hsum : sum_weights (VInt 0) pending h'
            = (h', Ok (VFloat (fold_left PyFloat.add ws (PyFloat.of_Z 0))))).
  { apply sum_weights_floats; [done|].
    apply (weights_transfer h); [|done].
    intros l Hl. rewrite Hh', decide_True by done.
    by rewrite derive_lookup. }
  (* the recommendations *)
  assert (Hw_weight : exists x, (h !!! w) !! "weight" = Some (VFloat x)).
  { apply list_elem_of_lookup in Hw as [i Hi].
    destruct (Forall2_lookup_l _ _ _ _ _ Hws Hi) as (x & _ & Hx). eauto. }
  destruct Hw_weight as [x Hx].
  rewrite Forall_forall in Hsc.
  destruct (generate_recommendations_scorable (h !!! w) (h' !!! w) x
              (Z.of_nat (length pending)) n (Hsc w Hw) Hx) as [recs Hrecs].
  { intros k Hk1 Hk2. rewrite Hhw. by apply with_derived_lookup. }
  eexists h', _, pre, w, post, n, recs.
  split; [|split; [reflexivity|by repeat split]].
  rewrite bindM_eq, Hloop, bindM_eq, Hmax, bindM_eq, Hsum.
  rewrite (bindM_lift_Ok _ _ _ _ (py_truediv_float_count _ _ Hlen')).
  rewrite bindM_load.
  rewrite (bindM_lift_Ok _ (VInt n))
    by (rewrite Hhw; apply getitem_Some, with_derived_days_until_due).
  rewrite (bindM_lift_Ok _ n) by reflexivity.
  rewrite (bindM_lift_Ok _ recs) by done.
  rewrite (bindM_lift_Ok _ (VFloat (PyFloat.round _ 3))) by reflexivity.
  rewrite (bindM_lift_Ok _ (VFloat (key (h !!! w))))
    by (rewrite Hhw; apply getitem_Some, with_derived_priority_score).
  reflexivity.
Qed.

End Analysis.

(** ** What the analysis writes *)

Lemma setitem_frame (h : store) (e : loc) (k : string) (v : value) (l : loc) :
  (l <> e -> (<[e := <[k := v]> (h !!! e)]> h) !!! l = h !!! l)
  /\ (forall k', k' <> k ->
        ((<[e := <[k := v]> (h !!! e)]> h) !!! l) !! k' = (h !!! l) !! k').
Proof.
  split.
  - intros Hne. by rewrite lookup_total_insert_ne.
  - intros k' Hk'. destruct (decide (l = e)) as [->|Hne].
    + by rewrite lookup_total_insert_eq, lookup_insert_ne.
    + by rewrite lookup_total_insert_ne.
Qed.

(** Whether it returns or raises, the scoring loop writes nothing but
    the two derived fields of the records it was given. *)
Lemma score_events_frame fromisoformat now (pending : list loc) (h : store)
    (l : loc) :
  (l ∉ pending ->
     (score_events fromisoformat now pending h).1 !!! l = h !!! l)
  /\ (forall k, k <> "priority_score" -> k <> "days_until_due" ->
        ((score_events fromisoformat now pending h).1 !!! l) !! k
        = (h !!! l) !! k).
Proof.
  revert h. induction pending as [|e rest IH]; intros h; [by split|].
  cbn [score_events]. rewrite bindM_load.
  destruct (calculate_priority_score fromisoformat (h !!! e) now)
    as [s|err] eqn:Hs.
  2:{ rewrite (bindM_lift_Raise _ err) by done. by split. }
  rewrite (bindM_lift_Ok _ s) by done.
  rewrite bindM_eq. cbn [setitem]. rewrite bindM_load.
  set (h1 := <[e := <["priority_score" := s]> (h !!! e)]> h).
  destruct (setitem_frame h e "priority_score" s l) as [H1l H1k].
  fold h1 in H1l, H1k.
  destruct (days_until_due_of fromisoformat (h1 !!! e) now)
    as [n|err] eqn:Hn.
  2:{ rewrite (bindM_lift_Raise _ err) by done. cbn [fst]. split.
      - intros Hl. apply H1l. intros ->. apply Hl, list_elem_of_here.
      - intros k Hk1 Hk2. by apply H1k. }
  rewrite (bindM_lift_Ok _ n) by done.
  rewrite bindM_eq. cbn [setitem].
  set (h2 := <[e := <["days_until_due" := VInt n]> (h1 !!! e)]> h1).
  destruct (setitem_frame h1 e "days_until_due" (VInt n) l) as [H2l H2k].
  fold h2 in H2l, H2k.
  destruct (IH h2) as [IHl IHk]. split.
  - intros Hl. rewrite not_elem_of_cons in Hl. destruct Hl as [Hne Hl].
    by rewrite IHl, H2l, H1l.
  - intros k Hk1 Hk2. by rewrite IHk, H2k, H1k.
Qed.

(** From the scoring loop on, the analysis only reads. *)
Lemma analyze_store fromisoformat isoformat float_repr
    (events : list loc) (now : datetime) (uid : string) (h : store) :
  (analyze_highest_weight_event fromisoformat isoformat float_repr
     events now uid h).1
  = (score_events fromisoformat now
       (if decide (Forall (has_status h) events)
        then pending_of h events else []) h).1.
Proof.
  unfold analyze_highest_weight_event.
  rewrite bindM_eq, filter_pending_run.
  destruct (decide (Forall (has_status h) events)); [|done].
  destruct (pending_of h events) as [|e0 rest0]; [done|].
  rewrite bindM_eq.
  destruct (score_events fromisoformat now (e0 :: rest0) h)
    as [h1 [[]|err]]; [|done].
  cbn [fst].
  match goal with
  | |- (?m h1).1 = h1 => enough (Hro : read_only m) by apply Hro
  end.
  repeat first
    [ apply read_only_ret
    | apply read_only_lift
    | apply read_only_load
    | apply read_only_max_by_priority_score
    | apply read_only_sum_weights
    | (apply read_only_bind; [|intros ?]) ].
Qed.

(** ** Taking a successful run apart *)

Lemma bindM_Ok_inv {A B} (m : M A) (k : A -> M B) (h h' : store) (b : B) :
  (x ← m; k x) h = (h', Ok b) ->
  exists h1 a, m h = (h1, Ok a) /\ k a h1 = (h', Ok b).
Proof.
  rewrite bindM_eq. destruct (m h) as [h1 [a|e]]; [eauto|discriminate].
Qed.

Lemma bindM_lift_Ok_inv {A B} (r : result A) (k : A -> M B) (h h' : store)
    (b : B) :
  (x ← lift r; k x) h = (h', Ok b) ->
  exists a, r = Ok a /\ k a h = (h', Ok b).
Proof.
  intros Hrun. apply bindM_Ok_inv in Hrun as (h1 & a & Hr & Hk).
  unfold lift in Hr. injection Hr as <- ->. eauto.
Qed.

Lemma read_only_Ok_inv {A} (m : M A) (h h' : store) (a : A) :
  read_only m -> m h = (h', Ok a) -> h' = h.
Proof. intros Hro Hrun. specialize (Hro h). by rewrite Hrun in Hro. Qed.

(** The maximum is one of the items. *)
Lemma max_loop_elem_of (maxitem : loc) (maxval : value) (rest : list loc)
    (h h' : store) (w : loc) :
  max_loop maxitem maxval rest h = (h', Ok w) -> w ∈ maxitem :: rest.
Proof.
  revert maxitem maxval. induction rest as [|item rest IH];
    intros maxitem maxval Hrun.
  { injection Hrun as _ <-. apply list_elem_of_here. }
  cbn [max_loop] in Hrun. rewrite bindM_load in Hrun.
  apply bindM_lift_Ok_inv in Hrun as (val & _ & Hrun).
  apply bindM_lift_Ok_inv in Hrun as (gt & _ & Hrun).
  destruct gt; apply IH in Hrun.
  - by apply list_elem_of_further.
  - apply elem_of_cons in Hrun as [->|Hin].
    + apply list_elem_of_here.
    + by do 2 apply list_elem_of_further.
Qed.

Lemma max_by_priority_score_elem_of (items : list loc) (h h' : store)
    (w : loc) :
  max_by_priority_score items h = (h', Ok w) -> w ∈ items.
Proof.
  destruct items as [|item rest]; [discriminate|].
  cbn [max_by_priority_score]. rewrite bindM_load. intros Hrun.
  apply bindM_lift_Ok_inv in Hrun as (val & _ & Hrun).
  by apply max_loop_elem_of in Hrun.
Qed.

(** ** Malformed due dates *)

Lemma score_events_raises fromisoformat now (pending : list loc) (h : store)
    (l : loc) :
  l ∈ pending ->
  is_ok (calculate_priority_score fromisoformat (h !!! l) now) = false ->
  exists h' e, score_events fromisoformat now pending h = (h', Raise e).
Proof.
  revert h. induction pending as [|e rest IH]; intros h Hin Hbad.
  { by apply elem_of_nil in Hin. }
  destruct (calculate_priority_score fromisoformat (h !!! e) now)
    as [s|err] eqn:Hs.
  - destruct (score_Ok_days _ _ _ _ Hs) as [n Hn].
    rewrite (score_events_cons fromisoformat now e rest h s n Hs Hn).
    assert (Hne : l <> e) by (intros ->; by rewrite Hs in Hbad).
    apply IH.
    + apply elem_of_cons in Hin as [?|?]; done.
    + by rewrite !lookup_total_insert_ne.
  - exists h, err. cbn [score_events]. rewrite bindM_load.
    by rewrite (bindM_lift_Raise _ err).
Qed.

(** The scoring loop up to the first record it cannot score. *)
Lemma score_events_stops fromisoformat now (pre : list loc) (bad : loc)
    (post : list loc) (err : exn) :
  forall h,
  Forall (fun l => is_ok (calculate_priority_score fromisoformat (h !!! l) now)
                   = true) pre ->
  calculate_priority_score fromisoformat (h !!! bad) now = Raise err ->
  exists h',
    score_events fromisoformat now (pre ++ bad :: post) h = (h', Raise err)
    /\ forall l, h' !!! l = if decide (l ∈ pre)
                           then derive fromisoformat now (h !!! l)
                           else h !!! l.
Proof.
  induction pre as [|e pre IH]; intros h Hall Hbad.
  { exists h. split.
    - cbn [app score_events]. rewrite bindM_load.
      by rewrite (bindM_lift_Raise _ err).
    - intros l. rewrite decide_False; [done|apply not_elem_of_nil]. }
  inversion Hall as [|? ? He Hpre]; subst.
  destruct (calculate_priority_score fromisoformat (h !!! e) now)
    as [s|] eqn:Hs; [|discriminate].
  destruct (score_Ok_days _ _ _ _ Hs) as [n Hn].
  cbn [app]. rewrite (score_events_cons fromisoformat now e _ h s n Hs Hn).
  set (h2 := <[e := with_derived s n (h !!! e)]> _).
  assert (Hne : bad <> e) by (intros ->; congruence).
  assert (Hh2 : forall l, h2 !!! l
                  = if decide (l = e)
                    then derive fromisoformat now (h !!! e)
                    else h !!! l).
  { intros l. unfold h2. destruct (decide (l = e)) as [->|Hl].
    - by rewrite lookup_total_insert_eq, (derive_Ok _ _ _ s n).
    - by rewrite !lookup_total_insert_ne. }
  destruct (IH h2) as (h' & Hrun & Hh').
  { apply Forall_forall. intros l Hl. rewrite Hh2.
    destruct (decide (l = e)) as [->|Hl'].
    - by rewrite score_derive, Hs.
    - rewrite Forall_forall in Hpre. by apply Hpre. }
  { by rewrite Hh2, decide_False. }
  exists h'. split; [exact Hrun|]. intros l. rewrite Hh', Hh2.
  destruct (decide (l = e)) as [->|Hl].
  - rewrite (decide_True (P := e ∈ e :: pre)) by apply list_elem_of_here.
    destruct (decide (e ∈ pre)); [apply derive_idem|done].
  - destruct (decide (l ∈ pre)) as [Hin|Hnin].
    + by rewrite (decide_True (P := l ∈ e :: pre))
        by (by apply list_elem_of_further).
    + rewrite (decide_False (P := l ∈ e :: pre)); [done|].
      rewrite elem_of_cons. intros [?|?]; done.
Qed.

(** C8. If a pending event has a due date that does not parse, the whole
    analysis fails with a raised error: no result is returned, and the
    event is not skipped. *)
Theorem analyze_unparseable_due_date_raises
    (fromisoformat : string -> option datetime)
    (isoformat : datetime -> string) (float_repr : float -> string)
    (events : list loc) (now : datetime) (uid : string) (h : store)
    (l : loc) (due : string) :
  l ∈ events ->
  is_pending h l ->
  (h !!! l) !! "due_date" = Some (VStr due) ->
  fromisoformat (replace_Z due) = None ->
  exists h' e,
    analyze_highest_weight_event fromisoformat isoformat float_repr
      events now uid h = (h', Raise e).
Proof.
  intros Hin Hpend Hdue Hparse.
  unfold analyze_highest_weight_event.
  rewrite bindM_eq, filter_pending_run.
  destruct (decide (Forall (has_status h) events)); [|eauto].
  assert (Hl : l ∈ pending_of h events).
  { unfold pending_of. by apply list_elem_of_filter. }
  destruct (pending_of h events) as [|e0 rest0] eqn:Hp.
  { by apply elem_of_nil in Hl. }
  rewrite bindM_eq.
  destruct (score_events_raises fromisoformat now (e0 :: rest0) h l Hl)
    as (h' & e & ->); [|eauto].
  unfold calculate_priority_score, days_until_due_of, parse_due_date.
  rewrite (getitem_Some _ _ _ Hdue). run_result. by rewrite Hparse.
Qed.

(** A sample with a malformed due date among the pending events. *)
Lemma analyze_unparseable_due_date_raises_witness :
  exists h' e,
    Sample.analyze [2; 8; 3]%positive Sample.now "student123" Sample.store2
    = (h', Raise e).
Proof.
  apply (analyze_unparseable_due_date_raises Iso.fromisoformat Iso.isoformat
           Sample.float_repr [2; 8; 3]%positive Sample.now "student123"
           Sample.store2 8%positive "next tuesday").
  - apply list_elem_of_further, list_elem_of_here.
  - vm_compute. reflexivity.
  - vm_compute. reflexivity.
  - vm_compute. reflexivity.
Defined.

(** ** Selection *)

(** C2. When at least one event is pending (every event having a status,
    every pending event being scorable with a float weight), the analysis
    returns a pending event whose score is maximal among the pending
    events, and of those with the maximal score the first in input order:
    the events before it score strictly less, the events after it at
    most as much.  The reported [total_pending_events] is the number of
    events with the status "pending". *)
Theorem analyze_selects_first_maximum
    (fromisoformat : string -> option datetime)
    (isoformat : datetime -> string) (float_repr : float -> string)
    (events : list loc) (now : datetime) (uid : string) (h : store)
    (ws : list float) :
  Forall (has_status h) events ->
  pending_of h events <> [] ->
  Forall (fun l => scorable fromisoformat now (h !!! l)) (pending_of h events) ->
  Forall2 (fun l w => (h !!! l) !! "weight" = Some (VFloat w))
    (pending_of h events) ws ->
  Z.of_nat (length events) < 2 ^ 53 ->
  exists h' r pre w post,
    analyze_highest_weight_event fromisoformat isoformat float_repr
      events now uid h = (h', Ok r)
    /\ data_event r = Some w
    /\ pending_of h events = pre ++ w :: post
    /\ (forall l, l ∈ pending_of h events ->
          PyFloat.leb (score_float fromisoformat now (h !!! l))
            (score_float fromisoformat now (h !!! w)) = true)
    /\ (forall l, l ∈ pre ->
          PyFloat.ltb (score_float fromisoformat now (h !!! l))
            (score_float fromisoformat now (h !!! w)) = true)
    /\ impact_score (data_analysis r)
       = VFloat (score_float fromisoformat now (h !!! w))
    /\ total_pending_events (data_analysis r)
       = Z.of_nat (length (filter (is_pending h) events)).
Proof.
  intros Hst Hne Hsc Hws Hlen.
  destruct (analyze_run fromisoformat isoformat float_repr now events uid h ws
              Hst Hne Hsc Hws Hlen)
    as (h' & r & pre & w & post & n & recs & Hrun & -> & _ & Hsplit & Hlt
        & Hle & _).
  eexists h', _, pre, w, post. split; [exact Hrun|].
  split; [reflexivity|]. split; [exact Hsplit|].
  split; [|split; [exact Hlt|split; reflexivity]].
  intros l Hl. rewrite Hsplit in Hl.
  apply elem_of_app in Hl as [Hl|Hl]; [by apply ltb_leb, Hlt|].
  apply elem_of_cons in Hl as [->|Hl]; [|by apply Hle].
  apply leb_refl, is_finite_not_nan.
  rewrite Forall_forall in Hsc. apply Hsc. rewrite Hsplit.
  apply elem_of_app. right. apply list_elem_of_here.
Qed.

(** C7. Under the same conditions, [average_weight] is the mean of the
    pending weights rounded to 3 decimals, and [course_load] is "Heavy"
    from 8 pending events, "Moderate" from 5, and "Light" below; the
    pending weights 0.30, 0.08 and 0.05 average to 0.143. *)
Theorem analyze_average_weight_and_course_load
    (fromisoformat : string -> option datetime)
    (isoformat : datetime -> string) (float_repr : float -> string)
    (events : list loc) (now : datetime) (uid : string) (h : store)
    (ws : list float) :
  Forall (has_status h) events ->
  pending_of h events <> [] ->
  Forall (fun l => scorable fromisoformat now (h !!! l)) (pending_of h events) ->
  Forall2 (fun l w => (h !!! l) !! "weight" = Some (VFloat w))
    (pending_of h events) ws ->
  Z.of_nat (length events) < 2 ^ 53 ->
  exists h' r,
    analyze_highest_weight_event fromisoformat isoformat float_repr
      events now uid h = (h', Ok r)
    /\ average_weight (data_analysis r) = VFloat (Spec.average_weight ws)
    /\ course_load (data_analysis r)
       = Spec.course_load (Z.of_nat (length (pending_of h events)))
    /\ Spec.average_weight [Sample.f_0_30; Sample.f_0_08; Sample.f_0_05]
       = PyFloat.of_frac false 143 1000.
Proof.
  intros Hst Hne Hsc Hws Hlen.
  destruct (analyze_run fromisoformat isoformat float_repr now events uid h ws
              Hst Hne Hsc Hws Hlen)
    as (h' & r & pre & w & post & n & recs & Hrun & -> & _).
  eexists h', _. split; [exact Hrun|].
  split; [|split; [reflexivity|vm_compute; reflexivity]].
  cbn [data_analysis average_weight]. unfold Spec.average_weight.
  by rewrite (Forall2_length _ _ _ Hws).
Qed.

(** ** Consistency of a returned result *)

(** C10. In every result that carries an event, that event has the
    status "pending" and is one of the given events, [impact_score] is
    the [priority_score] attached to it, [days_to_due] is the
    [days_until_due] attached to it, and [urgency_level] is the
    classifier applied to that same number of days. *)
Theorem analyze_result_consistent
    (fromisoformat : string -> option datetime)
    (isoformat : datetime -> string) (float_repr : float -> string)
    (events : list loc) (now : datetime) (uid : string) (h h' : store)
    (r : response) (w : loc) :
  analyze_highest_weight_event fromisoformat isoformat float_repr
    events now uid h = (h', Ok r) ->
  data_event r = Some w ->
  w ∈ events
  /\ (h' !!! w) !! "status" = Some (VStr "pending")
  /\ (h' !!! w) !! "priority_score" = Some (impact_score (data_analysis r))
  /\ (h' !!! w) !! "days_until_due" = Some (days_to_due (data_analysis r))
  /\ exists n, days_to_due (data_analysis r) = VInt n
       /\ urgency_level (data_analysis r) = get_urgency_level n.
Proof.
  intros Hrun Hev.
  pose proof (analyze_store fromisoformat isoformat float_repr events now uid h)
    as Hstore. rewrite Hrun in Hstore. cbn [fst] in Hstore.
  unfold analyze_highest_weight_event in Hrun.
  rewrite bindM_eq, filter_pending_run in Hrun.
  destruct (decide (Forall (has_status h) events)); [|discriminate].
  destruct (pending_of h events) as [|e0 rest0] eqn:Hp.
  { injection Hrun as _ <-. discriminate. }
  apply bindM_Ok_inv in Hrun as (h1 & [] & Hloop & Hrun).
  apply bindM_Ok_inv in Hrun as (h2 & w' & Hmax & Hrun).
  pose proof (max_by_priority_score_elem_of _ _ _ _ Hmax) as Hw'.
  apply (read_only_Ok_inv _ _ _ _ (read_only_max_by_priority_score _))
    in Hmax as ->.
  apply bindM_Ok_inv in Hrun as (h3 & total & Hsum & Hrun).
  apply (read_only_Ok_inv _ _ _ _ (read_only_sum_weights _ _)) in Hsum as ->.
  apply bindM_lift_Ok_inv in Hrun as (avg & _ & Hrun).
  rewrite bindM_load in Hrun.
  apply bindM_lift_Ok_inv in Hrun as (duv & Hduv & Hrun).
  apply bindM_lift_Ok_inv in Hrun as (days & Hdays & Hrun).
  apply bindM_lift_Ok_inv in Hrun as (recs & _ & Hrun).
  apply bindM_lift_Ok_inv in Hrun as (rounded & _ & Hrun).
  apply bindM_lift_Ok_inv in Hrun as (ps & Hps & Hrun).
  injection Hrun as <- <-. cbn [data_event] in Hev. injection Hev as ->.
  cbn [data_analysis impact_score days_to_due urgency_level].
  rewrite <- Hp in Hw'. unfold pending_of in Hw'.
  apply list_elem_of_filter in Hw' as [Hpend Hin].
  split; [exact Hin|]. split.
  { rewrite Hstore.
    destruct (score_events_frame fromisoformat now (e0 :: rest0) h w)
      as [_ Hk]. by rewrite Hk. }
  split; [by apply getitem_Ok|]. split; [by apply getitem_Ok|].
  exists days. split; [|reflexivity].
  destruct duv; try discriminate. by injection Hdays as ->.
Qed.

(** ** The store after an analysis *)

(** C9 as stated does not hold: the analysis writes the derived fields
    into the event record of the store itself. *)
Lemma analyze_mutates_store_counterexample :
  (Sample.store1 !!! 2%positive) !! "priority_score" = None
  /\ ((Sample.analyze Sample.events1 Sample.now "student123" Sample.store1).1
        !!! 2%positive) !! "priority_score" = Some (VFloat (PyFloat.of_Z 108))
  /\ (Sample.analyze Sample.events1 Sample.now "student123" Sample.store1).1
     <> Sample.store1.
Proof.
  assert (H1 : (Sample.store1 !!! 2%positive) !! "priority_score" = None)
    by (vm_compute; reflexivity).
  assert (H2 : ((Sample.analyze Sample.events1 Sample.now "student123"
                   Sample.store1).1 !!! 2%positive) !! "priority_score"
               = Some (VFloat (PyFloat.of_Z 108)))
    by (vm_compute; reflexivity).
  split; [exact H1|]. split; [exact H2|].
  intros Heq. rewrite Heq, H1 in H2. discriminate H2.
Qed.

(** The scoring loop writes into a prefix of the pending records: into
    all of them when it returns, into those before the first record that
    cannot be scored when it raises. *)
Lemma score_events_written fromisoformat now (pending : list loc)
    (h : store) :
  exists done rest,
    pending = done ++ rest
    /\ Forall (fun l => is_ok (calculate_priority_score fromisoformat
                                 (h !!! l) now) = true) done
    /\ (forall l, (score_events fromisoformat now pending h).1 !!! l
                  = if decide (l ∈ done)
                    then derive fromisoformat now (h !!! l)
                    else h !!! l)
    /\ (is_ok (score_events fromisoformat now pending h).2 = true ->
        rest = []).
Proof.
  set (P := fun l => is_ok (calculate_priority_score fromisoformat
                              (h !!! l) now) = true).
  assert (Hsplit : Forall P pending
                   \/ exists pre bad post,
                        pending = pre ++ bad :: post
                        /\ Forall P pre /\ ~ P bad).
  { induction pending as [|e rest IH]; [left; constructor|].
    destruct (decide (P e)) as [He|He].
    - destruct IH as [Hall|(pre & bad & post & -> & Hpre & Hbad)].
      + left. by constructor.
      + right. exists (e :: pre), bad, post.
        split; [reflexivity|]. split; [by constructor|done].
    - right. exists [], e, rest. split; [reflexivity|].
      split; [constructor|done]. }
  destruct Hsplit as [Hall|(pre & bad & post & -> & Hpre & Hbad)].
  - destruct (score_events_run fromisoformat now pending h Hall)
      as (h' & Hrun & Hh').
    exists pending, []. rewrite app_nil_r, Hrun. by repeat split.
  - unfold P in Hbad.
    destruct (calculate_priority_score fromisoformat (h !!! bad) now)
      as [s|err] eqn:Hs; [done|].
    destruct (score_events_stops fromisoformat now pre bad post err h
                Hpre Hs) as (h' & Hrun & Hh').
    exists pre, (bad :: post). rewrite Hrun. by repeat split.
Qed.

(** C9 (amended). The analysis writes the derived fields into the
    records of the store themselves: [done], the pending events it has
    scored, are all the pending events when it returns a result, and the
    pending events before the failing one when it raises; each of them
    holds afterwards its score as [priority_score] and its whole days as
    [days_until_due].  Every other object (course records, events with
    another status, pending events not reached) is as it was, and no
    field other than these two is changed in any record. *)
Theorem analyze_writes_only_derived_fields
    (fromisoformat : string -> option datetime)
    (isoformat : datetime -> string) (float_repr : float -> string)
    (events : list loc) (now : datetime) (uid : string) (h h' : store)
    (o : result response) :
  analyze_highest_weight_event fromisoformat isoformat float_repr
    events now uid h = (h', o) ->
  exists done rest,
    pending_of h events = done ++ rest
    /\ (forall r, o = Ok r -> rest = [])
    /\ (forall l, l ∈ done ->
          exists s n,
            calculate_priority_score fromisoformat (h !!! l) now = Ok s
            /\ days_until_due_of fromisoformat (h !!! l) now = Ok n
            /\ (h' !!! l) !! "priority_score" = Some s
            /\ (h' !!! l) !! "days_until_due" = Some (VInt n))
    /\ (forall l, l ∉ done -> h' !!! l = h !!! l)
    /\ (forall l, ~ (l ∈ events /\ is_pending h l) -> h' !!! l = h !!! l)
    /\ (forall l k, k <> "priority_score" -> k <> "days_until_due" ->
          (h' !!! l) !! k = (h !!! l) !! k).
Proof.
  intros Hrun.
  pose proof (analyze_store fromisoformat isoformat float_repr events now
                uid h) as Hstore.
  rewrite Hrun in Hstore. cbn [fst] in Hstore.
  assert (Hfields : forall l k,
            k <> "priority_score" -> k <> "days_until_due" ->
            (h' !!! l) !! k = (h !!! l) !! k).
  { intros l k Hk1 Hk2. rewrite Hstore.
    destruct (score_events_frame fromisoformat now
                (if decide (Forall (has_status h) events)
                 then pending_of h events else []) h l) as [_ Hk].
    by apply Hk. }
  unfold analyze_highest_weight_event in Hrun.
  rewrite bindM_eq, filter_pending_run in Hrun.
  destruct (decide (Forall (has_status h) events)) as [Hst|Hst].
  - destruct (score_events_written fromisoformat now (pending_of h events) h)
      as (done & rest & Hsplit & Hok & Hh' & Hrest).
    rewrite <- Hstore in Hh'.
    assert (Hdone : forall l, l ∈ done -> l ∈ events /\ is_pending h l).
    { intros l Hl.
      assert (Hin : l ∈ pending_of h events)
        by (rewrite Hsplit; apply elem_of_app; by left).
      unfold pending_of in Hin. apply list_elem_of_filter in Hin. tauto. }
    exists done, rest. split; [exact Hsplit|]. split.
    { intros r ->.
      destruct (pending_of h events) as [|e0 rest0] eqn:Hp.
      - symmetry in Hsplit. by apply app_eq_nil in Hsplit as [_ ->].
      - apply bindM_Ok_inv in Hrun as (h1 & [] & Hloop & _).
        apply Hrest. by rewrite Hloop. }
    split.
    { intros l Hl. rewrite Forall_forall in Hok. specialize (Hok l Hl).
      destruct (calculate_priority_score fromisoformat (h !!! l) now)
        as [s|] eqn:Hs; [|discriminate Hok].
      destruct (score_Ok_days _ _ _ _ Hs) as [n Hn].
      exists s, n. split; [reflexivity|]. split; [exact Hn|].
      rewrite Hh', decide_True by done.
      rewrite (derive_Ok _ _ _ s n Hs Hn).
      split; [apply with_derived_priority_score
             |apply with_derived_days_until_due]. }
    split.
    { intros l Hl. by rewrite Hh', decide_False. }
    split; [|exact Hfields].
    intros l Hl. rewrite Hh', decide_False; [done|].
    intros Hin. by apply Hl, Hdone.
  - injection Hrun as <- <-.
    exists [], (pending_of h events). split; [reflexivity|].
    split; [discriminate|]. split.
    { intros l Hl. by apply elem_of_nil in Hl. }
    by repeat split.
Qed.

(** ** The samples, run *)

Lemma pending_of_store3 :
  pending_of Sample.store3 Sample.events3 = [3; 2; 9]%positive.
Proof. vm_compute. reflexivity. Qed.

Lemma pending_of_store1 :
  pending_of Sample.store1 Sample.events1 = [2; 3; 4]%positive.
Proof. vm_compute. reflexivity. Qed.

(** Of the two tied midterms the first one is returned. *)
Lemma analyze_store3_event :
  data_event <$>
    match (Sample.analyze Sample.events3 Sample.now "student123"
             Sample.store3).2 with
    | Ok r => Some r
    | Raise _ => None
    end
  = Some (Some 2%positive).
Proof. vm_compute. reflexivity. Qed.

Lemma analyze_selects_first_maximum_witness :
  exists h' r pre w post,
    Sample.analyze Sample.events3 Sample.now "student123" Sample.store3
      = (h', Ok r)
    /\ data_event r = Some w
    /\ pending_of Sample.store3 Sample.events3 = pre ++ w :: post
    /\ total_pending_events (data_analysis r) = 3.
Proof.
  destruct (analyze_selects_first_maximum Iso.fromisoformat Iso.isoformat
              Sample.float_repr Sample.events3 Sample.now "student123"
              Sample.store3 [Sample.f_0_08; Sample.f_0_30; Sample.f_0_30])
    as (h' & r & pre & w & post & Hrun & Hev & Hsplit & _ & _ & _ & Htotal).
  - repeat constructor; vm_compute; eexists; reflexivity.
  - rewrite pending_of_store3. discriminate.
  - rewrite pending_of_store3.
    repeat constructor; vm_compute; reflexivity.
  - rewrite pending_of_store3.
    repeat constructor; vm_compute; reflexivity.
  - vm_compute. reflexivity.
  - exists h', r, pre, w, post.
    split; [exact Hrun|]. split; [exact Hev|]. split; [exact Hsplit|].
    rewrite Htotal. vm_compute. reflexivity.
Defined.

Lemma analyze_average_weight_and_course_load_witness :
  exists h' r,
    Sample.analyze Sample.events1 Sample.now "student123" Sample.store1
      = (h', Ok r)
    /\ average_weight (data_analysis r)
       = VFloat (PyFloat.of_frac false 143 1000)
    /\ course_load (data_analysis r) = "Light".
Proof.
  destruct (analyze_average_weight_and_course_load Iso.fromisoformat
              Iso.isoformat Sample.float_repr Sample.events1 Sample.now
              "student123" Sample.store1
              [Sample.f_0_30; Sample.f_0_08; Sample.f_0_05])
    as (h' & r & Hrun & Havg & Hload & Hex).
  - repeat constructor; vm_compute; eexists; reflexivity.
  - rewrite pending_of_store1. discriminate.
  - rewrite pending_of_store1.
    repeat constructor; vm_compute; reflexivity.
  - rewrite pending_of_store1.
    repeat constructor; vm_compute; reflexivity.
  - vm_compute. reflexivity.
  - exists h', r. split; [exact Hrun|]. split.
    + rewrite Havg, Hex. reflexivity.
    + rewrite Hload, pending_of_store1. reflexivity.
Defined.

Lemma analyze_result_consistent_witness :
  2%positive ∈ Sample.events1
  /\ (Sample.store1_after !!! 2%positive) !! "status" = Some (VStr "pending")
  /\ (Sample.store1_after !!! 2%positive) !! "priority_score"
     = Some (impact_score (data_analysis Sample.result1))
  /\ (Sample.store1_after !!! 2%positive) !! "days_until_due"
     = Some (days_to_due (data_analysis Sample.result1))
  /\ exists n, days_to_due (data_analysis Sample.result1) = VInt n
       /\ urgency_level (data_analysis Sample.result1) = get_urgency_level n.
Proof.
  apply (analyze_result_consistent Iso.fromisoformat Iso.isoformat
           Sample.float_repr Sample.events1 Sample.now "student123"
           Sample.store1 Sample.store1_after Sample.result1 2%positive).
  - assert (Hok : is_ok (Sample.analyze Sample.events1 Sample.now "student123"
                           Sample.store1).2 = true)
      by (vm_compute; reflexivity).
    unfold Sample.store1_after, Sample.result1, Sample.analyze in *.
    destruct (analyze_highest_weight_event _ _ _ _ _ _ _) as [h1 [r1|e1]];
      [reflexivity|discriminate Hok].
  - vm_compute. reflexivity.
Defined.

Lemma analyze_writes_only_derived_fields_witness :
  exists done rest,
    pending_of Sample.store1 Sample.events1 = done ++ rest
    /\ rest = []
    /\ (forall l, l ∈ done ->
          exists s n,
            calculate_priority_score Iso.fromisoformat
              (Sample.store1 !!! l) Sample.now = Ok s
            /\ (Sample.store1_after !!! l) !! "priority_score" = Some s
            /\ (Sample.store1_after !!! l) !! "days_until_due"
               = Some (VInt n)).
Proof.
  destruct (analyze_writes_only_derived_fields Iso.fromisoformat
              Iso.isoformat Sample.float_repr Sample.events1 Sample.now
              "student123" Sample.store1 Sample.store1_after
              (Ok Sample.result1))
    as (done & rest & Hsplit & Hrest & Hdone & _).
  - assert (Hok : is_ok (Sample.analyze Sample.events1 Sample.now "student123"
                           Sample.store1).2 = true)
      by (vm_compute; reflexivity).
    unfold Sample.store1_after, Sample.result1, Sample.analyze in *.
    destruct (analyze_highest_weight_event _ _ _ _ _ _ _) as [h1 [r1|e1]];
      [reflexivity|discriminate Hok].
  - exists done, rest. split; [exact Hsplit|].
    split; [by apply (Hrest Sample.result1)|].
    intros l Hl. destruct (Hdone l Hl) as (s & n & Hs & _ & Hps & Hdays).
    exists s, n. split; [exact Hs|]. split; [exact Hps|exact Hdays].
Defined.

(** * Further properties of the engine *)

(** ** What scoring returns and when *)

Lemma py_mul_by_float (a : value) (t : float) (v : value) :
  py_mul a (VFloat t) = Ok v -> exists f, v = VFloat f.
Proof.
  destruct a as [|x|x|x]; cbn [py_mul]; try discriminate.
  - destruct (float_of_int x); [|discriminate]. run_result.
    intros [= <-]. eauto.
  - intros [= <-]. eauto.
Qed.

Lemma py_add_float_with_int (x : float) (p : Z) (v : value) :
  py_add (VFloat x) (VInt p) = Ok v -> exists f, v = VFloat f.
Proof.
  cbn [py_add]. destruct (float_of_int p); [|discriminate]. run_result.
  intros [= <-]. eauto.
Qed.

(** X1. Whenever scoring returns, it returns a float: an int weight is
    promoted by the multiplication with the type factor, and [round] with
    two digits keeps a float a float. *)
Theorem calculate_priority_score_returns_float
    (fromisoformat : string -> option datetime) (event : dict)
    (now : datetime) (v : value) :
  calculate_priority_score fromisoformat event now = Ok v ->
  exists f, v = VFloat f.
Proof.
  unfold calculate_priority_score. intros Hs.
  destruct (days_until_due_of fromisoformat event now) as [n|]; [|discriminate].
  run_result in Hs.
  destruct (getitem event "weight") as [wv|]; [|discriminate].
  run_result in Hs.
  destruct (py_mul wv (VInt 100)) as [wf|]; [|discriminate].
  run_result in Hs.
  destruct (getitem event "type") as [ty|]; [|discriminate].
  run_result in Hs.
  destruct (getitem event "status") as [st|]; [|discriminate].
  run_result in Hs.
  destruct (py_add wf _) as [s1|]; [|discriminate]. run_result in Hs.
  destruct (py_mul s1 _) as [s2|] eqn:Hs2; [|discriminate].
  run_result in Hs.
  apply py_mul_by_float in Hs2 as [f2 ->].
  destruct (py_add (VFloat f2) _) as [s3|] eqn:Hs3; [|discriminate].
  run_result in Hs.
  apply py_add_float_with_int in Hs3 as [f3 ->].
  cbn [py_round] in Hs. injection Hs as <-. eauto.
Qed.

Lemma calculate_priority_score_returns_float_witness :
  exists f,
    VFloat (Spec.score Sample.f_0_25 5 (VStr "project") (VStr "pending"))
    = VFloat f.
Proof.
  apply (calculate_priority_score_returns_float Iso.fromisoformat
           Sample.event1 Sample.now).
  vm_compute. reflexivity.
Defined.

(** X2. The deadline stops mattering from 14 days out: two records with
    the same weight, type and status, both due in 14 days or more, get
    the same score (or fail alike). *)
Theorem calculate_priority_score_saturates
    (fromisoformat : string -> option datetime) (e1 e2 : dict)
    (now : datetime) (n1 n2 : Z) :
  days_until_due_of fromisoformat e1 now = Ok n1 ->
  days_until_due_of fromisoformat e2 now = Ok n2 ->
  14 <= n1 -> 14 <= n2 ->
  e1 !! "weight" = e2 !! "weight" ->
  e1 !! "type" = e2 !! "type" ->
  e1 !! "status" = e2 !! "status" ->
  calculate_priority_score fromisoformat e1 now
  = calculate_priority_score fromisoformat e2 now.
Proof.
  intros Hn1 Hn2 H1 H2 Hw Hty Hst. unfold calculate_priority_score, getitem.
  rewrite Hn1, Hn2, Hw, Hty, Hst. run_result.
  replace (Z.max 0 (14 - n1)) with 0 by lia.
  replace (Z.max 0 (14 - n2)) with 0 by lia.
  reflexivity.
Qed.

(** X3. With a float weight, scoring fails only on the due date or on a
    missing type or status: no float weight makes it fail, NaN and the
    infinities included. *)
Theorem calculate_priority_score_float_weight_ok
    (fromisoformat : string -> option datetime) (event : dict)
    (now : datetime) (w : float) :
  event !! "weight" = Some (VFloat w) ->
  (is_ok (calculate_priority_score fromisoformat event now) = true
   <-> is_ok (days_until_due_of fromisoformat event now) = true
       /\ is_Some (event !! "type") /\ is_Some (event !! "status")).
Proof.
  intros Hw. split.
  - unfold calculate_priority_score, getitem. rewrite Hw.
    destruct (days_until_due_of fromisoformat event now) as [n|];
      [|discriminate].
    run_result.
    destruct (py_mul (VFloat w) (VInt 100)) as [wf|]; [|discriminate].
    run_result.
    destruct (event !! "type") as [ty|]; [|discriminate]. run_result.
    destruct (event !! "status") as [st|]; [|discriminate].
    intros _. repeat split; eauto.
  - intros (Hd & [ty Hty] & [st Hst]).
    destruct (days_until_due_of fromisoformat event now) as [n|] eqn:Hn;
      [|discriminate].
    by rewrite (calculate_priority_score_float _ event now w ty st n).
Qed.

Lemma calculate_priority_score_float_weight_ok_witness :
  is_ok (calculate_priority_score Iso.fromisoformat
           (<["weight" := VFloat S754_nan]> Sample.event2) Sample.now) = true
  <-> is_ok (days_until_due_of Iso.fromisoformat
               (<["weight" := VFloat S754_nan]> Sample.event2) Sample.now)
      = true
      /\ is_Some ((<["weight" := VFloat S754_nan]> Sample.event2) !! "type")
      /\ is_Some ((<["weight" := VFloat S754_nan]> Sample.event2) !! "status").
Proof.
  apply (calculate_priority_score_float_weight_ok Iso.fromisoformat
           (<["weight" := VFloat S754_nan]> Sample.event2) Sample.now
           S754_nan).
  vm_compute. reflexivity.
Defined.

Lemma calculate_priority_score_saturates_witness :
  calculate_priority_score Iso.fromisoformat Sample.event10 Sample.now
  = calculate_priority_score Iso.fromisoformat Sample.event11 Sample.now.
Proof.
  apply (calculate_priority_score_saturates Iso.fromisoformat Sample.event10
           Sample.event11 Sample.now 20 29); vm_compute;
    reflexivity || discriminate.
Defined.

(** ** The classifier and the recommendations *)

(** X4. The classifier is monotone: a later deadline never gets a more
    severe label. *)
Theorem get_urgency_level_monotone (d1 d2 : Z) :
  d1 <= d2 ->
  (severity (get_urgency_level d2) <= severity (get_urgency_level d1))%nat.
Proof.
  intros Hle. unfold get_urgency_level.
  destruct (Z.leb_spec d1 1), (Z.leb_spec d1 3), (Z.leb_spec d1 7),
    (Z.leb_spec d2 1), (Z.leb_spec d2 3), (Z.leb_spec d2 7);
    try lia; vm_compute; lia.
Qed.

Lemma get_urgency_level_monotone_witness :
  (severity (get_urgency_level 5) <= severity (get_urgency_level 2))%nat.
Proof. apply (get_urgency_level_monotone 2 5). lia. Defined.

Lemma generate_recommendations_float_inv
    (float_repr : float -> string) (event : dict) (total d : Z) (w : float)
    (recs : list string) :
  event !! "weight" = Some (VFloat w) ->
  generate_recommendations float_repr event total d = Ok recs ->
  exists ty pct,
    event !! "type" = Some ty
    /\ PyFloat.trunc (PyFloat.mul w (PyFloat.of_Z 100)) = Some pct.
Proof.
  intros Hw Hrun.
  pose proof (py_mul_float_int w 100 ltac:(by vm_compute)) as Hmul.
  unfold generate_recommendations, getitem in Hrun. rewrite Hw in Hrun.
  destruct (event !! "type") as [ty|] eqn:Hty.
  - exists ty.
    destruct (PyFloat.trunc (PyFloat.mul w (PyFloat.of_Z 100)))
      as [pct|] eqn:Hpct; [eauto|exfalso].
    destruct (d <=? 1); [|destruct (d <=? 3); [|destruct (d <=? 7)]];
      run_result in Hrun; rewrite Hmul in Hrun; run_result in Hrun;
      unfold py_int in Hrun; rewrite Hpct in Hrun; discriminate Hrun.
  - exfalso.
    destruct (d <=? 1); [|destruct (d <=? 3); [|destruct (d <=? 7)]];
      try discriminate Hrun.
    run_result in Hrun. rewrite Hmul in Hrun. run_result in Hrun.
    destruct (py_int _); [|discriminate Hrun]. run_result in Hrun.
    cbn [py_ge] in Hrun. run_result in Hrun.
    destruct (PyFloat.leb f_0_3 w); run_result in Hrun;
      [discriminate Hrun|].
    destruct (PyFloat.leb f_0_15 w); discriminate Hrun.
Qed.

(** X5. The recommendations open on the same thresholds as the urgency
    label: for a record with a float weight, the list starts with the
    URGENT string exactly when the label is "critical", with the Priority
    string exactly when it is "high", and with the Plan-ahead string
    exactly when it is "moderate". *)
Theorem generate_recommendations_opens_with_urgency
    (float_repr : float -> string) (event : dict) (total d : Z) (w : float)
    (recs : list string) :
  event !! "weight" = Some (VFloat w) ->
  generate_recommendations float_repr event total d = Ok recs ->
  first_starts_with "🚨 URGENT" recs
    = bool_decide (get_urgency_level d = "critical")
  /\ first_starts_with "⚠️ Priority" recs
    = bool_decide (get_urgency_level d = "high")
  /\ first_starts_with "📅 Plan ahead" recs
    = bool_decide (get_urgency_level d = "moderate").
Proof.
  intros Hw Hrun.
  destruct (generate_recommendations_float_inv _ _ _ _ _ _ Hw Hrun)
    as (ty & pct & Hty & Hpct).
  rewrite (generate_recommendations_float _ _ _ _ w ty pct Hw Hty Hpct)
    in Hrun.
  injection Hrun as <-.
  unfold Spec.time_group, get_urgency_level.
  destruct (d <=? 1); [by vm_compute|].
  destruct (d <=? 3); [by vm_compute|].
  destruct (d <=? 7); [by vm_compute|].
  unfold Spec.weight_group, Spec.workload_group, Spec.type_group.
  destruct (PyFloat.leb f_0_3 w); [by vm_compute|].
  destruct (PyFloat.leb f_0_15 w); [by vm_compute|].
  destruct (8 <=? total); [by vm_compute|].
  destruct (eq_str ty "exam"); [by vm_compute|].
  destruct (eq_str ty "project"); [by vm_compute|].
  destruct (eq_str ty "assignment"); by vm_compute.
Qed.

Lemma generate_recommendations_opens_with_urgency_witness :
  first_starts_with "🚨 URGENT"
    ["🚨 URGENT: This exam is due within 24 hours!";
     "Focus solely on this task and complete it as soon as possible";
     "💎 High Impact: This task represents 35% of your grade";
     "Consider dedicating extra study time given its importance";
     "📖 Create a study schedule leading up to the exam";
     "Review past materials and practice problems"]
    = bool_decide (get_urgency_level 0 = "critical")
  /\ first_starts_with "⚠️ Priority"
    ["🚨 URGENT: This exam is due within 24 hours!";
     "Focus solely on this task and complete it as soon as possible";
     "💎 High Impact: This task represents 35% of your grade";
     "Consider dedicating extra study time given its importance";
     "📖 Create a study schedule leading up to the exam";
     "Review past materials and practice problems"]
    = bool_decide (get_urgency_level 0 = "high")
  /\ first_starts_with "📅 Plan ahead"
    ["🚨 URGENT: This exam is due within 24 hours!";
     "Focus solely on this task and complete it as soon as possible";
     "💎 High Impact: This task represents 35% of your grade";
     "Consider dedicating extra study time given its importance";
     "📖 Create a study schedule leading up to the exam";
     "Review past materials and practice problems"]
    = bool_decide (get_urgency_level 0 = "moderate").
Proof.
  apply (generate_recommendations_opens_with_urgency Sample.float_repr
           Sample.event7 3 0 Sample.f_0_35); vm_compute; reflexivity.
Defined.

(** ** Failures of the analysis *)

(** X6. A record without a status, anywhere in the list, makes the
    analysis raise [KeyError('status')] while it is still filtering: the
    store is left exactly as it was, whatever the other records hold. *)
Theorem analyze_missing_status_raises
    (fromisoformat : string -> option datetime)
    (isoformat : datetime -> string) (float_repr : float -> string)
    (events : list loc) (now : datetime) (uid : string) (h : store)
    (l : loc) :
  l ∈ events ->
  (h !!! l) !! "status" = None ->
  analyze_highest_weight_event fromisoformat isoformat float_repr
    events now uid h = (h, Raise (KeyError "status")).
Proof.
  intros Hin Hnone. unfold analyze_highest_weight_event.
  rewrite bindM_eq, filter_pending_run, decide_False; [done|].
  rewrite Forall_forall. intros Hall. destruct (Hall l Hin) as [st Hst].
  congruence.
Qed.

Lemma analyze_missing_status_raises_witness :
  Sample.analyze [2; 3; 7]%positive Sample.now "student123" Sample.store1
  = (Sample.store1, Raise (KeyError "status")).
Proof.
  apply (analyze_missing_status_raises Iso.fromisoformat Iso.isoformat
           Sample.float_repr [2; 3; 7]%positive Sample.now "student123"
           Sample.store1 7%positive).
  - do 2 apply list_elem_of_further. apply list_elem_of_here.
  - vm_compute. reflexivity.
Defined.

(** X7. A failure is not rolled back: when the first pending record that
    cannot be scored has a due date that does not parse, the analysis
    raises [ValueError], and the pending records before it keep the
    derived fields already written to them; every other object is as it
    was. *)
Theorem analyze_failure_keeps_earlier_writes
    (fromisoformat : string -> option datetime)
    (isoformat : datetime -> string) (float_repr : float -> string)
    (events : list loc) (now : datetime) (uid : string) (h : store)
    (pre : list loc) (bad : loc) (post : list loc) (due : string) :
  Forall (has_status h) events ->
  pending_of h events = pre ++ bad :: post ->
  Forall (fun l => is_ok (calculate_priority_score fromisoformat (h !!! l) now)
                   = true) pre ->
  (h !!! bad) !! "due_date" = Some (VStr due) ->
  fromisoformat (replace_Z due) = None ->
  exists h',
    analyze_highest_weight_event fromisoformat isoformat float_repr
      events now uid h = (h', Raise ValueError)
    /\ forall l, h' !!! l = if decide (l ∈ pre)
                           then derive fromisoformat now (h !!! l)
                           else h !!! l.
Proof.
  intros Hst Hp Hpre Hdue Hparse.
  destruct (score_events_stops fromisoformat now pre bad post ValueError h Hpre)
    as (h' & Hrun & Hh').
  { unfold calculate_priority_score, days_until_due_of, parse_due_date.
    rewrite (getitem_Some _ _ _ Hdue). run_result. by rewrite Hparse. }
  exists h'. split; [|exact Hh'].
  unfold analyze_highest_weight_event.
  rewrite bindM_eq, filter_pending_run, decide_True by done.
  rewrite Hp. destruct (pre ++ bad :: post) as [|e0 rest0] eqn:Hlist.
  { by destruct pre. }
  by rewrite bindM_eq, Hrun.
Qed.

Lemma analyze_failure_keeps_earlier_writes_witness :
  exists h',
    Sample.analyze [2; 8; 3]%positive Sample.now "student123" Sample.store2
    = (h', Raise ValueError)
    /\ (h' !!! 2%positive) !! "priority_score"
       = Some (VFloat (PyFloat.of_Z 108))
    /\ (h' !!! 3%positive) !! "priority_score" = None.
Proof.
  destruct (analyze_failure_keeps_earlier_writes Iso.fromisoformat
              Iso.isoformat Sample.float_repr [2; 8; 3]%positive Sample.now
              "student123" Sample.store2 [2%positive] 8%positive
              [3%positive] "next tuesday") as (h' & Hrun & Hh').
  - repeat constructor; vm_compute; eexists; reflexivity.
  - vm_compute. reflexivity.
  - constructor; [vm_compute; reflexivity|constructor].
  - vm_compute. reflexivity.
  - vm_compute. reflexivity.
  - exists h'. split; [exact Hrun|]. rewrite !Hh'. split.
    + vm_compute. reflexivity.
    + vm_compute. reflexivity.
Defined.

(** ** Analysing the same store again *)

Section Settled.

Variable fromisoformat : string -> option datetime.
Variable now : datetime.

Local Abbreviation score := (calculate_priority_score fromisoformat).
Local Abbreviation days_of := (days_until_due_of fromisoformat).
Local Abbreviation settled_in := (settled fromisoformat now).

(** Scoring a settled record writes back what is there. *)
Lemma settled_step (e : loc) (rest : list loc) (h : store) :
  settled_in h e ->
  score_events fromisoformat now (e :: rest) h
  = score_events fromisoformat now rest h.
Proof.
  intros (d & s & n & Hd & Hs & Hn & Hps & Hdud).
  pose proof (lookup_total_correct _ _ _ Hd) as Ht.
  rewrite (score_events_cons fromisoformat now e rest h s n)
    by (by rewrite Ht).
  rewrite Ht, insert_insert_eq. f_equal. apply insert_id.
  rewrite Hd. f_equal. unfold with_derived.
  rewrite (insert_id d "priority_score") by done. by rewrite insert_id.
Qed.

Lemma score_events_settled_id (pending : list loc) (h : store) :
  (forall e, e ∈ pending -> settled_in h e) ->
  score_events fromisoformat now pending h = (h, Ok tt).
Proof.
  induction pending as [|e rest IH]; intros Hall; [reflexivity|].
  rewrite settled_step by apply Hall, list_elem_of_here.
  apply IH. intros e' He'. by apply Hall, list_elem_of_further.
Qed.

(** A successful turn of the loop leaves its record settled, and keeps
    settled records settled. *)
Lemma settled_after_step (e : loc) (h : store) (s : value) (n : Z) (e0 : loc) :
  score (h !!! e) now = Ok s ->
  days_of (h !!! e) now = Ok n ->
  e0 = e \/ settled_in h e0 ->
  settled_in
    (<[e := with_derived s n (h !!! e)]>
       (<[e := <["priority_score" := s]> (h !!! e)]> h)) e0.
Proof.
  intros Hs Hn He0. destruct (decide (e0 = e)) as [->|Hne].
  - exists (with_derived s n (h !!! e)), s, n.
    rewrite lookup_insert_eq, score_with_derived, days_of_with_derived.
    repeat split; try done.
    + apply with_derived_priority_score.
    + apply with_derived_days_until_due.
  - destruct He0 as [?|(d & s0 & n0 & Hd & Hrest)]; [done|].
    exists d, s0, n0. by rewrite !lookup_insert_ne.
Qed.

Lemma score_events_settles (pending : list loc) :
  forall h h',
  score_events fromisoformat now pending h = (h', Ok tt) ->
  forall e, e ∈ pending \/ settled_in h e -> settled_in h' e.
Proof.
  induction pending as [|e rest IH]; intros h h' Hrun e0 He0.
  { injection Hrun as <-. destruct He0 as [He0|?]; [|done].
    by apply elem_of_nil in He0. }
  destruct (score (h !!! e) now) as [s|err] eqn:Hs.
  2:{ cbn [score_events] in Hrun. rewrite bindM_load in Hrun.
      by rewrite (bindM_lift_Raise _ err) in Hrun. }
  destruct (score_Ok_days _ _ _ _ Hs) as [n Hn].
  rewrite (score_events_cons fromisoformat now e rest h s n Hs Hn) in Hrun.
  apply (IH _ _ Hrun).
  destruct He0 as [He0|He0].
  - apply elem_of_cons in He0 as [->|He0]; [|by left].
    right. apply settled_after_step; auto.
  - right. apply settled_after_step; auto.
Qed.

End Settled.

(** X8. Analysing again the store an analysis has written to changes
    nothing: with the same events and the same clock reading, the second
    run returns the same result and leaves the store as the first run
    left it. *)
Theorem analyze_again_same_result
    (fromisoformat : string -> option datetime)
    (isoformat : datetime -> string) (float_repr : float -> string)
    (events : list loc) (now : datetime) (uid : string) (h h' : store)
    (r : response) :
  analyze_highest_weight_event fromisoformat isoformat float_repr
    events now uid h = (h', Ok r) ->
  analyze_highest_weight_event fromisoformat isoformat float_repr
    events now uid h' = (h', Ok r).
Proof.
  intros Hrun.
  pose proof (analyze_store fromisoformat isoformat float_repr events now uid h)
    as Hstore. rewrite Hrun in Hstore. cbn [fst] in Hstore.
  unfold analyze_highest_weight_event in Hrun |- *.
  rewrite bindM_eq, filter_pending_run in Hrun.
  destruct (decide (Forall (has_status h) events)) as [Hst|]; [|discriminate].
  assert (Hstatus : forall l, (h' !!! l) !! "status" = (h !!! l) !! "status").
  { intros l. rewrite Hstore.
    by destruct (score_events_frame fromisoformat now
                   (pending_of h events) h l) as [_ ->]. }
  assert (Hst' : Forall (has_status h') events).
  { eapply Forall_impl; [exact Hst|]. intros l. unfold has_status.
    by rewrite Hstatus. }
  assert (Hp : pending_of h' events = pending_of h events).
  { unfold pending_of. apply list_filter_iff. intros l. unfold is_pending.
    by rewrite Hstatus. }
  rewrite bindM_eq, filter_pending_run, decide_True, Hp by done.
  destruct (pending_of h events) as [|e0 rest0] eqn:Hpend.
  { injection Hrun as <- <-. reflexivity. }
  apply bindM_Ok_inv in Hrun as (h1 & [] & Hloop & Htail).
  rewrite Hloop in Hstore. cbn [fst] in Hstore. subst h1.
  rewrite bindM_eq.
  rewrite (score_events_settled_id fromisoformat now (e0 :: rest0) h').
  - exact Htail.
  - intros e He. apply (score_events_settles _ _ _ _ _ Hloop). by left.
Qed.

Lemma analyze_again_same_result_witness :
  Sample.analyze Sample.events1 Sample.now "student123" Sample.store1_after
  = (Sample.store1_after, Ok Sample.result1).
Proof.
  apply (analyze_again_same_result Iso.fromisoformat Iso.isoformat
           Sample.float_repr Sample.events1 Sample.now "student123"
           Sample.store1).
  assert (Hok : is_ok (Sample.analyze Sample.events1 Sample.now "student123"
                         Sample.store1).2 = true)
    by (vm_compute; reflexivity).
  unfold Sample.store1_after, Sample.result1, Sample.analyze in *.
  destruct (analyze_highest_weight_event _ _ _ _ _ _ _) as [h1 [r1|e1]];
    [reflexivity|discriminate Hok].
Defined.


(** ** The first maximum is unique *)

Lemma ltb_leb_excl (a b : float) :
  PyFloat.ltb a b = true -> PyFloat.leb b a = true -> False.
Proof.
  intros Hab Hba. destruct (ltb_not_nan _ _ Hab) as [Ha Hb].
  apply ltb_rank in Hab; [|done..]. apply leb_rank in Hba; [|done..].
  destruct (rank a) as [[a1 a2] a3], (rank b) as [[b1 b2] b3].
  unfold lex_lt, lex_le in *. lia.
Qed.

(** Two ways to split a list around an item that is strictly above what
    comes before it and at least what comes after it split it around the
    same item. *)
Lemma first_max_unique (key : loc -> float) (pre : list loc) :
  forall (pre' : list loc) (w w' : loc) (post post' : list loc),
  pre ++ w :: post = pre' ++ w' :: post' ->
  (forall l, l ∈ pre -> PyFloat.ltb (key l) (key w) = true) ->
  (forall l, l ∈ post -> PyFloat.leb (key l) (key w) = true) ->
  (forall l, l ∈ pre' -> PyFloat.ltb (key l) (key w') = true) ->
  (forall l, l ∈ post' -> PyFloat.leb (key l) (key w') = true) ->
  w = w'.
Proof.
  induction pre as [|p pre IH]; intros pre' w w' post post' Heq Hlt Hle Hlt' Hle'.
  - destruct pre' as [|p' pre']; cbn [app] in Heq.
    + by injection Heq.
    + injection Heq as -> ->. exfalso.
      apply (ltb_leb_excl (key p') (key w')).
      * apply Hlt', list_elem_of_here.
      * apply Hle, elem_of_app. right. apply list_elem_of_here.
  - destruct pre' as [|p' pre']; cbn [app] in Heq.
    + injection Heq as -> <-. exfalso.
      apply (ltb_leb_excl (key w') (key w)).
      * apply Hlt, list_elem_of_here.
      * apply Hle', elem_of_app. right. apply list_elem_of_here.
    + injection Heq as -> Heq.
      apply (IH pre' w w' post post' Heq); try done.
      * intros l Hl. by apply Hlt, list_elem_of_further.
      * intros l Hl. by apply Hlt', list_elem_of_further.
Qed.

(** The scoring loop leaves the objects it was not given where they
    are, present or absent. *)
Lemma score_events_keeps_others fromisoformat now (pending : list loc)
    (h : store) (l : loc) :
  l ∉ pending ->
  (score_events fromisoformat now pending h).1 !! l = h !! l.
Proof.
  revert h. induction pending as [|e rest IH]; intros h Hl; [done|].
  rewrite not_elem_of_cons in Hl. destruct Hl as [Hne Hl].
  cbn [score_events]. rewrite bindM_load.
  destruct (calculate_priority_score fromisoformat (h !!! e) now)
    as [s|err] eqn:Hs.
  2:{ by rewrite (bindM_lift_Raise _ err). }
  rewrite (bindM_lift_Ok _ s) by done.
  rewrite bindM_eq. cbn [setitem]. rewrite bindM_load.
  destruct (days_until_due_of fromisoformat _ now) as [n|err] eqn:Hn.
  2:{ rewrite (bindM_lift_Raise _ err) by done. cbn [fst].
      by rewrite lookup_insert_ne. }
  rewrite (bindM_lift_Ok _ n) by done.
  rewrite bindM_eq. cbn [setitem].
  rewrite IH by done. by rewrite !lookup_insert_ne.
Qed.

(** * Properties of the server *)

(** ** Computations of the server *)

Lemma bindW_eq {A B} (m : W A) (k : A -> W B) (w : world) :
  (x ← m; k x) w
  = match m w with
    | (w', Returned a) => k a w'
    | (w', Failed e) => (w', Failed e)
    end.
Proof. reflexivity. Qed.

Lemma timedelta_days_fields (n : Z) :
  timedelta_days n = {| days := n; seconds := 0; microseconds := 0 |}.
Proof.
  unfold timedelta_days, timedelta_of_us. f_equal.
  - apply Z.div_mul. by vm_compute.
  - rewrite Z.mod_mul by (by vm_compute). reflexivity.
  - unfold us_per_day.
    replace (n * 86400000000) with (n * 86400 * 1000000) by lia.
    apply Z.mod_mul. lia.
Qed.

(** Adding whole days within the range of [datetime]. *)
Lemma datetime_add_days (t : Z) (n : Z) :
  0 <= t + n * us_per_day < max_wall ->
  datetime_add (mk_datetime t None) (timedelta_days n)
  = Ok (mk_datetime (t + n * us_per_day) None).
Proof.
  intros Hrange. unfold datetime_add. rewrite timedelta_days_fields.
  cbn [days seconds microseconds wall utcoffset].
  replace (n * us_per_day + 0 * 1000000 + 0) with (n * us_per_day) by lia.
  destruct (Z.leb_spec 0 (t + n * us_per_day)); [|lia].
  destruct (Z.ltb_spec (t + n * us_per_day) max_wall); [|lia].
  reflexivity.
Qed.

Section ServerProperties.

Variable fromisoformat : string -> option datetime.
Variable isoformat : datetime -> string.
Variable float_repr : float -> string.
Variable url_path : string -> string.
Variable url_query : string -> string.
Variable parse_qs : string -> gmap string (list string).
Variable json_dumps : store -> json -> string.
Variable html_content : string.
Variable strftime_HMS : datetime -> string.
Variable request_log : Z -> string.
Variable clock : nat -> Z.

(** The log line of a response with status [code], stamped with the
    clock reading [t]. *)
Local Abbreviation log_line t code :=
  (LogLine ("[" +:+ strftime_HMS (mk_datetime t None) +:+ "] "
            +:+ request_log code)).

(** The due date of a sample event created at the wall time [t]. *)
Local Abbreviation due_at t m :=
  (mk_datetime (t + me_due_in_days m * us_per_day) None).

(** Creating the sample events: as many new objects as entries, all
    distinct and none of them in the store before, each holding its dict
    display; the objects that were there are as they were. *)
Lemma new_events_run (t : Z) (ms : list mock_event) :
  forall w,
  Forall (fun m => 0 <= t + me_due_in_days m * us_per_day < max_wall) ms ->
  exists ls h',
    new_events isoformat (mk_datetime t None) ms w
    = (mk_world h' (w_reads w) (w_out w), Returned ls)
    /\ NoDup ls
    /\ (forall l, l ∈ ls -> w_store w !! l = None)
    /\ Forall2 (fun l m =>
                  h' !! l = Some (mock_event_dict m (isoformat (due_at t m))))
         ls ms
    /\ (forall l, l ∉ ls -> h' !! l = w_store w !! l).
Proof.
  induction ms as [|m ms IH]; intros w Hrange.
  { exists [], (w_store w). destruct w. repeat split; try done.
    - constructor.
    - intros l Hl. by apply elem_of_nil in Hl. }
  inversion Hrange as [|? ? Hm Hms]; subst.
  cbn [new_events]. rewrite bindW_eq.
  unfold new_event at 1, run_engine. rewrite bindM_eq.
  unfold lift at 1. rewrite (datetime_add_days t _ Hm).
  unfold alloc at 1.
  set (l := fresh (dom (w_store w))).
  set (d := mock_event_dict m (isoformat (due_at t m))).
  assert (Hl : w_store w !! l = None).
  { apply not_elem_of_dom. apply is_fresh. }
  destruct (IH (mk_world (<[l := d]> (w_store w)) (w_reads w) (w_out w)) Hms)
    as (ls & h' & Hrun & Hnd & Hfresh & Hall & Hold).
  cbn [w_store w_reads w_out] in *.
  rewrite bindW_eq, Hrun.
  assert (Hnotin : l ∉ ls).
  { intros Hin. specialize (Hfresh l Hin). by rewrite lookup_insert_eq in Hfresh. }
  exists (l :: ls), h'. split; [reflexivity|]. split; [by constructor|].
  split; [|split].
  - intros l' Hl'. apply elem_of_cons in Hl' as [->|Hl']; [done|].
    specialize (Hfresh l' Hl').
    destruct (decide (l = l')) as [->|Hne]; [done|].
    by rewrite lookup_insert_ne in Hfresh.
  - constructor; [|done]. by rewrite Hold, lookup_insert_eq.
  - intros l' Hl'. rewrite not_elem_of_cons in Hl'. destruct Hl' as [Hne Hl'].
    by rewrite Hold, lookup_insert_ne.
Qed.

(** What the engine reads in a sample event created at [t1] and scored
    at the later reading [t2]. *)
Lemma mock_event_days (m : mock_event) (t1 t2 : Z) :
  fromisoformat (replace_Z (isoformat (due_at t1 m))) = Some (due_at t1 m) ->
  - max_delta_days
    <= me_due_in_days m + (t1 - t2) / us_per_day <= max_delta_days ->
  days_until_due_of fromisoformat
    (mock_event_dict m (isoformat (due_at t1 m))) (mk_datetime t2 None)
  = Ok (me_due_in_days m + (t1 - t2) / us_per_day).
Proof.
  intros Hrt Hrange.
  unfold days_until_due_of, parse_due_date.
  rewrite (getitem_Some _ _ (VStr (isoformat (due_at t1 m))))
    by reflexivity.
  run_result. rewrite Hrt. run_result.
  unfold datetime_sub, elapsed_us. cbn [utcoffset wall timedelta_of_us days].
  replace (t1 + me_due_in_days m * us_per_day - t2)
    with (t1 - t2 + me_due_in_days m * us_per_day) by lia.
  rewrite Z.div_add by (by vm_compute).
  replace ((t1 - t2) / us_per_day + me_due_in_days m)
    with (me_due_in_days m + (t1 - t2) / us_per_day) by lia.
  destruct (Z.leb_spec (- max_delta_days)
              (me_due_in_days m + (t1 - t2) / us_per_day)); [|lia].
  destruct (Z.leb_spec (me_due_in_days m + (t1 - t2) / us_per_day)
              max_delta_days); [|lia].
  cbn [andb]. run_result. cbn [timedelta_of_us days].
  rewrite Z.div_add by (by vm_compute). f_equal. lia.
Qed.

Lemma mock_event_score (m : mock_event) (t1 t2 : Z) :
  fromisoformat (replace_Z (isoformat (due_at t1 m))) = Some (due_at t1 m) ->
  - max_delta_days
    <= me_due_in_days m + (t1 - t2) / us_per_day <= max_delta_days ->
  calculate_priority_score fromisoformat
    (mock_event_dict m (isoformat (due_at t1 m))) (mk_datetime t2 None)
  = Ok (VFloat (Spec.score (me_weight m)
                  (me_due_in_days m + (t1 - t2) / us_per_day)
                  (VStr (me_type m)) (VStr (me_status m)))).
Proof.
  intros Hrt Hrange.
  apply calculate_priority_score_float; try reflexivity.
  by apply mock_event_days.
Qed.

Local Abbreviation analyze_request :=
  (analyze_highest_weight_event_request fromisoformat isoformat float_repr
     clock).

(** The run of a whole analysis request: the sample events are created
    at the first clock reading and scored at the second one, [delta]
    whole days (0 or -1) after the first. *)
Lemma analyze_request_run (uid : string) (w : world) (delta : Z) :
  let t1 := clock (w_reads w) in
  let t2 := clock (S (w_reads w)) in
  0 <= t1 -> t1 + 12 * us_per_day < max_wall ->
  (t1 - t2) / us_per_day = delta -> delta = 0 \/ delta = -1 ->
  Forall (fun m => fromisoformat (replace_Z (isoformat (due_at t1 m)))
                   = Some (due_at t1 m)) mock_events ->
  exists h' r l,
    analyze_request uid w
      = (mk_world h' (S (S (w_reads w))) (w_out w), Returned r)
    /\ success r = true
    /\ data_event r = Some l
    /\ (h' !!! l) !! "id" = Some (VStr "event2")
    /\ w_store w !! l = None
    /\ total_pending_events (data_analysis r) = 6
    /\ course_load (data_analysis r) = "Moderate"
    /\ average_weight (data_analysis r)
       = VFloat (PyFloat.of_frac false 185 1000)
    /\ days_to_due (data_analysis r) = VInt (2 + delta)
    /\ urgency_level (data_analysis r) = get_urgency_level (2 + delta)
    /\ impact_score (data_analysis r)
       = VFloat (Spec.score (PyFloat.of_frac false 30 100) (2 + delta)
                   (VStr "exam") (VStr "pending"))
    /\ user_id r = uid
    /\ (forall l0, is_Some (w_store w !! l0) -> h' !! l0 = w_store w !! l0).
Proof.
  intros t1 t2 Ht1 Hmax Hdelta Hcases Hrt.
  assert (Hday : us_per_day = 86400000000) by reflexivity.
  (* the store answers *)
  destruct (new_events_run t1 mock_events
              (mk_world (w_store w) (S (w_reads w)) (w_out w)))
    as (ls & h1 & Hnew & Hnd & Hfresh & Hall & Hold).
  { unfold mock_events. repeat constructor;
      cbn [me_due_in_days]; unfold max_wall in *; lia. }
  cbn [w_store w_reads w_out] in *.
  unfold mock_events in Hall, Hrt.
  repeat match goal with
         | H : Forall2 _ _ (_ :: _) |- _ =>
             apply Forall2_cons_inv_r in H as (? & ? & ? & H & ->)
         end.
  apply Forall2_nil_inv_r in Hall as ->.
  repeat match goal with
         | H : Forall _ (_ :: _) |- _ =>
             apply Forall_cons in H as [? H]
         end.
  clear Hrt.
  repeat match goal with
         | H : h1 !! _ = Some _ |- _ => apply lookup_total_correct in H
         end.
  match goal with
  | H : NoDup [?l1; ?l2; ?l3; ?l4; ?l5; ?l6] |- _ =>
      rename l1 into e1; rename l2 into e2; rename l3 into e3;
      rename l4 into e4; rename l5 into e5; rename l6 into e6
  end.
  (* every sample event is pending and can be scored *)
  assert (Hrange : forall k, 1 <= k <= 12 ->
            - max_delta_days <= k + (t1 - t2) / us_per_day <= max_delta_days).
  { intros k Hk. rewrite Hdelta. unfold max_delta_days. lia. }
  assert (Hscore : forall e m,
            h1 !!! e = mock_event_dict m (isoformat (due_at t1 m)) ->
            fromisoformat (replace_Z (isoformat (due_at t1 m)))
            = Some (due_at t1 m) ->
            1 <= me_due_in_days m <= 12 ->
            calculate_priority_score fromisoformat (h1 !!! e)
              (mk_datetime t2 None)
            = Ok (VFloat (Spec.score (me_weight m)
                            (me_due_in_days m + delta)
                            (VStr (me_type m)) (VStr (me_status m))))).
  { intros e m -> Hm Hk. rewrite <- Hdelta. apply mock_event_score; auto. }
  assert (Hpend : pending_of h1 [e1; e2; e3; e4; e5; e6]
                  = [e1; e2; e3; e4; e5; e6]).
  { unfold pending_of.
    repeat (rewrite filter_cons_True;
            [|unfold is_pending;
              match goal with
              | H : h1 !!! ?e = _ |- context [h1 !!! ?e] => by rewrite H
              end]).
    reflexivity. }
  destruct (analyze_run fromisoformat isoformat float_repr
              (mk_datetime t2 None) [e1; e2; e3; e4; e5; e6] uid h1
              (me_weight <$> mock_events))
    as (h' & r & pre & win & post & n & recs & Hrun & Hr & Hh' & Hsplit
        & Hlt & Hle & Hn & _).
  { repeat constructor; unfold has_status;
      match goal with
      | H : h1 !!! ?e = _ |- context [h1 !!! ?e] =>
          rewrite H; eexists; reflexivity
      end. }
  { by rewrite Hpend. }
  { rewrite Hpend. repeat constructor; unfold scorable, score_float;
      match goal with
      | H : h1 !!! ?e = _ |- context [h1 !!! ?e] =>
          rewrite (Hscore _ _ H) by (done || (cbn [me_due_in_days]; lia))
      end;
      destruct Hcases as [-> | ->]; vm_compute; reflexivity. }
  { rewrite Hpend. unfold mock_events. cbn [fmap list_fmap me_weight].
    repeat constructor;
      match goal with
      | H : h1 !!! ?e = _ |- context [h1 !!! ?e] => by rewrite H
      end. }
  { by vm_compute. }
  (* the winner is the second event *)
  rewrite Hpend in Hsplit, Hh'.
  assert (Hkey : forall e m,
            h1 !!! e = mock_event_dict m (isoformat (due_at t1 m)) ->
            fromisoformat (replace_Z (isoformat (due_at t1 m)))
            = Some (due_at t1 m) ->
            1 <= me_due_in_days m <= 12 ->
            score_float fromisoformat (mk_datetime t2 None) (h1 !!! e)
            = Spec.score (me_weight m) (me_due_in_days m + delta)
                (VStr (me_type m)) (VStr (me_status m))).
  { intros e m He Hm Hk. unfold score_float.
    by rewrite (Hscore e m He Hm Hk). }
  assert (Hwin : win = e2).
  { symmetry.
    apply (first_max_unique
             (fun l => score_float fromisoformat (mk_datetime t2 None)
                         (h1 !!! l))
             [e1] pre e2 win [e3; e4; e5; e6] post Hsplit); [| |done..].
    - intros l Hl. apply list_elem_of_singleton in Hl as ->.
      repeat match goal with
             | H : h1 !!! ?e = _
               |- context [score_float _ _ (h1 !!! ?e)] =>
                 rewrite (Hkey _ _ H) by (done || (cbn [me_due_in_days]; lia))
             end.
      destruct Hcases as [-> | ->]; vm_compute; reflexivity.
    - intros l Hl.
      repeat (apply elem_of_cons in Hl as [->|Hl]);
        [| | | |by apply elem_of_nil in Hl];
        repeat match goal with
               | H : h1 !!! ?e = _
                 |- context [score_float _ _ (h1 !!! ?e)] =>
                   rewrite (Hkey _ _ H)
                     by (done || (cbn [me_due_in_days]; lia))
               end;
        destruct Hcases as [-> | ->]; vm_compute; reflexivity. }
  subst win.
  assert (He2 : [e1; e2; e3; e4; e5; e6] !! 1%nat = Some e2) by reflexivity.
  exists h', r, e2.
  split.
  { unfold analyze_highest_weight_event_request, get_student_data.
    rewrite !bindW_eq. cbn [datetime_now]. fold t1.
    rewrite bindW_eq, Hnew. cbn [mret W_ret].
    rewrite bindW_eq. cbn [datetime_now w_reads w_store w_out sd_events].
    fold t2. unfold run_engine. cbn [w_store w_reads w_out].
    by rewrite Hrun. }
  assert (Hn2 : n = 2 + delta).
  { match goal with
    | H : h1 !!! e2 = _ |- _ => rewrite H in Hn
    end.
    rewrite <- Hdelta.
    rewrite mock_event_days in Hn by (done || apply (Hrange 2); lia).
    by injection Hn. }
  subst r. cbn [data_event data_analysis total_pending_events course_load
                average_weight days_to_due urgency_level impact_score user_id
                success].
  rewrite Hpend, Hn2.
  match goal with
  | H : h1 !!! e2 = _ |- _ =>
      rewrite (Hkey e2 _ H) by (done || (cbn [me_due_in_days]; lia))
  end.
  split; [reflexivity|]. split; [reflexivity|]. split.
  { rewrite Hh', decide_True
      by (apply list_elem_of_further, list_elem_of_here).
    rewrite derive_lookup by done.
    match goal with H : h1 !!! e2 = _ |- _ => by rewrite H end. }
  split; [apply Hfresh, list_elem_of_further, list_elem_of_here|].
  split; [reflexivity|]. split; [reflexivity|].
  split; [vm_compute; reflexivity|].
  split; [reflexivity|]. split; [reflexivity|]. split; [reflexivity|].
  split; [reflexivity|].
  intros l0 Hl0.
  pose proof (analyze_store fromisoformat isoformat float_repr
                [e1; e2; e3; e4; e5; e6] (mk_datetime t2 None) uid h1)
    as Hstore.
  rewrite Hrun in Hstore. cbn [fst] in Hstore.
  assert (Hl0' : l0 ∉ [e1; e2; e3; e4; e5; e6]).
  { intros Hin. apply Hfresh in Hin. rewrite Hin in Hl0.
    by destruct Hl0. }
  rewrite <- (Hold l0 Hl0'), Hstore.
  apply score_events_keeps_others.
  destruct (decide _); [by rewrite Hpend|apply not_elem_of_nil].
Qed.

(** X9. A whole analysis request on the sample events, for any user:
    provided the second clock reading falls within a day after the first
    and the due dates written by [isoformat] read back, the request
    returns a result with an event (never the no-pending result, never an
    error): the midterm "event2", a new object of this request, with 6
    pending events, the course load "Moderate" and the average weight
    0.185. *)
Theorem analyze_request_selects_midterm (uid : string) (w : world) :
  0 <= clock (w_reads w) ->
  clock (w_reads w) + 12 * us_per_day < max_wall ->
  clock (w_reads w) <= clock (S (w_reads w))
    < clock (w_reads w) + us_per_day ->
  Forall (fun m =>
            fromisoformat
              (replace_Z (isoformat (due_at (clock (w_reads w)) m)))
            = Some (due_at (clock (w_reads w)) m)) mock_events ->
  exists h' r l,
    analyze_request uid w
      = (mk_world h' (S (S (w_reads w))) (w_out w), Returned r)
    /\ success r = true
    /\ data_event r = Some l
    /\ (h' !!! l) !! "id" = Some (VStr "event2")
    /\ w_store w !! l = None
    /\ total_pending_events (data_analysis r) = 6
    /\ course_load (data_analysis r) = "Moderate"
    /\ average_weight (data_analysis r)
       = VFloat (PyFloat.of_frac false 185 1000)
    /\ user_id r = uid.
Proof.
  intros Ht1 Hmax Ht2 Hrt.
  assert (Hcases : (clock (w_reads w) - clock (S (w_reads w))) / us_per_day = 0
                   \/ (clock (w_reads w) - clock (S (w_reads w)))
                        / us_per_day = -1).
  { assert (Hday : us_per_day = 86400000000) by reflexivity.
    destruct (decide (clock (S (w_reads w)) = clock (w_reads w))) as [->|Hne].
    - left. by rewrite Z.sub_diag.
    - right. symmetry.
      apply Z.div_unique
        with (r := clock (w_reads w) - clock (S (w_reads w)) + us_per_day);
        lia. }
  destruct (analyze_request_run uid w _ Ht1 Hmax eq_refl Hcases Hrt)
    as (h' & r & l & Hrun & Hok & Hev & Hid & Hnew & Htot & Hload & Havg
        & _ & _ & _ & Huid & _).
  exists h', r, l. repeat split; assumption.
Qed.

(** X10. The two clock readings make the midterm one day closer than it
    was created: created as due in exactly 2 days, it is reported with
    [days_to_due] 1, urgency "critical" and impact score 114.0 as soon as
    the clock has moved between the readings, and with 2, "high" and
    108.0 only if both readings are the same instant. *)
Theorem analyze_request_days_to_due (uid : string) (w : world) :
  0 <= clock (w_reads w) ->
  clock (w_reads w) + 12 * us_per_day < max_wall ->
  clock (w_reads w) <= clock (S (w_reads w))
    < clock (w_reads w) + us_per_day ->
  Forall (fun m =>
            fromisoformat
              (replace_Z (isoformat (due_at (clock (w_reads w)) m)))
            = Some (due_at (clock (w_reads w)) m)) mock_events ->
  exists w' r,
    analyze_request uid w = (w', Returned r)
    /\ (clock (w_reads w) < clock (S (w_reads w)) ->
          days_to_due (data_analysis r) = VInt 1
          /\ urgency_level (data_analysis r) = "critical"
          /\ impact_score (data_analysis r) = VFloat (PyFloat.of_Z 114))
    /\ (clock (S (w_reads w)) = clock (w_reads w) ->
          days_to_due (data_analysis r) = VInt 2
          /\ urgency_level (data_analysis r) = "high"
          /\ impact_score (data_analysis r) = VFloat (PyFloat.of_Z 108)).
Proof.
  intros Ht1 Hmax Ht2 Hrt.
  assert (Hday : us_per_day = 86400000000) by reflexivity.
  destruct (decide (clock (S (w_reads w)) = clock (w_reads w))) as [Heq|Hne].
  - destruct (analyze_request_run uid w 0 Ht1 Hmax) as
      (h' & r & l & Hrun & _ & _ & _ & _ & _ & _ & _ & Hd & Hu & Hi & _);
      [by rewrite Heq, Z.sub_diag|by left|done|].
    eexists _, r. split; [exact Hrun|]. split; [lia|].
    intros _. rewrite Hd, Hu, Hi. repeat split.
  - destruct (analyze_request_run uid w (-1) Ht1 Hmax) as
      (h' & r & l & Hrun & _ & _ & _ & _ & _ & _ & _ & Hd & Hu & Hi & _);
      [|by right|done|].
    { symmetry.
      apply Z.div_unique
        with (r := clock (w_reads w) - clock (S (w_reads w)) + us_per_day);
        lia. }
    eexists _, r. split; [exact Hrun|]. split; [|done].
    intros _. rewrite Hd, Hu, Hi. repeat split.
Qed.

(** Creating events, whether or not it succeeds: no clock reading, no
    call on the connection, the objects that were there unchanged, and
    the objects returned were not there. *)
Lemma new_events_frame (now : datetime) (ms : list mock_event) :
  forall w,
    w_reads (new_events isoformat now ms w).1 = w_reads w
    /\ w_out (new_events isoformat now ms w).1 = w_out w
    /\ (forall l0, is_Some (w_store w !! l0) ->
          w_store (new_events isoformat now ms w).1 !! l0 = w_store w !! l0)
    /\ (forall ls, (new_events isoformat now ms w).2 = Returned ls ->
          forall l, l ∈ ls -> w_store w !! l = None).
Proof.
  induction ms as [|m ms IH]; intros w.
  { cbn [new_events mret W_ret fst snd]. repeat split; try done.
    intros ls [= <-] l Hl. by apply elem_of_nil in Hl. }
  cbn [new_events]. rewrite bindW_eq.
  unfold new_event at 1 2 3 4, run_engine. rewrite bindM_eq.
  unfold lift at 1 2 3 4.
  destruct (datetime_add now (timedelta_days (me_due_in_days m)))
    as [due|e]; [|by repeat split].
  unfold alloc at 1 2 3 4.
  set (l := fresh (dom (w_store w))).
  set (d := mock_event_dict m (isoformat due)).
  assert (Hl : w_store w !! l = None).
  { apply not_elem_of_dom. apply is_fresh. }
  destruct (IH (mk_world (<[l := d]> (w_store w)) (w_reads w) (w_out w)))
    as (Hreads & Hout & Hold & Hnew).
  cbn [w_store w_reads w_out] in *.
  rewrite bindW_eq.
  destruct (new_events isoformat now ms _) as [w1 [ls|f]];
    cbn [fst snd mret W_ret] in *.
  - repeat split; try done.
    + intros l0 Hl0.
      assert (l <> l0) by (intros ->; rewrite Hl in Hl0; by destruct Hl0).
      rewrite Hold by (by rewrite lookup_insert_ne).
      by rewrite lookup_insert_ne.
    + intros ls' [= <-] l' Hl'.
      apply elem_of_cons in Hl' as [->|Hl']; [done|].
      specialize (Hnew ls eq_refl l' Hl').
      destruct (decide (l = l')) as [->|Hne].
      * by rewrite lookup_insert_eq in Hnew.
      * by rewrite lookup_insert_ne in Hnew.
  - repeat split; try done.
    intros l0 Hl0.
    assert (l <> l0) by (intros ->; rewrite Hl in Hl0; by destruct Hl0).
    rewrite Hold by (by rewrite lookup_insert_ne).
    by rewrite lookup_insert_ne.
Qed.

(** X11. A whole analysis request, whatever its outcome, leaves every
    object that existed before it as it was: the derived fields are
    written to the event objects the request itself created. *)
Theorem analyze_request_keeps_existing_objects (uid : string) (w : world)
    (l0 : loc) :
  is_Some (w_store w !! l0) ->
  w_store (analyze_request uid w).1 !! l0 = w_store w !! l0.
Proof.
  intros Hl0.
  unfold analyze_highest_weight_event_request, get_student_data.
  rewrite !bindW_eq. cbn [datetime_now].
  set (now := mk_datetime (clock (w_reads w)) None).
  set (w0 := mk_world (w_store w) (S (w_reads w)) (w_out w)).
  rewrite bindW_eq.
  destruct (new_events_frame now mock_events w0) as (_ & _ & Hold & Hnew).
  specialize (Hold l0 Hl0).
  destruct (new_events isoformat now mock_events w0) as [w1 [ls|f]];
    cbn [fst snd mret W_ret] in *; [|exact Hold].
  rewrite bindW_eq. cbn [datetime_now sd_events]. unfold run_engine.
  cbn [w_store w_reads w_out].
  match goal with
  | |- context [analyze_highest_weight_event ?f ?i ?r ?evs ?t ?u ?h] =>
      pose proof (analyze_store f i r evs t u h) as Hstore;
      destruct (analyze_highest_weight_event f i r evs t u h) as [h2 o]
  end.
  subst w0. cbn [fst w_store] in *. rewrite Hstore, <- Hold.
  apply score_events_keeps_others.
  assert (Hnotin : l0 ∉ ls).
  { intros Hin. rewrite (Hnew ls eq_refl l0 Hin) in Hl0. by destruct Hl0. }
  destruct (decide _); [|apply not_elem_of_nil].
  unfold pending_of. intros Hin. apply list_elem_of_filter in Hin as [_ Hin].
  by apply Hnotin.
Qed.

(** X12. What the store answers when the clock is more than 12 days
    before the end of the year 9999: after one clock reading and without
    a call on the connection, six event objects, distinct, all of them
    new, every one pending, and the reading as [last_updated]. *)
Theorem get_student_data_new_events (uid : string) (w : world) :
  0 <= clock (w_reads w) ->
  clock (w_reads w) + 12 * us_per_day < max_wall ->
  exists h' sd,
    get_student_data isoformat clock uid w
      = (mk_world h' (S (w_reads w)) (w_out w), Returned sd)
    /\ sd_user_id sd = uid
    /\ sd_courses sd = mock_courses
    /\ sd_last_updated sd = isoformat (mk_datetime (clock (w_reads w)) None)
    /\ length (sd_events sd) = 6%nat
    /\ NoDup (sd_events sd)
    /\ (forall l, l ∈ sd_events sd ->
          w_store w !! l = None
          /\ exists d, h' !! l = Some d
                       /\ d !! "status" = Some (VStr "pending")).
Proof.
  intros Ht Hmax.
  assert (Hday : us_per_day = 86400000000) by reflexivity.
  destruct (new_events_run (clock (w_reads w)) mock_events
              (mk_world (w_store w) (S (w_reads w)) (w_out w)))
    as (ls & h' & Hrun & Hnd & Hfresh & Hall & _).
  { unfold mock_events. repeat constructor;
      cbn [me_due_in_days]; unfold max_wall in *; lia. }
  cbn [w_store w_reads w_out] in *.
  exists h', (mk_student_data uid mock_courses ls
                (isoformat (mk_datetime (clock (w_reads w)) None))).
  split.
  { unfold get_student_data. rewrite bindW_eq. cbn [datetime_now].
    by rewrite bindW_eq, Hrun. }
  cbn [sd_user_id sd_courses sd_last_updated sd_events].
  split; [reflexivity|]. split; [reflexivity|]. split; [reflexivity|].
  split; [by rewrite (Forall2_length _ _ _ Hall)|].
  split; [exact Hnd|].
  intros l Hl. split; [by apply Hfresh|].
  apply list_elem_of_lookup in Hl as [i Hi].
  destruct (Forall2_lookup_l _ _ _ _ _ Hall Hi) as (m & Hm & Hd).
  eexists. split; [exact Hd|].
  apply list_elem_of_lookup_2 in Hm. unfold mock_events in Hm.
  repeat (apply elem_of_cons in Hm as [->|Hm]); try reflexivity.
  by apply elem_of_nil in Hm.
Qed.

(** The analysis depends on the user only through the echoed field. *)
Lemma analyze_user_id (events : list loc) (now : datetime)
    (u1 u2 : string) (h : store) :
  analyze_highest_weight_event fromisoformat isoformat float_repr
    events now u1 h
  = match analyze_highest_weight_event fromisoformat isoformat float_repr
            events now u2 h with
    | (h', Ok r) => (h', Ok (with_user_id u1 r))
    | (h', Raise e) => (h', Raise e)
    end.
Proof.
  unfold analyze_highest_weight_event. rewrite !bindM_eq.
  destruct (filter_pending events h) as [h1 [pending|e]]; [|reflexivity].
  destruct pending as [|p pending]; [reflexivity|].
  repeat (rewrite !bindM_eq;
          match goal with
          | |- context [match ?m ?h0 with (_, _) => _ end] =>
              destruct (m h0) as [? [?|?]]
          end; [|reflexivity]).
  reflexivity.
Qed.

(** X13. The user named in a request has no influence on the analysis:
    two requests in the same state end in the same state, fail alike or
    return results that differ in the echoed [user_id] only. *)
Theorem analyze_request_user_id_only_echoed (u1 u2 : string) (w : world) :
  analyze_request u1 w
  = match analyze_request u2 w with
    | (w', Returned r) => (w', Returned (with_user_id u1 r))
    | (w', Failed f) => (w', Failed f)
    end.
Proof.
  unfold analyze_highest_weight_event_request, get_student_data.
  rewrite !bindW_eq. cbn [datetime_now]. rewrite !bindW_eq.
  destruct (new_events _ _ _ _) as [w1 [ls|f]]; [|reflexivity].
  cbn [mret W_ret]. rewrite !bindW_eq.
  cbn [datetime_now sd_events]. unfold run_engine. cbn [w_store w_reads w_out].
  rewrite (analyze_user_id ls _ u1 u2).
  by destruct (analyze_highest_weight_event _ _ _ _ _ u2 _) as [h2 [r|e]].
Qed.

(** *** The handler *)

Lemma quiet_bind {A B} (m : W A) (k : A -> W B) :
  quiet m -> (forall a, quiet (k a)) -> quiet (x ← m; k x).
Proof.
  intros Hm Hk w. rewrite bindW_eq. specialize (Hm w).
  destruct (m w) as [w1 [a|f]]; [|exact Hm].
  by rewrite Hk.
Qed.

Lemma quiet_datetime_now : quiet (datetime_now clock).
Proof. by intros w. Qed.

Lemma quiet_run_engine {A} (m : M A) : quiet (run_engine m).
Proof. intros w. unfold run_engine. by destruct (m (w_store w)). Qed.

Lemma quiet_user_id_param (q : gmap string (list string)) :
  quiet (user_id_param q).
Proof. intros w. unfold user_id_param. by destruct (default _ _). Qed.

Lemma quiet_get_student_data (uid : string) :
  quiet (get_student_data isoformat clock uid).
Proof.
  apply quiet_bind; [apply quiet_datetime_now|]. intros now.
  apply quiet_bind; [|by intros ls w].
  intros w. apply new_events_frame.
Qed.

Lemma quiet_analyze_request (uid : string) : quiet (analyze_request uid).
Proof.
  apply quiet_bind; [apply quiet_get_student_data|]. intros sd.
  apply quiet_bind; [apply quiet_datetime_now|]. intros t.
  apply quiet_run_engine.
Qed.

(** A JSON response: the status line, the content type, the three CORS
    headers, the end of the headers and the body, in this order. *)
Lemma _send_json_response_run (data : json) (code : Z) (w : world) :
  _send_json_response json_dumps strftime_HMS request_log clock data code w
  = (mk_world (w_store w) (S (w_reads w))
       (w_out w
        ++ log_line (clock (w_reads w)) code
           :: SendResponse code
           :: SendHeader "Content-Type" "application/json"
           :: cors_headers
           ++ [EndHeaders; WfileWrite (json_dumps (w_store w) data)]),
     Returned tt).
Proof.
  unfold _send_json_response, _set_cors_headers, send_response, log_message,
    datetime_now, send_header, end_headers, wfile_write, dumps, emit,
    cors_headers.
  cbv [mbind W_bind]. cbn [w_store w_reads w_out].
  by rewrite <- !app_assoc.
Qed.

Lemma _serve_dashboard_run (w : world) :
  _serve_dashboard html_content strftime_HMS request_log clock w
  = (mk_world (w_store w) (S (w_reads w))
       (w_out w
        ++ log_line (clock (w_reads w)) 200
           :: SendResponse 200
           :: SendHeader "Content-Type" "text/html"
           :: cors_headers ++ [EndHeaders; WfileWrite html_content]),
     Returned tt).
Proof.
  unfold _serve_dashboard, _set_cors_headers, send_response, log_message,
    datetime_now, send_header, end_headers, wfile_write, emit, cors_headers.
  cbv [mbind W_bind]. cbn [w_store w_reads w_out].
  by rewrite <- !app_assoc.
Qed.

Local Abbreviation handle_GET :=
  (do_GET fromisoformat isoformat float_repr url_path url_query parse_qs
     json_dumps html_content strftime_HMS request_log clock).

(** X14. A request for a path the handler does not know is answered
    with status 404 and a JSON body that names the three API endpoints;
    it touches no object, and reads the clock once, for the log line. *)
Theorem do_GET_unknown_path (self_path : string) (w : world) :
  url_path self_path ∉ known_paths ->
  handle_GET self_path w
  = (mk_world (w_store w) (S (w_reads w))
       (w_out w
        ++ log_line (clock (w_reads w)) 404
           :: SendResponse 404
           :: SendHeader "Content-Type" "application/json"
           :: cors_headers
           ++ [EndHeaders;
               WfileWrite
                 (json_dumps (w_store w)
                    (JObj [("error", jstr "Endpoint not found");
                           ("available_endpoints",
                            JList [jstr "/api/health";
                                   jstr "/api/highest-weight-event";
                                   jstr "/api/student-data"])]))]),
     Returned tt).
Proof.
  intros Hunknown. unfold known_paths in Hunknown.
  rewrite !not_elem_of_cons in Hunknown.
  destruct Hunknown as (H1 & H2 & H3 & H4 & _).
  unfold do_GET.
  rewrite !bool_decide_eq_false_2 by assumption.
  apply _send_json_response_run.
Qed.

(** X15. A request that fails sends nothing: when [do_GET] ends with an
    exception, no status line, header or body has been written, and no
    line has been logged. *)
Theorem do_GET_failure_sends_nothing (self_path : string) (w w' : world)
    (f : failure) :
  handle_GET self_path w = (w', Failed f) -> w_out w' = w_out w.
Proof.
  unfold do_GET. intros Hrun.
  repeat match type of Hrun with
         | (if bool_decide ?P then _ else _) _ = _ =>
             destruct (bool_decide P)
         end.
  - by rewrite _serve_dashboard_run in Hrun.
  - rewrite bindW_eq in Hrun. cbn [datetime_now] in Hrun.
    by rewrite _send_json_response_run in Hrun.
  - rewrite bindW_eq in Hrun.
    pose proof (quiet_user_id_param (parse_qs (url_query self_path)) w) as Hq.
    destruct (user_id_param _ w) as [w1 [uid|f1]]; cbn [fst] in Hq.
    + rewrite bindW_eq in Hrun.
      pose proof (quiet_analyze_request uid w1) as Hq1.
      destruct (analyze_highest_weight_event_request _ _ _ _ uid w1)
        as [w2 [r|f2]]; cbn [fst] in Hq1.
      * by rewrite _send_json_response_run in Hrun.
      * injection Hrun as <- _. congruence.
    + by injection Hrun as <- _.
  - rewrite bindW_eq in Hrun.
    pose proof (quiet_user_id_param (parse_qs (url_query self_path)) w) as Hq.
    destruct (user_id_param _ w) as [w1 [uid|f1]]; cbn [fst] in Hq.
    + rewrite bindW_eq in Hrun.
      pose proof (quiet_get_student_data uid w1) as Hq1.
      destruct (get_student_data _ _ uid w1) as [w2 [r|f2]]; cbn [fst] in Hq1.
      * by rewrite _send_json_response_run in Hrun.
      * injection Hrun as <- _. congruence.
    + by injection Hrun as <- _.
  - by rewrite _send_json_response_run in Hrun.
Qed.

(** X16. Every response of [do_GET] has one shape: one log line, then a
    status line, 200 exactly for the four known paths and 404 otherwise,
    then the content type, HTML for the dashboard and JSON for the rest,
    then the three CORS headers, the end of the headers, and one write
    of the body. *)
Theorem do_GET_response_shape (self_path : string) (w w' : world) :
  handle_GET self_path w = (w', Returned tt) ->
  exists line body,
    w_out w'
    = w_out w
      ++ LogLine line
         :: SendResponse
           (if bool_decide (url_path self_path ∈ known_paths)
            then 200 else 404)
         :: SendHeader "Content-Type"
              (if bool_decide (url_path self_path = "/")
               then "text/html" else "application/json")
         :: cors_headers ++ [EndHeaders; WfileWrite body].
Proof.
  unfold do_GET, known_paths. intros Hrun.
  destruct (decide (url_path self_path = "/")) as [H1|H1].
  { rewrite bool_decide_eq_true_2 in Hrun by done.
    rewrite _serve_dashboard_run in Hrun. injection Hrun as <-.
    rewrite !bool_decide_eq_true_2
      by (done || rewrite H1; apply list_elem_of_here).
    by eexists _, _. }
  rewrite (bool_decide_eq_false_2 _ H1) in Hrun.
  rewrite (bool_decide_eq_false_2 _ H1).
  destruct (decide (url_path self_path = "/api/health")) as [H2|H2].
  { rewrite bool_decide_eq_true_2 in Hrun by done.
    rewrite bindW_eq in Hrun. cbn [datetime_now] in Hrun.
    rewrite _send_json_response_run in Hrun. injection Hrun as <-.
    rewrite bool_decide_eq_true_2
      by (rewrite H2; repeat constructor).
    by eexists _, _. }
  rewrite (bool_decide_eq_false_2 _ H2) in Hrun.
  destruct (decide (url_path self_path = "/api/highest-weight-event"))
    as [H3|H3].
  { rewrite bool_decide_eq_true_2 in Hrun by done.
    rewrite bool_decide_eq_true_2
      by (rewrite H3; repeat constructor).
    rewrite bindW_eq in Hrun.
    pose proof (quiet_user_id_param (parse_qs (url_query self_path)) w) as Hq.
    destruct (user_id_param _ w) as [w1 [uid|f1]]; cbn [fst] in Hq;
      [|discriminate Hrun].
    rewrite bindW_eq in Hrun.
    pose proof (quiet_analyze_request uid w1) as Hq1.
    destruct (analyze_highest_weight_event_request _ _ _ _ uid w1)
      as [w2 [r|f2]]; cbn [fst] in Hq1; [|discriminate Hrun].
    rewrite _send_json_response_run in Hrun. injection Hrun as <-.
    cbn [w_out]. rewrite Hq1, Hq. by eexists _, _. }
  rewrite (bool_decide_eq_false_2 _ H3) in Hrun.
  destruct (decide (url_path self_path = "/api/student-data")) as [H4|H4].
  { rewrite bool_decide_eq_true_2 in Hrun by done.
    rewrite bool_decide_eq_true_2
      by (rewrite H4; repeat constructor).
    rewrite bindW_eq in Hrun.
    pose proof (quiet_user_id_param (parse_qs (url_query self_path)) w) as Hq.
    destruct (user_id_param _ w) as [w1 [uid|f1]]; cbn [fst] in Hq;
      [|discriminate Hrun].
    rewrite bindW_eq in Hrun.
    pose proof (quiet_get_student_data uid w1) as Hq1.
    destruct (get_student_data _ _ uid w1) as [w2 [r|f2]]; cbn [fst] in Hq1;
      [|discriminate Hrun].
    rewrite _send_json_response_run in Hrun. injection Hrun as <-.
    cbn [w_out]. rewrite Hq1, Hq. by eexists _, _. }
  rewrite (bool_decide_eq_false_2 _ H4) in Hrun.
  rewrite _send_json_response_run in Hrun. injection Hrun as <-.
  rewrite bool_decide_eq_false_2
    by (rewrite !not_elem_of_cons; repeat split; auto using not_elem_of_nil).
  by eexists _, _.
Qed.

(** The answer to a preflight request: status 200, the three CORS
    headers and the end of the headers, no content type and no body. *)
Lemma do_OPTIONS_run (w : world) :
  do_OPTIONS strftime_HMS request_log clock w
  = (mk_world (w_store w) (S (w_reads w))
       (w_out w
        ++ log_line (clock (w_reads w)) 200
           :: SendResponse 200 :: cors_headers ++ [EndHeaders]),
     Returned tt).
Proof.
  unfold do_OPTIONS, _set_cors_headers, send_response, log_message,
    datetime_now, send_header, end_headers, emit, cors_headers.
  cbv [mbind W_bind]. cbn [w_store w_reads w_out].
  by rewrite <- !app_assoc.
Qed.

End ServerProperties.

Lemma analyze_request_selects_midterm_witness :
  exists h' r l,
    ServerSample.analyze ServerSample.clock "student123" ServerSample.world0
      = (mk_world h' 2 [], Returned r)
    /\ data_event r = Some l
    /\ total_pending_events (data_analysis r) = 6.
Proof.
  destruct (analyze_request_selects_midterm Iso.fromisoformat Iso.isoformat
              Sample.float_repr ServerSample.clock "student123"
              ServerSample.world0)
    as (h' & r & l & Hrun & _ & Hev & _ & _ & Htot & _).
  - by vm_compute.
  - by vm_compute.
  - split; by vm_compute.
  - unfold mock_events. repeat constructor; vm_compute; reflexivity.
  - exists h', r, l. repeat split; assumption.
Defined.

Lemma analyze_request_days_to_due_witness :
  exists w' r,
    ServerSample.analyze ServerSample.clock "student123" ServerSample.world0
      = (w', Returned r)
    /\ days_to_due (data_analysis r) = VInt 1
    /\ urgency_level (data_analysis r) = "critical".
Proof.
  destruct (analyze_request_days_to_due Iso.fromisoformat Iso.isoformat
              Sample.float_repr ServerSample.clock "student123"
              ServerSample.world0)
    as (w' & r & Hrun & Hlater & _).
  - by vm_compute.
  - by vm_compute.
  - split; by vm_compute.
  - unfold mock_events. repeat constructor; vm_compute; reflexivity.
  - exists w', r. split; [exact Hrun|].
    destruct Hlater as (Hd & Hu & _); [by vm_compute|]. by split.
Defined.

Lemma analyze_request_keeps_existing_objects_witness :
  w_store
    (ServerSample.analyze ServerSample.clock "student123"
       (mk_world Sample.store1 0 [])).1 !! 2%positive
  = Sample.store1 !! 2%positive.
Proof.
  apply (analyze_request_keeps_existing_objects Iso.fromisoformat
           Iso.isoformat Sample.float_repr ServerSample.clock "student123"
           (mk_world Sample.store1 0 []) 2%positive).
  cbn [w_store]. apply not_eq_None_Some.
  destruct (Sample.store1 !! 2%positive) eqn:Hget; [discriminate|].
  assert (Hin : bool_decide (2%positive ∈ dom Sample.store1) = true)
    by (by vm_compute).
  apply bool_decide_eq_true_1, elem_of_dom in Hin.
  rewrite Hget in Hin. by destruct Hin.
Defined.

Lemma get_student_data_new_events_witness :
  exists h' sd,
    get_student_data Iso.isoformat ServerSample.clock "student123"
      ServerSample.world0
    = (mk_world h' 1 [], Returned sd)
    /\ length (sd_events sd) = 6%nat.
Proof.
  destruct (get_student_data_new_events Iso.isoformat ServerSample.clock
              "student123" ServerSample.world0)
    as (h' & sd & Hrun & _ & _ & _ & Hlen & _).
  - by vm_compute.
  - by vm_compute.
  - exists h', sd. by split.
Defined.

Lemma do_GET_unknown_path_witness :
  ServerSample.do_GET "/nope" ServerSample.world0
  = (mk_world ∅ 1
       (LogLine "[12:00:00] GET 404 -"
        :: SendResponse 404
        :: SendHeader "Content-Type" "application/json"
        :: cors_headers ++ [EndHeaders; WfileWrite "<json>"]),
     Returned tt).
Proof.
  apply (do_GET_unknown_path Iso.fromisoformat Iso.isoformat
           Sample.float_repr ServerSample.url_path ServerSample.url_query
           ServerSample.parse_qs ServerSample.json_dumps
           ServerSample.html_content ServerSample.strftime_HMS
           ServerSample.request_log ServerSample.clock "/nope"
           ServerSample.world0).
  unfold known_paths, ServerSample.url_path.
  rewrite !not_elem_of_cons. repeat split; try discriminate.
  apply not_elem_of_nil.
Defined.

Lemma do_GET_response_shape_witness :
  exists line body,
    w_out (ServerSample.do_GET "/api/highest-weight-event"
             ServerSample.world0).1
    = LogLine line
      :: SendResponse 200
      :: SendHeader "Content-Type" "application/json"
      :: cors_headers ++ [EndHeaders; WfileWrite body].
Proof.
  destruct (ServerSample.do_GET "/api/highest-weight-event"
              ServerSample.world0) as [w' [[]|f]] eqn:Hrun.
  - apply (do_GET_response_shape Iso.fromisoformat Iso.isoformat
             Sample.float_repr ServerSample.url_path ServerSample.url_query
             ServerSample.parse_qs ServerSample.json_dumps
             ServerSample.html_content ServerSample.strftime_HMS
             ServerSample.request_log ServerSample.clock
             "/api/highest-weight-event" ServerSample.world0 w' Hrun).
  - exfalso.
    assert (Hok : match ServerSample.do_GET "/api/highest-weight-event"
                          ServerSample.world0 with
                  | (_, Returned _) => true
                  | (_, Failed _) => false
                  end = true) by (by vm_compute).
    rewrite Hrun in Hok. discriminate Hok.
Defined.

Lemma do_GET_failure_sends_nothing_witness :
  exists w',
    do_GET Iso.fromisoformat Iso.isoformat Sample.float_repr
      ServerSample.url_path ServerSample.url_query ServerSample.parse_qs
      ServerSample.json_dumps ServerSample.html_content
      ServerSample.strftime_HMS ServerSample.request_log
      (fun _ => max_wall - us_per_day) "/api/student-data"
      ServerSample.world0
    = (w', Failed (EngineError OverflowError))
    /\ w_out w' = [].
Proof.
  eexists. split; [vm_compute; reflexivity|].
  eapply (do_GET_failure_sends_nothing Iso.fromisoformat Iso.isoformat
            Sample.float_repr ServerSample.url_path ServerSample.url_query
            ServerSample.parse_qs ServerSample.json_dumps
            ServerSample.html_content ServerSample.strftime_HMS
            ServerSample.request_log (fun _ => max_wall - us_per_day)
            "/api/student-data" ServerSample.world0).
  vm_compute. reflexivity.
Defined.

